(** * Ozon API console client: the schema-driven payload builder

    A shallow embedding of [main.py] and the properties of its interactive
    payload builder ([convert_primitive], [prompt_for_value],
    [prompt_for_object], [prompt_for_payload]) and of the session loop
    around it ([choose_command], [run_command], [main]).

    Python values are an inductive type, a [dict] is an association list
    in insertion order, text is a [string] of UTF-8 bytes, and the effects
    of the program (reading a line, writing to the terminal, one HTTP
    exchange, raising an exception) are threaded through a state-and-error
    monad over an explicit [world].

    What the model leaves out: [str.strip] knows the whole of Python's
    table of blanks, but [str.lower] and [str.upper] know the ASCII and
    the Cyrillic letters only, and [int] and [float] the ASCII digits
    only; a [float] is the decimal it was read from, without the
    rounding to binary64; the interpreter's own limits (recursion depth,
    digits of an [int]) are not represented; the text of a formatted
    value and of [json.dumps] is kept as a structured piece, not
    rendered, and the terminal is taken to accept what is printed. *)

From Stdlib Require Import String Ascii List ZArith NArith Bool Lia.
From Stdlib Require Import Sorted Permutation.
Import ListNotations.
Local Open Scope string_scope.
Local Set Warnings "-register-all".

(* ================================================================== *)
(** ** Text: the [str] methods the program calls *)
(* ================================================================== *)

Module Str.

Definition in_range (lo hi n : N) : bool := ((lo <=? n) && (n <=? hi))%N.

(** Length in bytes of the UTF-8 sequence introduced by a lead byte. *)
Definition utf8_width (c : ascii) : nat :=
  let n := N_of_ascii c in
  if (n <? 192)%N then 1 else if (n <? 224)%N then 2
  else if (n <? 240)%N then 3 else 4.

Fixpoint take (n : nat) (s : string) : string :=
  match n, s with
  | S k, String c r => String c (take k r)
  | _, _ => ""
  end.

Fixpoint drop (n : nat) (s : string) : string :=
  match n, s with
  | S k, String _ r => drop k r
  | _, _ => s
  end.

(** Iterating a [str] yields its characters, one code point each. *)
Fixpoint chars_fuel (fuel : nat) (s : string) : list string :=
  match fuel, s with
  | S k, String c _ =>
      let w := utf8_width c in take w s :: chars_fuel k (drop w s)
  | _, _ => []
  end.

Definition chars (s : string) : list string := chars_fuel (String.length s) s.

(** [str.isspace] of one character, given by its UTF-8 bytes; the whole
    of Python's table: TAB..CR, FS..US and the space; U+0085 and U+00A0;
    U+1680; U+2000..U+200A, U+2028, U+2029 and U+202F; U+205F; U+3000. *)
Definition isspace (ch : string) : bool :=
  match map N_of_ascii (list_ascii_of_string ch) with
  | [a] => in_range 9 13 a || in_range 28 32 a
  | [a; b] => (a =? 194)%N && ((b =? 133)%N || (b =? 160)%N)
  | [a; b; c] =>
      ((a =? 225)%N && (b =? 154)%N && (c =? 128)%N)
      || ((a =? 226)%N && (b =? 128)%N
          && (in_range 128 138 c || in_range 168 169 c || (c =? 175)%N))
      || ((a =? 226)%N && (b =? 129)%N && (c =? 159)%N)
      || ((a =? 227)%N && (b =? 128)%N && (c =? 128)%N)
  | _ => false
  end.

Fixpoint drop_while (p : string -> bool) (l : list string) : list string :=
  match l with
  | [] => []
  | ch :: rest => if p ch then drop_while p rest else l
  end.

(** The text without the characters of class [p] at its two ends. *)
Definition strip_with (p : string -> bool) (s : string) : string :=
  String.concat "" (rev (drop_while p (rev (drop_while p (chars s))))).

(** [str.strip()]. *)
Definition strip (s : string) : string := strip_with isspace s.

(** The text holds ASCII characters only. *)
Definition is_ascii (s : string) : bool :=
  forallb (fun c => (N_of_ascii c <? 128)%N) (list_ascii_of_string s).

(** One character is well-formed UTF-8 and no surrogate: the encoder of
    the terminal accepts it. *)
Definition encodable_char (ch : string) : bool :=
  let cont (n : N) := in_range 128 191 n in
  match map N_of_ascii (list_ascii_of_string ch) with
  | [a] => (a <? 128)%N
  | [a; b] => in_range 194 223 a && cont b
  | [a; b; c] =>
      cont c
      && (((a =? 224)%N && in_range 160 191 b)
          || (in_range 225 236 a && cont b)
          || ((a =? 237)%N && in_range 128 159 b)
          || (in_range 238 239 a && cont b))
  | [a; b; c; d] =>
      cont c && cont d
      && (((a =? 240)%N && in_range 144 191 b)
          || (in_range 241 243 a && cont b)
          || ((a =? 244)%N && in_range 128 143 b))
  | _ => false
  end.

Definition encodable (s : string) : bool := forallb encodable_char (chars s).

Definition lower_ascii (c : ascii) : ascii :=
  let n := N_of_ascii c in
  if in_range 65 90 n then ascii_of_N (n + 32) else c.

Definition upper_ascii (c : ascii) : ascii :=
  let n := N_of_ascii c in
  if in_range 97 122 n then ascii_of_N (n - 32) else c.

(** [str.lower()] on UTF-8 text: ASCII letters and the basic Cyrillic
    block U+0400..U+042F (lead byte 0xD0), whose lower-case forms are
    U+0450..U+045F and U+0430..U+044F.  Letters of other scripts are
    left as they are. *)
Fixpoint lower (s : string) : string :=
  match s with
  | EmptyString => EmptyString
  | String c r =>
      match r with
      | String c2 r2 =>
          if (N_of_ascii c =? 208)%N then
            let n := N_of_ascii c2 in
            if in_range 128 143 n then
              String (ascii_of_N 209) (String (ascii_of_N (n + 16)) (lower r2))
            else if in_range 144 159 n then
              String c (String (ascii_of_N (n + 32)) (lower r2))
            else if in_range 160 175 n then
              String (ascii_of_N 209) (String (ascii_of_N (n - 32)) (lower r2))
            else String c (lower r)
          else String (lower_ascii c) (lower r)
      | EmptyString => String (lower_ascii c) EmptyString
      end
  end.

(** [str.upper()], the mirror image of [lower] on the same alphabets. *)
Fixpoint upper (s : string) : string :=
  match s with
  | EmptyString => EmptyString
  | String c r =>
      match r with
      | String c2 r2 =>
          let n := N_of_ascii c2 in
          if (N_of_ascii c =? 208)%N && in_range 176 191 n then
            String c (String (ascii_of_N (n - 32)) (upper r2))
          else if (N_of_ascii c =? 209)%N && in_range 128 143 n then
            String (ascii_of_N 208) (String (ascii_of_N (n + 32)) (upper r2))
          else if (N_of_ascii c =? 209)%N && in_range 144 159 n then
            String (ascii_of_N 208) (String (ascii_of_N (n - 16)) (upper r2))
          else String (upper_ascii c) (upper r)
      | EmptyString => String (upper_ascii c) EmptyString
      end
  end.

(** [sep.join(parts)] on a list of strings. *)
Fixpoint join (sep : string) (parts : list string) : string :=
  match parts with
  | [] => ""
  | [p] => p
  | p :: rest => p ++ sep ++ join sep rest
  end.

Definition digit (c : ascii) : option N :=
  let n := N_of_ascii c in
  if in_range 48 57 n then Some (n - 48)%N else None.

Definition is_digit (c : ascii) : bool :=
  match digit c with Some _ => true | None => false end.

(** A run of decimal digits in which single underscores may separate two
    digits, as [int()] and [float()] accept; returns the digits read and
    the text after them. *)
Fixpoint span_digits (s : string) : list N * string :=
  match s with
  | EmptyString => ([], s)
  | String c r =>
      match digit c with
      | None => ([], s)
      | Some d =>
          match r with
          | String "_" r' =>
              match r' with
              | String c2 _ =>
                  if is_digit c2
                  then let (ds, rest) := span_digits r' in (d :: ds, rest)
                  else ([d], r)
              | EmptyString => ([d], r)
              end
          | _ => let (ds, rest) := span_digits r in (d :: ds, rest)
          end
      end
  end.

Definition digits_value (ds : list N) : N :=
  fold_left (fun acc d => acc * 10 + d)%N ds 0%N.

(** An optional sign: [(negative, rest)]. *)
Definition sign (s : string) : bool * string :=
  match s with
  | String "-" r => (true, r)
  | String "+" r => (false, r)
  | _ => (false, s)
  end.

End Str.

(* ================================================================== *)
(** ** Python values *)
(* ================================================================== *)

(** A [float] is carried as the decimal it was read from (sign, decimal
    mantissa and power of ten); the rounding to binary64 is not applied,
    so [Fdec false 314 (-2)] stands for the float written [3.14]. *)
Inductive pyfloat :=
| Fnan
| Finf (negative : bool)
| Fdec (negative : bool) (mantissa : N) (exp10 : Z).

(** The values a schema, a default or a payload can hold: what a catalog
    literal and [json.loads] produce.  A [dict] keeps insertion order and
    its keys are strings. *)
Inductive value :=
| VNone
| VBool (b : bool)
| VInt (z : Z)
| VFloat (f : pyfloat)
| VStr (s : string)
| VList (items : list value)
| VDict (entries : list (string * value)).

Definition dict := list (string * value).

Fixpoint depth (v : value) : nat :=
  match v with
  | VList l => S (fold_right (fun x m => Nat.max (depth x) m) 0 l)
  | VDict d =>
      S (fold_right (fun (kv : string * value) m =>
                      Nat.max (let (_, x) := kv in depth x) m) 0 d)
  | _ => 0
  end.

Fixpoint dict_get (d : dict) (k : string) : option value :=
  match d with
  | [] => None
  | (k', v) :: rest => if k' =? k then Some v else dict_get rest k
  end.

(** [d[k] = v]: an existing key keeps its position, a new one goes last. *)
Fixpoint dict_set (d : dict) (k : string) (v : value) : dict :=
  match d with
  | [] => [(k, v)]
  | (k', v') :: rest =>
      if k' =? k then (k', v) :: rest else (k', v') :: dict_set rest k v
  end.

(** [d.get(k, default)] on a [dict]. *)
Definition get_or (d : dict) (k : string) (default : value) : value :=
  match dict_get d k with Some v => v | None => default end.

Definition keys (d : dict) : list string := map fst d.

Definition is_none (v : value) : bool :=
  match v with VNone => true | _ => false end.

Definition is_mapping (v : value) : bool :=
  match v with VDict _ => true | _ => false end.

Definition is_sequence (v : value) : bool :=
  match v with VList _ => true | _ => false end.

(** [v == s] for a string literal [s]. *)
Definition eq_str (v : value) (s : string) : bool :=
  match v with VStr t => t =? s | _ => false end.

(** A decimal rounds to the float zero when it is at most half of the
    least subnormal, [2^-1075]. *)
Definition float_is_zero (f : pyfloat) : bool :=
  match f with
  | Fdec _ m e =>
      (m =? 0)%N || ((e <? 0)%Z && (m * 2 ^ 1075 <=? 10 ^ Z.to_N (- e))%N)
  | _ => false
  end.

(** Truth value of an object, as [if v], [not v] and [v or w] test it. *)
Definition truthy (v : value) : bool :=
  match v with
  | VNone => false
  | VBool b => b
  | VInt z => negb (z =? 0)%Z
  | VFloat f => negb (float_is_zero f)
  | VStr s => negb (s =? "")
  | VList l => match l with [] => false | _ => true end
  | VDict d => match d with [] => false | _ => true end
  end.

Definition hashable (v : value) : bool :=
  match v with VList _ | VDict _ => false | _ => true end.

Definition str_of (v : value) : option string :=
  match v with VStr s => Some s | _ => None end.

Fixpoint all_str (l : list value) : option (list string) :=
  match l with
  | [] => Some []
  | v :: rest =>
      match str_of v, all_str rest with
      | Some s, Some ss => Some (s :: ss)
      | _, _ => None
      end
  end.

(* ================================================================== *)
(** ** Exceptions, the world and the monad *)
(* ================================================================== *)

(** The exceptions the program can raise.  [FuelExhausted] is not a
    Python exception: it marks a bound of this model's recursions that
    ran out, and the [*_within_fuel] theorems show that neither the
    builder nor the session ever produces it. *)
Inductive exn :=
| ValueError
| JSONDecodeError
| TypeError
| AttributeError
| KeyError
| IndexError
| EOFError
| RequestException
| SystemExit (code : Z)
| FuelExhausted.

(** [except Exception]: everything but [SystemExit]. *)
Definition is_Exception (e : exn) : bool :=
  match e with SystemExit _ | FuelExhausted => false | _ => true end.

(** [except ValueError]: [json.JSONDecodeError] is a subclass. *)
Definition is_ValueError (e : exn) : bool :=
  match e with ValueError | JSONDecodeError => true | _ => false end.

(** Terminal text is kept structured: literal text, a value formatted by
    an f-string, a value rendered by [json.dumps], an exception's message. *)
Inductive piece :=
| Lit (s : string)
| Fmt (v : value)
| Dump (v : value)
| Msg (e : exn).

Definition text := list piece.

Record response := {
  status_code : Z;
  body_text : string;
  body_json : option value   (* [None]: [response.json()] raises *)
}.

Inductive event :=
| Printed (t : text)
| Prompted (t : text)
| Requested (method url : string) (headers : list (string * string))
            (body : value).

(** What the program runs against: the lines the operator will type, the
    replies the server will give ([None]: the request fails), and the
    trace of what the program has written or sent so far. *)
Record world := {
  stdin : list string;
  network : list (option response);
  trace : list event
}.

Inductive outcome (A : Type) :=
| Return (a : A)
| Raise (e : exn).
Arguments Return {A} a.
Arguments Raise {A} e.

Definition M (A : Type) : Type := world -> outcome A * world.

Definition ret {A} (a : A) : M A := fun w => (Return a, w).

Definition raise {A} (e : exn) : M A := fun w => (Raise e, w).

Definition bind {A B} (c : M A) (k : A -> M B) : M B :=
  fun w =>
    match c w with
    | (Return a, w') => k a w'
    | (Raise e, w') => (Raise e, w')
    end.

(** [try: c  except <handles>: h]. *)
Definition try_except {A} (c : M A) (handles : exn -> bool) (h : exn -> M A)
  : M A :=
  fun w =>
    match c w with
    | (Raise e, w') => if handles e then h e w' else (Raise e, w')
    | r => r
    end.

Definition lift {A} (e : exn) (o : option A) : M A :=
  match o with Some a => ret a | None => raise e end.

Notation "x <- c ;; k" := (bind c (fun x => k))
  (at level 61, c at next level, right associativity).
Notation "c ;; k" := (bind c (fun _ => k))
  (at level 61, right associativity).

Definition emit (e : event) : M unit :=
  fun w => (Return tt,
            {| stdin := stdin w; network := network w;
               trace := trace w ++ [e] |}).

(* ================================================================== *)
(** ** Built-ins and library calls *)
(* ================================================================== *)

Module Py.

(** [print(t)], on a terminal whose encoder accepts the text: a text
    that it refuses (a lone surrogate, a script outside the locale) is
    outside the model, and the theorems on what is printed from typed or
    received data ask for an encodable text. *)
Definition print (t : text) : M unit := emit (Printed t).

(** [input(prompt)]: shows the prompt and returns the next line without
    its newline; [EOFError] when the input is at its end. *)
Definition input (prompt : text) : M string :=
  emit (Prompted prompt) ;;
  fun w =>
    match stdin w with
    | [] => (Raise EOFError, w)
    | line :: rest =>
        (Return line,
         {| stdin := rest; network := network w; trace := trace w |})
    end.

(** The blanks that [int()] and [float()] drop around a number: those of
    [str.strip] except FS..US. *)
Definition number_blank (ch : string) : bool :=
  Str.isspace ch
  && negb (match ch with
           | String a "" => Str.in_range 28 31 (N_of_ascii a)
           | _ => false
           end).

(** [int(s)]: base-10 literal, surrounding blanks and a sign allowed.
    The digits read are the ASCII ones: on a text that holds decimal
    digits of another script the result stands for nothing, and the
    theorems that need a refusal ask for an ASCII text. *)
Definition parse_int (s : string) : option Z :=
  let (neg, body) := Str.sign (Str.strip_with number_blank s) in
  match Str.span_digits body with
  | ((_ :: _) as ds, "") =>
      let n := Z.of_N (Str.digits_value ds) in
      Some (if neg then (- n)%Z else n)
  | _ => None
  end.

Definition int (s : string) : M Z := lift ValueError (parse_int s).

Definition exponent (s : string) : option Z :=
  match s with
  | "" => Some 0%Z
  | String c r =>
      if (c =? "e")%char || (c =? "E")%char then
        let (neg, body) := Str.sign r in
        match Str.span_digits body with
        | ((_ :: _) as ds, "") =>
            let n := Z.of_N (Str.digits_value ds) in
            Some (if neg then (- n)%Z else n)
        | _ => None
        end
      else None
  end.

(** [float(s)]: [inf], [infinity] and [nan] in any case, or a decimal
    literal with optional fraction and exponent (ASCII digits, as for
    [parse_int]). *)
Definition parse_float (s : string) : option pyfloat :=
  let (neg, body) := Str.sign (Str.strip_with number_blank s) in
  let word := Str.lower body in
  if (word =? "inf") || (word =? "infinity") then Some (Finf neg)
  else if word =? "nan" then Some Fnan
  else
    let (ip, r1) := Str.span_digits body in
    let (fp, r2) :=
      match r1 with
      | String "." r => Str.span_digits r
      | _ => ([], r1)
      end in
    match (ip ++ fp)%list with
    | [] => None
    | ds =>
        match exponent r2 with
        | Some e =>
            Some (Fdec neg (Str.digits_value ds) (e - Z.of_nat (length fp)))
        | None => None
        end
    end.

Definition float (s : string) : M pyfloat :=
  lift ValueError (parse_float s).

(** [obj.get(key, default)]; only a [dict] has the method. *)
Definition get (obj : value) (key : string) (default : value) : M value :=
  match obj with
  | VDict d => ret (get_or d key default)
  | _ => raise AttributeError
  end.

(** [obj[key]] for a string key. *)
Definition subscript (obj : value) (key : string) : M value :=
  match obj with
  | VDict d => lift KeyError (dict_get d key)
  | _ => raise TypeError
  end.

(** [obj.items()]. *)
Definition items (obj : value) : M dict :=
  match obj with
  | VDict d => ret d
  | _ => raise AttributeError
  end.

(** [s.lower()]; only a [str] has the method. *)
Definition lower (obj : value) : M string :=
  match obj with
  | VStr s => ret (Str.lower s)
  | _ => raise AttributeError
  end.

(** The number of lines the operator has yet to type; it bounds the
    loops that read a line on every turn. *)
Definition lines_left : M nat := fun w => (Return (length (stdin w)), w).

(** The elements met when iterating over [obj]. *)
Definition iterate (obj : value) : M (list value) :=
  match obj with
  | VList l => ret l
  | VStr s => ret (map VStr (Str.chars s))
  | VDict d => ret (map VStr (keys d))
  | _ => raise TypeError
  end.

(** [set(obj)]: the elements must be hashable.  Kept as a list: only
    membership is asked of it. *)
Definition set_of (obj : value) : M (list value) :=
  l <- iterate obj ;;
  if forallb hashable l then ret l else raise TypeError.

(** [prop in s] for a string [prop]. *)
Definition contains (s : list value) (prop : string) : bool :=
  existsb (fun v => eq_str v prop) s.

(** [sep.join(obj)]: every element must be a [str]. *)
Definition join (sep : string) (obj : value) : M string :=
  l <- iterate obj ;;
  ss <- lift TypeError (all_str l) ;;
  ret (Str.join sep ss).

End Py.

(* ================================================================== *)
(** ** [json.loads] *)
(* ================================================================== *)

Module Json.

Definition quote : ascii := "034"%char.
Definition backslash : ascii := "092"%char.

(** The decoder's whitespace: space, TAB, LF, CR. *)
Definition is_ws (c : ascii) : bool :=
  (c =? " ")%char || (c =? "009")%char || (c =? "010")%char
  || (c =? "013")%char.

Fixpoint skip_ws (s : string) : string :=
  match s with
  | String c r => if is_ws c then skip_ws r else s
  | EmptyString => s
  end.

Fixpoint starts_with (p s : string) : option string :=
  match p, s with
  | EmptyString, _ => Some s
  | String a p', String b s' => if (a =? b)%char then starts_with p' s' else None
  | _, _ => None
  end.

Definition hex (c : ascii) : option N :=
  let n := N_of_ascii c in
  if Str.in_range 48 57 n then Some (n - 48)%N
  else if Str.in_range 97 102 n then Some (n - 87)%N
  else if Str.in_range 65 70 n then Some (n - 55)%N
  else None.

Definition hex4 (a b c d : ascii) : option N :=
  match hex a, hex b, hex c, hex d with
  | Some x, Some y, Some z, Some t => Some (((x * 16 + y) * 16 + z) * 16 + t)%N
  | _, _, _, _ => None
  end.

(** The UTF-8 bytes of a code point (a lone surrogate is written with
    the three-byte pattern). *)
Definition utf8 (cp : N) : string :=
  let b (n : N) := ascii_of_N n in
  let cont (n : N) := b (128 + n mod 64)%N in
  if (cp <? 128)%N then String (b cp) ""
  else if (cp <? 2048)%N then String (b (192 + cp / 64)%N) (String (cont cp) "")
  else if (cp <? 65536)%N then
    String (b (224 + cp / 4096)%N)
      (String (cont (cp / 64)%N) (String (cont cp) ""))
  else
    String (b (240 + cp / 262144)%N)
      (String (cont (cp / 4096)%N)
         (String (cont (cp / 64)%N) (String (cont cp) ""))).

Definition simple_escape (c : ascii) : option ascii :=
  if (c =? quote)%char then Some quote
  else if (c =? backslash)%char then Some backslash
  else if (c =? "/")%char then Some "/"%char
  else if (c =? "b")%char then Some "008"%char
  else if (c =? "f")%char then Some "012"%char
  else if (c =? "n")%char then Some "010"%char
  else if (c =? "r")%char then Some "013"%char
  else if (c =? "t")%char then Some "009"%char
  else None.

(** A second [\uXXXX] that completes a surrogate pair. *)
Definition low_surrogate (s : string) : option (N * string) :=
  match s with
  | String e (String u (String a (String b (String c (String d r))))) =>
      if (e =? backslash)%char && (u =? "u")%char then
        match hex4 a b c d with
        | Some lo => if Str.in_range 56320 57343 lo then Some (lo, r) else None
        | None => None
        end
      else None
  | _ => None
  end.

(** The body of a string literal after its opening quote (strict mode:
    no raw control characters): the decoded text and what follows the
    closing quote. *)
Fixpoint scanstring (n : nat) (s : string) : option (string * string) :=
  match n with
  | O => None
  | S n =>
      match s with
      | EmptyString => None
      | String c r =>
          if (c =? quote)%char then Some ("", r)
          else if (c =? backslash)%char then
            match r with
            | String e r1 =>
                if (e =? "u")%char then
                  match r1 with
                  | String a (String b (String c' (String d r2))) =>
                      match hex4 a b c' d with
                      | Some hi =>
                          let (cp, r3) :=
                            if Str.in_range 55296 56319 hi then
                              match low_surrogate r2 with
                              | Some (lo, r') =>
                                  ((65536 + (hi - 55296) * 1024
                                    + (lo - 56320))%N, r')
                              | None => (hi, r2)
                              end
                            else (hi, r2) in
                          match scanstring n r3 with
                          | Some (t, rest) => Some (utf8 cp ++ t, rest)
                          | None => None
                          end
                      | None => None
                      end
                  | _ => None
                  end
                else
                  match simple_escape e, scanstring n r1 with
                  | Some x, Some (t, rest) => Some (String x t, rest)
                  | _, _ => None
                  end
            | EmptyString => None
            end
          else if (N_of_ascii c <? 32)%N then None
          else
            match scanstring n r with
            | Some (t, rest) => Some (String c t, rest)
            | None => None
            end
      end
  end.

Fixpoint span_plain (s : string) : list N * string :=
  match s with
  | EmptyString => ([], s)
  | String c r =>
      match Str.digit c with
      | Some d => let (ds, rest) := span_plain r in (d :: ds, rest)
      | None => ([], s)
      end
  end.

(** A number token at the head of [s], as the decoder matches it: an
    optional minus, then a single zero or a run of digits that starts
    with a non-zero one, then an optional fraction (a point and digits)
    and an optional exponent (e or E, a sign, digits).  The value is an
    [int] unless a fraction or an exponent is present. *)
Definition number (s : string) : option (value * string) :=
  let (neg, body) :=
    match s with String "-" r => (true, r) | _ => (false, s) end in
  let (ip, r1) :=
    match body with
    | String "0" r => ([0%N], r)
    | _ => span_plain body
    end in
  match ip with
  | [] => None
  | _ =>
      let (fp, r2) :=
        match r1 with
        | String "." r =>
            match span_plain r with
            | ([], _) => ([], r1)
            | found => found
            end
        | _ => ([], r1)
        end in
      let (ex, r3) :=
        match r2 with
        | String c r =>
            if (c =? "e")%char || (c =? "E")%char then
              let (eneg, ebody) := Str.sign r in
              match span_plain ebody with
              | ([], _) => (None, r2)
              | (ds, rest) =>
                  let e := Z.of_N (Str.digits_value ds) in
                  (Some (if eneg then (- e)%Z else e), rest)
              end
            else (None, r2)
        | EmptyString => (None, r2)
        end in
      match fp, ex with
      | [], None =>
          let z := Z.of_N (Str.digits_value ip) in
          Some (VInt (if neg then (- z)%Z else z), r3)
      | _, _ =>
          let e := match ex with Some e => e | None => 0%Z end in
          Some (VFloat (Fdec neg (Str.digits_value (ip ++ fp)%list)
                          (e - Z.of_nat (length fp))), r3)
      end
  end.

Definition constant (s : string) : option (value * string) :=
  let alt (lit : string) (v : value) (next : option (value * string)) :=
    match starts_with lit s with
    | Some r => Some (v, r)
    | None => next
    end in
  alt "null" VNone
    (alt "true" (VBool true)
       (alt "false" (VBool false)
          (match number s with
           | Some r => Some r
           | None =>
               alt "NaN" (VFloat Fnan)
                 (alt "Infinity" (VFloat (Finf false))
                    (alt "-Infinity" (VFloat (Finf true)) None))
           end))).

(** One JSON value at the head of [s] (no leading whitespace), with the
    text that follows it.  The bound [n] counts nested calls; each of
    them consumes a character, so the length of the text is enough. *)
Fixpoint scan_once (n : nat) (s : string) : option (value * string) :=
  match n with
  | O => None
  | S n =>
      match s with
      | EmptyString => None
      | String c r =>
          if (c =? quote)%char then
            match scanstring (S (String.length r)) r with
            | Some (t, rest) => Some (VStr t, rest)
            | None => None
            end
          else if (c =? "{")%char then
            match skip_ws r with
            | String "}" rest => Some (VDict [], rest)
            | r' => members n r' []
            end
          else if (c =? "[")%char then
            match skip_ws r with
            | String "]" rest => Some (VList [], rest)
            | r' => elements n r' []
            end
          else constant s
      end
  end

with members (n : nat) (s : string) (acc : dict) : option (value * string) :=
  match n with
  | O => None
  | S n =>
      match s with
      | EmptyString => None
      | String c r =>
          if (c =? quote)%char then
            match scanstring (S (String.length r)) r with
            | Some (key, r1) =>
                match skip_ws r1 with
                | String ":" r2 =>
                    match scan_once n (skip_ws r2) with
                    | Some (v, r3) =>
                        let acc' := dict_set acc key v in
                        match skip_ws r3 with
                        | String "}" rest => Some (VDict acc', rest)
                        | String "," rest => members n (skip_ws rest) acc'
                        | _ => None
                        end
                    | None => None
                    end
                | _ => None
                end
            | None => None
            end
          else None
      end
  end

with elements (n : nat) (s : string) (acc : list value)
  : option (value * string) :=
  match n with
  | O => None
  | S n =>
      match scan_once n s with
      | Some (v, r1) =>
          let acc' := (acc ++ [v])%list in
          match skip_ws r1 with
          | String "]" rest => Some (VList acc', rest)
          | String "," rest => elements n (skip_ws rest) acc'
          | _ => None
          end
      | None => None
      end
  end.

(** [json.loads(s)]: one value, whitespace around it, nothing else. *)
Definition parse (s : string) : option value :=
  match scan_once (S (String.length s)) (skip_ws s) with
  | Some (v, rest) =>
      match skip_ws rest with
      | "" => Some v
      | _ => None
      end
  | None => None
  end.

Definition loads (s : string) : M value := lift JSONDecodeError (parse s).

End Json.

(** The [requests] library, answered from the scripted [network]. *)
Module Requests.

Definition request (method url : string) (headers : list (string * string))
    (json : value) : M response :=
  emit (Requested method url headers json) ;;
  fun w =>
    match network w with
    | Some r :: rest =>
        (Return r, {| stdin := stdin w; network := rest; trace := trace w |})
    | None :: rest =>
        (Raise RequestException,
         {| stdin := stdin w; network := rest; trace := trace w |})
    | [] => (Raise RequestException, w)
    end.

Definition post := request "post".

(** [response.json()]. *)
Definition json (r : response) : M value := lift JSONDecodeError (body_json r).

End Requests.

(* ================================================================== *)
(** ** The program *)
(* ================================================================== *)

Definition nl : string := String "010"%char "".

Definition BASE_URL : string := "https://api-seller.ozon.ru/".

Definition strings (l : list string) : value := VList (map VStr l).

Definition COMMANDS : dict :=
  [ ("v1/analytics/stocks",
     VDict
       [ ("method", VStr "post");
         ("summary", VStr "Получить аналитику по остаткам");
         ("schema",
          VDict
            [ ("type", VStr "object");
              ("properties",
               VDict
                 [ ("cluster_ids",
                    VDict [("type", VStr "array");
                           ("items", VDict [("type", VStr "string")])]);
                   ("item_tags",
                    VDict
                      [("type", VStr "array");
                       ("items",
                        VDict
                          [("type", VStr "string");
                           ("enum",
                            strings ["ITEM_ATTRIBUTE_NONE";
                                     "ITEM_ATTRIBUTE_BEST_SELLER";
                                     "ITEM_ATTRIBUTE_EXCLUSIVE"])])]);
                   ("skus",
                    VDict [("type", VStr "array");
                           ("items", VDict [("type", VStr "string")])]);
                   ("turnover_grades",
                    VDict
                      [("type", VStr "array");
                       ("items",
                        VDict
                          [("type", VStr "string");
                           ("enum",
                            strings ["TURNOVER_GRADE_NONE";
                                     "TURNOVER_GRADE_GREEN";
                                     "TURNOVER_GRADE_YELLOW";
                                     "TURNOVER_GRADE_RED"])])]);
                   ("warehouse_ids",
                    VDict [("type", VStr "array");
                           ("items", VDict [("type", VStr "string")])]) ]);
              ("required", VList []) ]) ]);
    ("v3/supply-order/get",
     VDict
       [ ("method", VStr "post");
         ("summary", VStr "Получить информацию о заявках на поставку");
         ("schema",
          VDict
            [ ("type", VStr "object");
              ("properties",
               VDict
                 [ ("order_ids",
                    VDict [("type", VStr "array");
                           ("items", VDict [("type", VStr "integer")])]) ]);
              ("required", strings ["order_ids"]) ]) ]);
    ("v3/supply-order/list",
     VDict
       [ ("method", VStr "post");
         ("summary", VStr "Список заявок на поставку");
         ("schema",
          VDict
            [ ("type", VStr "object");
              ("properties",
               VDict
                 [ ("limit",
                    VDict [("type", VStr "integer"); ("default", VInt 100)]);
                   ("offset",
                    VDict [("type", VStr "integer"); ("default", VInt 0)]);
                   ("status", VDict [("type", VStr "string")]) ]);
              ("required", VList []) ]) ]) ].

Definition member (s : string) (l : list string) : bool :=
  existsb (String.eqb s) l.

Definition truthy_tokens : list string := ["true"; "1"; "yes"; "y"; "да"].

Definition affirmative_tokens : list string := ["y"; "yes"; "д"; "да"].

Definition enum_prompt (options : string) : text :=
  [Lit "  Возможные значения ("; Lit options; Lit "). Выберите: "].

Definition convert_primitive (raw : string) (schema : value) : M value :=
  use_default <-
    (if raw =? "" then
       d <- Py.get schema "default" VNone ;; ret (negb (is_none d))
     else ret false) ;;
  if use_default then Py.subscript schema "default"
  else
    enum <- Py.get schema "enum" VNone ;;
    if truthy enum then
      enum <- Py.subscript schema "enum" ;;
      options <- Py.join ", " enum ;;
      raw <-
        (if raw =? "" then
           line <- Py.input (enum_prompt options) ;;
           ret (Str.strip line)
         else ret raw) ;;
      ret (VStr raw)
    else
      schema_type <- Py.get schema "type" VNone ;;
      if eq_str schema_type "integer" then
        n <- Py.int raw ;; ret (VInt n)
      else if eq_str schema_type "number" then
        f <- Py.float raw ;; ret (VFloat f)
      else if eq_str schema_type "boolean" then
        ret (VBool (member (Str.lower raw) truthy_tokens))
      else ret (VStr raw).

Definition element_prompt : text := [Lit "  ➜ элемент: "].

(** The [while True] loop of the array branch of [prompt_for_value].
    Every turn reads a line, so [fuel] above the number of lines left is
    never used up. *)
Fixpoint array_loop (fuel : nat) (item_schema : value) (values : list value)
  : M (list value) :=
  match fuel with
  | O => raise FuelExhausted
  | S fuel =>
      line <- Py.input element_prompt ;;
      let raw := Str.strip line in
      if raw =? "" then ret values
      else
        v <- convert_primitive raw item_schema ;;
        array_loop fuel item_schema (values ++ [v])%list
  end.

(** The [for prop, prop_schema in properties.items()] loop of
    [prompt_for_object], threading [result]. *)
Fixpoint for_properties (body : string -> value -> dict -> M dict)
    (props : dict) (result : dict) : M dict :=
  match props with
  | [] => ret result
  | (prop, prop_schema) :: rest =>
      result' <- body prop prop_schema result ;;
      for_properties body rest result'
  end.

Definition optional_prompt (title : value) : text :=
  [Lit "Заполнить необязательное поле '"; Fmt title; Lit "'? [y/N]: "].

(** One turn of that loop; [value_prompter] is [prompt_for_value]. *)
Definition fill_property (value_prompter : value -> value -> M value)
    (required : list value) (prop : string) (prop_schema : value)
    (result : dict) : M dict :=
  let is_required := Py.contains required prop in
  description <- Py.get prop_schema "description" VNone ;;
  let title := if truthy description then description else VStr prop in
  skipped <-
    (if negb is_required then
       line <- Py.input (optional_prompt title) ;;
       let choice := Str.lower (Str.strip line) in
       ret (negb (member choice affirmative_tokens))
     else ret false) ;;
  if skipped then ret result
  else
    v <- value_prompter title prop_schema ;;
    ret (dict_set result prop v).

(** The body of [prompt_for_object], with the recursive call to
    [prompt_for_value] as a parameter. *)
Definition prompt_for_object_with
    (value_prompter : value -> value -> M value) (schema : value) : M value :=
  properties <- Py.get schema "properties" (VDict []) ;;
  required <- Py.get schema "required" (VList []) ;;
  required <- Py.set_of required ;;
  props <- Py.items properties ;;
  result <- for_properties (fill_property value_prompter required) props [] ;;
  ret (VDict result).

Definition array_banner (name : value) : text :=
  [Lit "Введите значения для массива "; Fmt name;
   Lit " (пустая строка для завершения):"].

(** [prompt_for_value] and [prompt_for_object] call each other down the
    schema; [fuel] bounds the nesting and [S (depth schema)] is enough. *)
Fixpoint prompt_for_value_at (fuel : nat) (name schema : value) : M value :=
  match fuel with
  | O => raise FuelExhausted
  | S fuel =>
      schema_type <- Py.get schema "type" VNone ;;
      if eq_str schema_type "object" then
        prompt_for_object_with (prompt_for_value_at fuel) schema
      else if eq_str schema_type "array" then
        item_schema <- Py.get schema "items" (VDict []) ;;
        Py.print (array_banner name) ;;
        n <- Py.lines_left ;;
        values <- array_loop (S n) item_schema [] ;;
        ret (VList values)
      else
        line <- Py.input [Lit "Введите "; Fmt name; Lit ": "] ;;
        convert_primitive (Str.strip line) schema
  end.

Definition prompt_for_value (name schema : value) : M value :=
  prompt_for_value_at (S (depth schema)) name schema.

Definition prompt_for_object (schema : value) : M value :=
  prompt_for_object_with (prompt_for_value_at (depth schema)) schema.

Definition prompt_for_payload (schema : value) : M value :=
  if negb (truthy schema) then
    raw <- Py.input
             [Lit "Введите тело запроса в формате JSON (или оставьте пустым): "] ;;
    if truthy (VStr raw) then Json.loads raw else ret (VDict [])
  else
    schema_type <- Py.get schema "type" VNone ;;
    if eq_str schema_type "object" then
      Py.print [Lit "Заполните поля запроса (оставьте пустым, если не хотите заполнять необязательные поля):"] ;;
      prompt_for_object schema
    else
      raw <- Py.input [Lit "Введите тело запроса в формате JSON: "] ;;
      if truthy (VStr raw) then Json.loads raw else ret (VDict []).

Definition pretty_json (data : value) : text := [Dump data].

Definition verify_credentials (client_id api_key : string) : M bool :=
  try_except
    (response <- Requests.post (BASE_URL ++ "v1/warehouse/list")
                   [("Client-Id", client_id); ("Api-Key", api_key)]
                   (VDict []) ;;
     ret (status_code response =? 200)%Z)
    is_Exception
    (fun _ => ret false).

(** [sorted(commands.items())]: by name, the names of a [dict] being
    distinct. *)
Fixpoint insert_sorted (kv : string * value) (l : dict) : dict :=
  match l with
  | [] => [kv]
  | kv' :: rest =>
      if String.leb (fst kv) (fst kv') then kv :: l
      else kv' :: insert_sorted kv rest
  end.

Definition sorted (l : dict) : dict := fold_right insert_sorted [] l.

(** The [for idx, (name, meta) in enumerate(..., start=1)] loop. *)
Fixpoint list_commands (idx : Z) (items : dict) : M unit :=
  match items with
  | [] => ret tt
  | (name, meta) :: rest =>
      summary <- Py.get meta "summary" (VStr "") ;;
      Py.print [Lit "  "; Fmt (VInt idx); Lit ". "; Lit name; Lit " — ";
                Fmt summary] ;;
      list_commands (idx + 1) rest
  end.

(** [choose_command] calls itself after a bad choice; every call reads a
    line, which bounds the calls ([fuel]). *)
Fixpoint choose_command_at (fuel : nat) (commands : dict)
  : M (option string) :=
  match fuel with
  | O => raise FuelExhausted
  | S fuel =>
      Py.print [Lit "Доступные методы:"] ;;
      list_commands 1 (sorted commands) ;;
      line <- Py.input [Lit "Выберите номер команды (или Enter для выхода): "] ;;
      let raw := Str.strip line in
      if negb (truthy (VStr raw)) then ret None
      else
        parsed <-
          try_except (idx <- Py.int raw ;; ret (Some idx))
            is_ValueError
            (fun _ => Py.print [Lit "Введите корректный номер."] ;; ret None) ;;
        match parsed with
        | None => choose_command_at fuel commands
        | Some idx =>
            let items := sorted commands in
            if negb ((1 <=? idx)%Z && (idx <=? Z.of_nat (length items))%Z) then
              Py.print [Lit "Неверный номер."] ;;
              choose_command_at fuel commands
            else
              match nth_error items (Z.to_nat (idx - 1)) with
              | Some (name, _) => ret (Some name)
              | None => raise IndexError
              end
        end
  end.

Definition choose_command (commands : dict) : M (option string) :=
  n <- Py.lines_left ;; choose_command_at (S n) commands.

Definition run_command (command : string) (meta : value)
    (client_id api_key : string) : M unit :=
  method <- Py.get meta "method" (VStr "post") ;;
  method <- Py.lower method ;;
  schema <- Py.get meta "schema" VNone ;;
  payload <- prompt_for_payload schema ;;
  let url := BASE_URL ++ command in
  Py.print [Lit (nl ++ "Сформированный запрос:")] ;;
  Py.print [Lit (Str.upper method); Lit " "; Lit url] ;;
  Py.print (pretty_json payload) ;;
  try_except
    (response <- Requests.request method url
                   [("Client-Id", client_id); ("Api-Key", api_key);
                    ("Content-Type", "application/json")]
                   (if truthy payload then payload else VNone) ;;
     Py.print [Lit (nl ++ "Ответ сервера:")] ;;
     try_except
       (data <- Requests.json response ;; Py.print (pretty_json data))
       is_Exception
       (fun _ => Py.print [Lit (body_text response)]))
    is_Exception
    (fun exc => Py.print [Lit "Не удалось выполнить запрос: "; Msg exc]).

Definition banner : string :=
  Str.join nl
    [ "";
      "==============================";
      "Добро пожаловать в OZON API CLI";
      "==============================";
      "Эта консоль содержит основные методы OZON API и позволяет запускать";
      "запросы с подсказками по вводу.";
      "" ].

(** [sys.exit(code)]. *)
Definition sys_exit {A} (code : Z) : M A := raise (SystemExit code).

(** The [while True] loop of [main]: choose, run, again.  Every turn
    reads at least the choice, which bounds the turns ([fuel]). *)
Fixpoint session_loop (fuel : nat) (commands : dict)
    (client_id api_key : string) : M unit :=
  match fuel with
  | O => raise FuelExhausted
  | S fuel =>
      selected <- choose_command commands ;;
      match selected with
      | Some (String _ _ as name) =>
          meta <- Py.subscript (VDict commands) name ;;
          run_command name meta client_id api_key ;;
          session_loop fuel commands client_id api_key
      | _ => Py.print [Lit "До встречи!"]
      end
  end.

Definition main : M unit :=
  Py.print [Lit banner] ;;
  line <- Py.input [Lit "Введите Client-Id: "] ;;
  let client_id := Str.strip line in
  line <- Py.input [Lit "Введите Api-Key: "] ;;
  let api_key := Str.strip line in
  (if (client_id =? "") || (api_key =? "") then
     Py.print [Lit "Требуется указать Client-Id и Api-Key."] ;; sys_exit 1
   else ret tt) ;;
  Py.print [Lit "Проверяем ключи..."] ;;
  ok <- verify_credentials client_id api_key ;;
  (if negb ok then
     Py.print [Lit "Не удалось подтвердить ключ. Проверьте данные и попробуйте снова."] ;;
     sys_exit 1
   else ret tt) ;;
  Py.print [Lit "Ключ подтверждён. Загружаем список методов..."] ;;
  let commands := COMMANDS in
  (if negb (truthy (VDict commands)) then
     Py.print [Lit "Не удалось собрать список команд. Завершение работы."] ;;
     sys_exit 1
   else ret tt) ;;
  n <- Py.lines_left ;;
  session_loop (S n) commands client_id api_key.

(** The outcome of a run and the lines it left unread. *)
Definition result_of {A} (c : M A) (w : world) : outcome A := fst (c w).

Definition unread {A} (c : M A) (w : world) : list string := stdin (snd (c w)).

Definition typed (lines : list string) : world :=
  {| stdin := lines; network := []; trace := [] |}.

(** The world after [input(prompt)] has returned its line. *)
Definition after_input (prompt : text) (rest : list string) (w : world)
  : world :=
  {| stdin := rest; network := network w;
     trace := trace w ++ [Prompted prompt] |}.

(** A run that does not end on the model's own recursion bound. *)
Definition within_fuel {A} (c : M A) (w : world) : Prop :=
  fst (c w) <> Raise FuelExhausted.

(** A run that only moves forward in the typed lines. *)
Definition reads_forward {A} (c : M A) (w : world) : Prop :=
  length (stdin (snd (c w))) <= length (stdin w).

(** The world after [print(t)]. *)
Definition after_print (t : text) (w : world) : world :=
  {| stdin := stdin w; network := network w; trace := trace w ++ [Printed t] |}.

(** The schemas for which [prompt_for_payload] asks for raw JSON
    (lines 125-127 and 131-132): a falsy schema, or one whose type is
    not [object]. *)
Definition asks_raw_json (schema : value) : bool :=
  negb (truthy schema)
  || match schema with
     | VDict d => negb (eq_str (get_or d "type" VNone) "object")
     | _ => false
     end.

(** Every text inside the value can be written to the terminal. *)
Fixpoint printable (v : value) : bool :=
  match v with
  | VStr s => Str.encodable s
  | VList l => forallb printable l
  | VDict d =>
      forallb (fun kv : string * value =>
                 let (k, x) := kv in Str.encodable k && printable x) d
  | _ => true
  end.

(** The body of a reply, as [run_command] shows it, can be written. *)
Definition printable_reply (r : response) : bool :=
  match body_json r with
  | Some data => printable data
  | None => Str.encodable (body_text r)
  end.

(** The values [convert_primitive] makes out of a typed line. *)
Definition is_scalar (v : value) : bool :=
  match v with
  | VBool _ | VInt _ | VFloat _ | VStr _ => true
  | _ => false
  end.

(** The names of a [dict] are pairwise different. *)
Fixpoint distinct (l : list string) : bool :=
  match l with
  | [] => true
  | k :: rest => negb (member k rest) && distinct rest
  end.

(** The answer to [optional_prompt] counts as a yes (lines 117-118). *)
Definition affirms (answer : string) : bool :=
  member (Str.lower (Str.strip answer)) affirmative_tokens.

(** Every entry of a [dict] is itself a [dict]. *)
Definition all_mappings (d : dict) : bool :=
  forallb (fun kv : string * value => is_mapping (snd kv)) d.

Definition menu_prompt : text :=
  [Lit "Выберите номер команды (или Enter для выхода): "].

(** A server reply with status 200 and an empty JSON object. *)
Definition ok_reply : response :=
  {| status_code := 200; body_text := "{}"; body_json := Some (VDict []) |}.


(* ================================================================== *)
(** ** Running the model: the scenarios of the specification *)
(* ================================================================== *)

Example strip_lower_sample :
  Str.strip "  Yes  " = "Yes" /\ Str.lower "Yes" = "yes"
  /\ Str.lower "ДА" = "да" /\ Str.upper "post" = "POST".
Proof. repeat split; reflexivity. Qed.

Example int_float_samples :
  Py.parse_int "42" = Some 42%Z /\ Py.parse_int " -1_000 " = Some (-1000)%Z
  /\ Py.parse_int "abc" = None /\ Py.parse_int "" = None
  /\ Py.parse_int "4.5" = None
  /\ Py.parse_float "3.14" = Some (Fdec false 314 (-2))
  /\ Py.parse_float "1e3" = Some (Fdec false 1 3)
  /\ Py.parse_float "-inf" = Some (Finf true)
  /\ Py.parse_float "1,5" = None.
Proof. repeat split; reflexivity. Qed.

Example json_samples :
  Json.parse "[1, 2.5, true, null]"
    = Some (VList [VInt 1; VFloat (Fdec false 25 (-1)); VBool true; VNone])
  /\ Json.parse "{}" = Some (VDict [])
  /\ Json.parse "{" = None /\ Json.parse "[1,]" = None
  /\ Json.parse "" = None /\ Json.parse "1 2" = None.
Proof. repeat split; reflexivity. Qed.

(** Operator declines [limit] and [offset], accepts [status] and enters
    [awaiting]. *)
Example scenario_supply_order_list :
  result_of
    (prompt_for_payload
       (get_or (match get_or COMMANDS "v3/supply-order/list" VNone with
                | VDict meta => meta
                | _ => []
                end) "schema" VNone))
    (typed ["n"; ""; "y"; "awaiting"])
  = Return (VDict [("status", VStr "awaiting")]).
Proof. reflexivity. Qed.

(** Operator enters [10], [20], then an empty line. *)
Example scenario_supply_order_get :
  result_of
    (prompt_for_payload
       (VDict [("type", VStr "object");
               ("properties",
                VDict [("order_ids",
                        VDict [("type", VStr "array");
                               ("items", VDict [("type", VStr "integer")])])]);
               ("required", strings ["order_ids"])]))
    (typed ["10"; "20"; ""])
  = Return (VDict [("order_ids", VList [VInt 10; VInt 20])]).
Proof. reflexivity. Qed.

(** No schema: a typed JSON object (here the text with the key [a] and
    the value 1) is the payload, an empty line gives the empty mapping. *)
Example scenario_no_schema :
  let q := String Json.quote "" in
  result_of (prompt_for_payload VNone) (typed ["{" ++ q ++ "a" ++ q ++ ": 1}"])
  = Return (VDict [("a", VInt 1)])
  /\ result_of (prompt_for_payload VNone) (typed [""]) = Return (VDict []).
Proof. repeat split; reflexivity. Qed.

(* ================================================================== *)
(** ** Basic facts *)
(* ================================================================== *)

Lemma member_In (s : string) (l : list string) : member s l = true <-> In s l.
Proof.
  unfold member. rewrite existsb_exists. split.
  - intros (x & Hx & E). apply String.eqb_eq in E. now subst.
  - intros H. exists s. split; [assumption | apply String.eqb_refl].
Qed.

Lemma all_str_strings (l : list string) : all_str (map VStr l) = Some l.
Proof. induction l as [|s l IH]; simpl; [reflexivity | now rewrite IH]. Qed.

Lemma truthy_strings (l : list string) :
  truthy (strings l) = negb (match l with [] => true | _ => false end).
Proof. now destruct l. Qed.

Lemma nonempty_eqb (s : string) : s <> "" -> (s =? "") = false.
Proof. intros H. now apply String.eqb_neq. Qed.

Lemma get_or_found d k v dflt : dict_get d k = Some v -> get_or d k dflt = v.
Proof. unfold get_or. now intros ->. Qed.

(** Unfolds the monad so that a run becomes a chain of matches. *)
Ltac run :=
  unfold convert_primitive, Py.get, Py.subscript, Py.join, Py.iterate,
    Py.int, Py.float, Py.input, Py.print, emit, bind, ret, raise, lift;
  simpl.

(* ================================================================== *)
(** ** The Primitive Coercer: [convert_primitive] *)
(* ================================================================== *)

Section Coercer.

Variable d : dict.
Variable w : world.

(** Line 92: an empty input and a default that is not [None]. *)
Lemma default_verbatim (dflt : value) :
  dict_get d "default" = Some dflt -> is_none dflt = false ->
  convert_primitive "" (VDict d) w = (Return dflt, w).
Proof.
  intros Hd Hn. run. unfold get_or. now rewrite Hd, Hn.
Qed.

(** Lines 94-98 with a typed line: the line is the result and nothing
    is read or written. *)
Lemma enum_nonempty_input (options : list string) (raw : string) :
  dict_get d "enum" = Some (strings options) -> options <> [] -> raw <> "" ->
  convert_primitive raw (VDict d) w = (Return (VStr raw), w).
Proof.
  unfold strings. intros He Ho Hr. run. rewrite (nonempty_eqb _ Hr). simpl.
  rewrite (get_or_found _ _ _ _ He), He.
  destruct options; [congruence|]. simpl.
  now rewrite all_str_strings.
Qed.

(** Lines 94-98 with an empty line and no default: one more line is
    asked for, under a prompt that lists the options. *)
Lemma enum_empty_input (options : list string) (line : string)
    (rest : list string) :
  dict_get d "enum" = Some (strings options) -> options <> [] ->
  is_none (get_or d "default" VNone) = true ->
  stdin w = line :: rest ->
  convert_primitive "" (VDict d) w
  = (Return (VStr (Str.strip line)),
     after_input (enum_prompt (Str.join ", " options)) rest w).
Proof.
  unfold strings. intros He Ho Hn Hin. run. rewrite Hn. simpl.
  rewrite (get_or_found _ _ _ _ He), He.
  destruct options as [|o options]; [congruence|]. simpl.
  rewrite all_str_strings. simpl. now rewrite Hin.
Qed.

(** Lines 99-106: without an enum, and when line 92 does not apply,
    the result is decided by [type]. *)
Lemma typed_coercion (raw : string) :
  truthy (get_or d "enum" VNone) = false ->
  (raw =? "") && negb (is_none (get_or d "default" VNone)) = false ->
  convert_primitive raw (VDict d) w =
  (let schema_type := get_or d "type" VNone in
   if eq_str schema_type "integer" then
     match Py.parse_int raw with
     | Some n => Return (VInt n)
     | None => Raise ValueError
     end
   else if eq_str schema_type "number" then
     match Py.parse_float raw with
     | Some f => Return (VFloat f)
     | None => Raise ValueError
     end
   else if eq_str schema_type "boolean" then
     Return (VBool (member (Str.lower raw) truthy_tokens))
   else Return (VStr raw), w).
Proof.
  intros He Hd. run.
  destruct (raw =? ""); simpl in Hd; [rewrite Hd|]; simpl; rewrite He.
  all: destruct (eq_str (get_or d "type" VNone) "integer");
    [now destruct (Py.parse_int raw)|].
  all: destruct (eq_str (get_or d "type" VNone) "number");
    [now destruct (Py.parse_float raw)|].
  all: now destruct (eq_str (get_or d "type" VNone) "boolean").
Qed.

End Coercer.

(** A typed line never makes the coercer read or write. *)
Lemma convert_primitive_quiet (raw : string) (schema : value) (w : world) :
  raw <> "" -> snd (convert_primitive raw schema w) = w.
Proof.
  intros Hr.
  destruct schema as [ |b|z|f|s|l|d];
    try (run; now rewrite (nonempty_eqb _ Hr)).
  run. rewrite (nonempty_eqb _ Hr). simpl.
  destruct (truthy (get_or d "enum" VNone)).
  - destruct (dict_get d "enum") as [e|]; [|reflexivity]. simpl.
    destruct e as [ |b|z|f|s|l|d']; simpl; try reflexivity.
    + now destruct (all_str (map VStr (Str.chars s))).
    + now destruct (all_str l).
    + now destruct (all_str (map VStr (keys d'))).
  - destruct (eq_str (get_or d "type" VNone) "integer");
      [now destruct (Py.parse_int raw)|].
    destruct (eq_str (get_or d "type" VNone) "number");
      [now destruct (Py.parse_float raw)|].
    now destruct (eq_str (get_or d "type" VNone) "boolean").
Qed.

(** The coercer stays within its own recursion-free code. *)
Lemma convert_primitive_within_fuel (raw : string) (schema : value)
    (w : world) :
  within_fuel (convert_primitive raw schema) w.
Proof.
  unfold within_fuel.
  destruct schema as [ |b|z|f|s|l|d];
    try (run; destruct (raw =? ""); simpl; discriminate).
  run. destruct (raw =? ""); simpl.
  1: destruct (is_none (get_or d "default" VNone)); simpl;
     [|destruct (dict_get d "default"); simpl; discriminate].
  all: destruct (truthy (get_or d "enum" VNone)).
  all: try (destruct (eq_str (get_or d "type" VNone) "integer");
            [destruct (Py.parse_int raw); simpl; discriminate|];
            destruct (eq_str (get_or d "type" VNone) "number");
            [destruct (Py.parse_float raw); simpl; discriminate|];
            destruct (eq_str (get_or d "type" VNone) "boolean");
            simpl; discriminate).
  all: destruct (dict_get d "enum") as [e|]; simpl; [|discriminate].
  all: destruct e as [ |b|z|f|s|l|d']; simpl; try discriminate.
  all: match goal with
       | |- context [all_str ?x] => destruct (all_str x); simpl
       end; try discriminate.
  all: destruct (stdin w); simpl; discriminate.
Qed.

(** C6: [coerce("42", {type: integer})] is the integer 42,
    [coerce("3.14", {type: number})] is the float 3.14, and
    [coerce("", {type: integer, default: 100})] is the default 100; a
    default that is not [None] is returned as it is, whatever the
    declared type. *)
Theorem numeric_coercion :
  (forall w, convert_primitive "42" (VDict [("type", VStr "integer")]) w
             = (Return (VInt 42), w))
  /\ (forall w, convert_primitive "3.14" (VDict [("type", VStr "number")]) w
                = (Return (VFloat (Fdec false 314 (-2))), w))
  /\ (forall w, convert_primitive ""
                  (VDict [("type", VStr "integer"); ("default", VInt 100)]) w
                = (Return (VInt 100), w))
  /\ (forall d dflt w,
        dict_get d "default" = Some dflt -> is_none dflt = false ->
        convert_primitive "" (VDict d) w = (Return dflt, w)).
Proof.
  repeat split; try reflexivity. intros d dflt w. apply default_verbatim.
Qed.

(** A default of another type than the declared one comes back as it is. *)
Lemma numeric_coercion_witness :
  convert_primitive ""
    (VDict [("type", VStr "integer"); ("default", VStr "100")]) (typed [])
  = (Return (VStr "100"), typed []).
Proof.
  apply (proj2 (proj2 (proj2 numeric_coercion))); reflexivity.
Defined.

(** C9: for a boolean leaf (type [boolean], no enum), when line 92 does
    not apply (the input is not empty, or there is no default), the
    coercer returns a boolean, and that boolean is true exactly when the
    lower-cased input is one of [true], [1], [yes], [y] and the Russian
    affirmative; the empty string gives false. *)
Theorem boolean_coercion (d : dict) (raw : string) (w : world) :
  eq_str (get_or d "type" VNone) "boolean" = true ->
  truthy (get_or d "enum" VNone) = false ->
  (raw =? "") && negb (is_none (get_or d "default" VNone)) = false ->
  exists b : bool,
    convert_primitive raw (VDict d) w = (Return (VBool b), w)
    /\ (b = true <-> In (Str.lower raw) ["true"; "1"; "yes"; "y"; "да"])
    /\ (raw = "" -> b = false).
Proof.
  intros Ht He Hd. exists (member (Str.lower raw) truthy_tokens).
  split; [|split].
  - rewrite (typed_coercion d w raw He Hd). cbv zeta.
    destruct (get_or d "type" VNone) as [ |b|z|f|s|l|d']; try discriminate.
    simpl in Ht |- *. apply String.eqb_eq in Ht. now subst s.
  - apply member_In.
  - now intros ->.
Qed.

Lemma boolean_coercion_witness :
  exists b : bool,
    convert_primitive "" (VDict [("type", VStr "boolean")]) (typed ["Yes"])
    = (Return (VBool b), typed ["Yes"])
    /\ (b = true <-> In (Str.lower "") ["true"; "1"; "yes"; "y"; "да"])
    /\ ("" = "" -> b = false).
Proof. apply boolean_coercion; reflexivity. Defined.

Example boolean_samples :
  forall w,
    convert_primitive "Yes" (VDict [("type", VStr "boolean")]) w
    = (Return (VBool true), w)
    /\ convert_primitive "ДА" (VDict [("type", VStr "boolean")]) w
       = (Return (VBool true), w)
    /\ convert_primitive "" (VDict [("type", VStr "boolean")]) w
       = (Return (VBool false), w)
    /\ convert_primitive "no" (VDict [("type", VStr "boolean")]) w
       = (Return (VBool false), w)
    /\ convert_primitive ""
         (VDict [("type", VStr "boolean"); ("default", VBool true)]) w
       = (Return (VBool true), w).
Proof. intros w. repeat split; reflexivity. Qed.

(** C3, as stated, fails: with an enum and a default, an empty input
    yields the default; nothing is asked and the next line stays unread. *)
Lemma enum_with_default_counterexample :
  let schema := VDict [("type", VStr "string");
                       ("enum", strings ["ASC"; "DESC"]);
                       ("default", VStr "ASC")] in
  let w := typed ["DESC"] in
  truthy (strings ["ASC"; "DESC"]) = true
  /\ convert_primitive "" schema w = (Return (VStr "ASC"), w)
  /\ convert_primitive "" schema w
     <> (Return (VStr "DESC"), after_input (enum_prompt "ASC, DESC") [] w).
Proof. cbv zeta. repeat split; try reflexivity. discriminate. Qed.

(** C3 (amended): line 92 comes first also when the schema has an enum.
    On an empty input a default that is not [None] is returned as it is,
    with nothing asked; the enum path (one more prompt, the entered
    string returned) is taken on an empty input only when the default is
    absent or [None]. *)
Theorem default_before_enum (d : dict) (w : world) :
  truthy (get_or d "enum" VNone) = true ->
  (forall dflt,
      dict_get d "default" = Some dflt -> is_none dflt = false ->
      convert_primitive "" (VDict d) w = (Return dflt, w))
  /\ (forall options line rest,
        dict_get d "enum" = Some (strings options) ->
        is_none (get_or d "default" VNone) = true ->
        stdin w = line :: rest ->
        convert_primitive "" (VDict d) w
        = (Return (VStr (Str.strip line)),
           after_input (enum_prompt (Str.join ", " options)) rest w)).
Proof.
  intros He. split.
  - intros dflt. apply default_verbatim.
  - intros options line rest Ho Hn Hin.
    apply enum_empty_input; try assumption.
    intros ->. rewrite (get_or_found _ _ _ _ Ho) in He. discriminate.
Qed.

Lemma default_before_enum_witness :
  convert_primitive ""
    (VDict [("enum", strings ["ASC"; "DESC"]); ("default", VInt 1)])
    (typed ["DESC"])
  = (Return (VInt 1), typed ["DESC"])
  /\ convert_primitive "" (VDict [("enum", strings ["ASC"; "DESC"])])
       (typed [" DESC "; "x"])
     = (Return (VStr "DESC"),
        after_input (enum_prompt "ASC, DESC") ["x"]
          (typed [" DESC "; "x"])).
Proof.
  split.
  - apply (proj1 (default_before_enum
                    [("enum", strings ["ASC"; "DESC"]); ("default", VInt 1)]
                    (typed ["DESC"]) eq_refl)); reflexivity.
  - exact (proj2 (default_before_enum
                    [("enum", strings ["ASC"; "DESC"])]
                    (typed [" DESC "; "x"]) eq_refl)
             ["ASC"; "DESC"] " DESC " ["x"] eq_refl eq_refl eq_refl).
Defined.

(** C7, as stated, fails on an enum leaf that also has a default: the
    operator types nothing, no second prompt is shown, and the result is
    the default, not a string the operator typed. *)
Lemma enum_reprompt_counterexample :
  let schema := VDict [("enum", strings ["GREEN"; "RED"]);
                       ("default", VInt 0)] in
  let w := typed [""; "RED"] in
  result_of (convert_primitive "" schema) w = Return (VInt 0)
  /\ unread (convert_primitive "" schema) w = [""; "RED"]
  /\ trace (snd (convert_primitive "" schema w)) = [].
Proof. repeat split. Qed.

(** C7 (amended): for an enum leaf (enum a non-empty list of strings), a
    non-empty input is returned exactly as typed, in or out of the enum;
    when the input is empty and the schema has no default other than
    [None], exactly one more line is read, under a prompt that lists the
    options, and that line, trimmed, is returned even if it is empty. *)
Theorem enum_passthrough (d : dict) (options : list string) (w : world) :
  dict_get d "enum" = Some (strings options) ->
  truthy (strings options) = true ->
  (forall raw, raw <> "" ->
               convert_primitive raw (VDict d) w = (Return (VStr raw), w))
  /\ (is_none (get_or d "default" VNone) = true ->
      forall line rest,
        stdin w = line :: rest ->
        convert_primitive "" (VDict d) w
        = (Return (VStr (Str.strip line)),
           after_input (enum_prompt (Str.join ", " options)) rest w)).
Proof.
  intros He Ht.
  assert (Ho : options <> []) by (intros ->; discriminate).
  split.
  - intros raw Hr. now apply enum_nonempty_input with options.
  - intros Hn line rest Hin. now apply enum_empty_input.
Qed.

Lemma enum_passthrough_witness :
  convert_primitive "purple" (VDict [("enum", strings ["GREEN"; "RED"])])
    (typed [])
  = (Return (VStr "purple"), typed [])
  /\ convert_primitive "" (VDict [("enum", strings ["GREEN"; "RED"])])
       (typed ["  "; "RED"])
     = (Return (VStr ""),
        after_input (enum_prompt "GREEN, RED") ["RED"]
          (typed ["  "; "RED"])).
Proof.
  split.
  - apply (proj1 (enum_passthrough [("enum", strings ["GREEN"; "RED"])]
                    ["GREEN"; "RED"] (typed []) eq_refl eq_refl)).
    discriminate.
  - exact (proj2 (enum_passthrough [("enum", strings ["GREEN"; "RED"])]
                    ["GREEN"; "RED"] (typed ["  "; "RED"]) eq_refl eq_refl)
             eq_refl "  " ["RED"] eq_refl).
Defined.

(* ================================================================== *)
(** ** Reasoning about runs *)
(* ================================================================== *)

Lemma bind_Return_inv {A B} (c : M A) (k : A -> M B) w b w' :
  bind c k w = (Return b, w') ->
  exists a w1, c w = (Return a, w1) /\ k a w1 = (Return b, w').
Proof.
  unfold bind. destruct (c w) as [[a|e] w1]; intros H; [|discriminate].
  now exists a, w1.
Qed.

Lemma bind_Return {A B} (c : M A) (k : A -> M B) w a w1 :
  c w = (Return a, w1) -> bind c k w = k a w1.
Proof. unfold bind. now intros ->. Qed.

Lemma bind_Raise {A B} (c : M A) (k : A -> M B) w e w1 :
  c w = (Raise e, w1) -> bind c k w = (Raise e, w1).
Proof. unfold bind. now intros ->. Qed.

Lemma bind_within_fuel {A B} (c : M A) (k : A -> M B) w :
  within_fuel c w ->
  (forall a w1, c w = (Return a, w1) -> within_fuel (k a) w1) ->
  within_fuel (bind c k) w.
Proof.
  unfold within_fuel, bind. destruct (c w) as [[a|e] w1]; simpl; intros Hc Hk.
  - now apply Hk.
  - intros E. apply Hc. now inversion E.
Qed.

Lemma input_line prompt line rest w :
  stdin w = line :: rest ->
  Py.input prompt w = (Return line, after_input prompt rest w).
Proof. unfold Py.input, emit, bind, after_input. simpl. now intros ->. Qed.

Lemma input_inv prompt line w w' :
  Py.input prompt w = (Return line, w') ->
  exists rest, stdin w = line :: rest /\ w' = after_input prompt rest w.
Proof.
  unfold Py.input, emit, bind, after_input. simpl.
  destruct (stdin w) as [|l rest]; [discriminate|].
  intros E. inversion E. now exists rest.
Qed.

Lemma input_within_fuel prompt w : within_fuel (Py.input prompt) w.
Proof.
  unfold within_fuel, Py.input, emit, bind. simpl.
  destruct (stdin w); simpl; discriminate.
Qed.

Lemma get_within_fuel obj key dflt w : within_fuel (Py.get obj key dflt) w.
Proof. unfold within_fuel. destruct obj; simpl; discriminate. Qed.

Lemma get_inv obj key dflt v w w' :
  Py.get obj key dflt w = (Return v, w') ->
  exists d, obj = VDict d /\ v = get_or d key dflt /\ w' = w.
Proof.
  destruct obj as [ |b|z|f|s|l|d]; try discriminate.
  simpl. unfold ret. intros E. inversion E. now exists d.
Qed.

(** The boolean leaf through [prompt_for_value] (line 88), which trims
    the line before it is coerced. *)
Lemma boolean_prompt (name : value) (d : dict) (line : string)
    (rest : list string) (w : world) :
  eq_str (get_or d "type" VNone) "boolean" = true ->
  truthy (get_or d "enum" VNone) = false ->
  (Str.strip line =? "") && negb (is_none (get_or d "default" VNone)) = false ->
  stdin w = line :: rest ->
  prompt_for_value name (VDict d) w
  = (Return (VBool (member (Str.lower (Str.strip line)) truthy_tokens)),
     after_input [Lit "Введите "; Fmt name; Lit ": "] rest w).
Proof.
  intros Ht He Hd Hin.
  unfold prompt_for_value. cbn [prompt_for_value_at]. simpl Py.get.
  unfold bind at 1, ret at 1.
  destruct (get_or d "type" VNone) as [ |b|z|f|s|l|d'] eqn:E;
    try discriminate.
  simpl in Ht. apply String.eqb_eq in Ht. subst s. simpl.
  rewrite (bind_Return _ _ _ _ _ (input_line _ _ _ _ Hin)).
  rewrite (typed_coercion d _ _ He Hd). now rewrite E.
Qed.

(* ================================================================== *)
(** ** The Array Builder: the loop of [prompt_for_value] *)
(* ================================================================== *)

Lemma array_loop_stop fuel item vs line rest w :
  stdin w = line :: rest -> Str.strip line = "" ->
  array_loop (S fuel) item vs w = (Return vs, after_input element_prompt rest w).
Proof.
  intros Hin Hs. simpl.
  rewrite (bind_Return _ _ _ _ _ (input_line _ _ _ _ Hin)).
  now rewrite Hs.
Qed.

Lemma array_loop_step fuel item vs line rest v w :
  stdin w = line :: rest -> Str.strip line <> "" ->
  convert_primitive (Str.strip line) item (after_input element_prompt rest w)
  = (Return v, after_input element_prompt rest w) ->
  array_loop (S fuel) item vs w
  = array_loop fuel item (vs ++ [v])%list (after_input element_prompt rest w).
Proof.
  intros Hin Hs Hv. simpl.
  rewrite (bind_Return _ _ _ _ _ (input_line _ _ _ _ Hin)).
  rewrite (nonempty_eqb _ Hs).
  now rewrite (bind_Return _ _ _ _ _ Hv).
Qed.

(** The loop coerces the lines one by one, in the order typed, up to the
    first line that is empty once trimmed. *)
Lemma array_loop_spec item lines :
  forall fuel stop rest elems vs w,
    stdin w = (lines ++ stop :: rest)%list ->
    forallb (fun l => negb (Str.strip l =? "")) lines = true ->
    Str.strip stop = "" ->
    Forall2 (fun l v => forall w0, convert_primitive (Str.strip l) item w0
                                   = (Return v, w0)) lines elems ->
    length lines < fuel ->
    result_of (array_loop fuel item vs) w = Return (vs ++ elems)%list
    /\ unread (array_loop fuel item vs) w = rest.
Proof.
  unfold result_of, unread.
  induction lines as [|l lines IH]; intros fuel stop rest elems vs w Hin Hne Hs Hel Hf.
  - inversion Hel; subst. destruct fuel as [|fuel]; [simpl in Hf; lia|].
    simpl in Hin. rewrite (array_loop_stop _ _ _ _ _ _ Hin Hs).
    simpl. now rewrite app_nil_r.
  - inversion Hel as [|? v ? elems' Hv Hel']; subst.
    destruct fuel as [|fuel]; [simpl in Hf; lia|].
    simpl in Hin, Hne. apply andb_prop in Hne as [Hl Hne].
    apply negb_true_iff, String.eqb_neq in Hl.
    rewrite (array_loop_step _ _ _ _ _ v _ Hin Hl (Hv _)).
    destruct (IH fuel stop rest elems' (vs ++ [v])%list
                (after_input element_prompt (lines ++ stop :: rest)%list w))
      as [R U]; try assumption; try reflexivity.
    { simpl in Hf. lia. }
    rewrite R, U. now rewrite <- app_assoc.
Qed.

Lemma array_loop_within_fuel item :
  forall fuel vs w,
    length (stdin w) < fuel -> within_fuel (array_loop fuel item vs) w.
Proof.
  induction fuel as [|fuel IH]; intros vs w Hf; [lia|].
  simpl. apply bind_within_fuel; [apply input_within_fuel|].
  intros line w1 Hin. apply input_inv in Hin as (rest & Hin & ->).
  destruct (Str.strip line =? "") eqn:E; [unfold within_fuel; discriminate|].
  apply String.eqb_neq in E.
  apply bind_within_fuel; [apply convert_primitive_within_fuel|].
  intros v w2 Hv.
  pose proof (convert_primitive_quiet _ item (after_input element_prompt rest w) E)
    as Hq.
  rewrite Hv in Hq. simpl in Hq. subst w2.
  apply IH. simpl. rewrite Hin in Hf. simpl in Hf. lia.
Qed.

Lemma eq_str_true v s : eq_str v s = true -> v = VStr s.
Proof.
  destruct v; try discriminate. simpl. intros E.
  apply String.eqb_eq in E. now subst.
Qed.

(** The array branch of [prompt_for_value] (lines 78-87). *)
Lemma prompt_for_value_array name d w :
  eq_str (get_or d "type" VNone) "array" = true ->
  prompt_for_value name (VDict d) w
  = (values <- array_loop (S (length (stdin w)))
                 (get_or d "items" (VDict [])) [] ;;
     ret (VList values)) (after_print (array_banner name) w).
Proof.
  intros Ht. apply eq_str_true in Ht.
  unfold prompt_for_value. cbn [prompt_for_value_at]. simpl Py.get.
  unfold bind at 1, ret at 1. rewrite Ht. reflexivity.
Qed.

(** The Array Builder hands every non-empty line, trimmed, to
    [convert_primitive] with the item schema, and keeps the order. *)
Lemma array_elements name d lines stop rest elems w :
  eq_str (get_or d "type" VNone) "array" = true ->
  stdin w = (lines ++ stop :: rest)%list ->
  forallb (fun l => negb (Str.strip l =? "")) lines = true ->
  Str.strip stop = "" ->
  Forall2 (fun l v =>
             forall w0, convert_primitive (Str.strip l)
                          (get_or d "items" (VDict [])) w0 = (Return v, w0))
          lines elems ->
  result_of (prompt_for_value name (VDict d)) w = Return (VList elems)
  /\ unread (prompt_for_value name (VDict d)) w = rest.
Proof.
  intros Ht Hin Hne Hs Hel. unfold result_of, unread.
  rewrite (prompt_for_value_array _ _ _ Ht).
  destruct (array_loop_spec (get_or d "items" (VDict [])) lines
              (S (length (stdin w))) stop rest elems []
              (after_print (array_banner name) w)) as [R U];
    try assumption.
  { rewrite Hin, length_app. simpl. lia. }
  unfold result_of, unread in R, U. unfold bind.
  destruct (array_loop _ _ _ _) as [[vs|e] w1]; simpl in R, U;
    [|discriminate].
  inversion R. now subst.
Qed.

Lemma nested_item_is_text item raw w0 :
  eq_str (get_or item "type" VNone) "object"
  || eq_str (get_or item "type" VNone) "array" = true ->
  truthy (get_or item "enum" VNone) = false ->
  raw <> "" ->
  convert_primitive raw (VDict item) w0 = (Return (VStr raw), w0).
Proof.
  intros Ht He Hr. rewrite typed_coercion; try assumption.
  - cbv zeta. apply orb_prop in Ht as [Ht|Ht]; apply eq_str_true in Ht;
      now rewrite Ht.
  - now rewrite (nonempty_eqb _ Hr).
Qed.

(** C2, as stated, fails: with an item schema of type object the typed
    line is not passed to the Value Prompter; the element is the line
    itself, a string.  The last part shows what the Value Prompter gives
    for the same item schema. *)
Lemma array_of_objects_counterexample :
  let item := VDict [("type", VStr "object");
                     ("properties", VDict [("id", VDict [("type", VStr "integer")])]);
                     ("required", strings ["id"])] in
  let schema := VDict [("type", VStr "array"); ("items", item)] in
  result_of (prompt_for_value (VStr "rows") schema) (typed ["7"; ""])
  = Return (VList [VStr "7"])
  /\ is_mapping (VStr "7") = false
  /\ result_of (prompt_for_value (VStr "rows") item) (typed ["7"; ""])
     = Return (VDict [("id", VInt 7)]).
Proof. repeat split. Qed.

(** C2 (amended): for every array schema, each non-empty element line is
    handed, trimmed, to [convert_primitive] with the item schema, in the
    order typed, and never to the Value Prompter; so when the item schema
    has type object or array (and no enum) every element is the trimmed
    line itself, a string. *)
Theorem array_items_go_to_the_coercer name d lines stop rest w :
  eq_str (get_or d "type" VNone) "array" = true ->
  stdin w = (lines ++ stop :: rest)%list ->
  forallb (fun l => negb (Str.strip l =? "")) lines = true ->
  Str.strip stop = "" ->
  (forall elems,
      Forall2 (fun l v =>
                 forall w0, convert_primitive (Str.strip l)
                              (get_or d "items" (VDict [])) w0
                            = (Return v, w0)) lines elems ->
      result_of (prompt_for_value name (VDict d)) w = Return (VList elems)
      /\ unread (prompt_for_value name (VDict d)) w = rest)
  /\ (forall item,
        get_or d "items" (VDict []) = VDict item ->
        eq_str (get_or item "type" VNone) "object"
        || eq_str (get_or item "type" VNone) "array" = true ->
        truthy (get_or item "enum" VNone) = false ->
        result_of (prompt_for_value name (VDict d)) w
        = Return (VList (map (fun l => VStr (Str.strip l)) lines))
        /\ unread (prompt_for_value name (VDict d)) w = rest).
Proof.
  intros Ht Hin Hne Hs. split.
  - intros elems Hel. now apply array_elements with lines stop.
  - intros item Hi Hty He. apply array_elements with lines stop;
      try assumption.
    rewrite Hi. clear Hin. induction lines as [|l lines IH]; simpl.
    + constructor.
    + simpl in Hne. apply andb_prop in Hne as [Hl Hne].
      apply negb_true_iff, String.eqb_neq in Hl.
      constructor; [|now apply IH].
      intros w0. now apply nested_item_is_text.
Qed.

Lemma array_items_go_to_the_coercer_witness :
  result_of
    (prompt_for_value (VStr "rows")
       (VDict [("type", VStr "array");
               ("items", VDict [("type", VStr "object")])]))
    (typed [" a "; "7"; ""; "later"])
  = Return (VList [VStr "a"; VStr "7"])
  /\ unread
       (prompt_for_value (VStr "rows")
          (VDict [("type", VStr "array");
                  ("items", VDict [("type", VStr "object")])]))
       (typed [" a "; "7"; ""; "later"])
     = ["later"].
Proof.
  exact (proj2 (array_items_go_to_the_coercer (VStr "rows")
                  [("type", VStr "array");
                   ("items", VDict [("type", VStr "object")])]
                  [" a "; "7"] "" ["later"] (typed [" a "; "7"; ""; "later"])
                  eq_refl eq_refl eq_refl eq_refl)
           [("type", VStr "object")] eq_refl eq_refl eq_refl).
Defined.

(* ================================================================== *)
(** ** The recursion bound of the builder is never felt *)
(* ================================================================== *)

Lemma bind_ext {A B} (c : M A) (k1 k2 : A -> M B) w :
  (forall a w1, c w = (Return a, w1) -> k1 a w1 = k2 a w1) ->
  bind c k1 w = bind c k2 w.
Proof.
  unfold bind. destruct (c w) as [[a|e] w1]; intros H; [now apply H|reflexivity].
Qed.

Lemma depth_entry (d : dict) k v : In (k, v) d -> depth v < depth (VDict d).
Proof.
  induction d as [|[k' v'] d IH]; intros H; [contradiction|].
  destruct H as [E|H].
  - inversion E; subst. simpl. lia.
  - specialize (IH H). simpl in IH |- *. lia.
Qed.

Lemma dict_get_In (d : dict) k v : dict_get d k = Some v -> In (k, v) d.
Proof.
  induction d as [|[k' v'] d IH]; simpl; [discriminate|].
  destruct (String.eqb_spec k' k) as [->|_].
  - intros E. inversion E. now left.
  - intros H. right. now apply IH.
Qed.

Lemma properties_depth (d props : dict) k s :
  get_or d "properties" (VDict []) = VDict props ->
  In (k, s) props -> S (depth s) < depth (VDict d).
Proof.
  unfold get_or. intros Hp Hin.
  destruct (dict_get d "properties") as [p|] eqn:E.
  - subst p. apply dict_get_In, depth_entry in E.
    apply depth_entry in Hin. lia.
  - inversion Hp; subst. contradiction.
Qed.

Lemma for_properties_ext body1 body2 props :
  (forall k s, In (k, s) props ->
               forall r w, body1 k s r w = body2 k s r w) ->
  forall r w, for_properties body1 props r w = for_properties body2 props r w.
Proof.
  induction props as [|[k s] props IH]; intros H r w; [reflexivity|].
  simpl. unfold bind. rewrite (H k s (or_introl eq_refl) r w).
  destruct (body2 k s r w) as [[r'|e] w1]; [|reflexivity].
  apply IH. intros k' s' Hin. apply H. now right.
Qed.

Lemma fill_property_ext pv1 pv2 required k s :
  (forall t w, pv1 t s w = pv2 t s w) ->
  forall r w, fill_property pv1 required k s r w
              = fill_property pv2 required k s r w.
Proof.
  intros H r w. unfold fill_property.
  apply bind_ext. intros description w1 _.
  apply bind_ext. intros skipped w2 _.
  destruct skipped; [reflexivity|].
  unfold bind. now rewrite H.
Qed.

Lemma prompt_for_object_with_ext pv1 pv2 d w :
  (forall props, get_or d "properties" (VDict []) = VDict props ->
                 forall k s, In (k, s) props ->
                             forall t w', pv1 t s w' = pv2 t s w') ->
  prompt_for_object_with pv1 (VDict d) w = prompt_for_object_with pv2 (VDict d) w.
Proof.
  intros H. unfold prompt_for_object_with.
  apply bind_ext. intros properties w1 Hp.
  apply get_inv in Hp as (d' & E & -> & ->). inversion E; subst d'.
  apply bind_ext. intros req w2 _.
  apply bind_ext. intros required w3 _.
  apply bind_ext. intros props w4 Hi.
  destruct (get_or d "properties" (VDict [])) as [ |b|z|f|s|l|props'] eqn:Ep;
    try discriminate.
  simpl in Hi. unfold ret in Hi. inversion Hi; subst.
  unfold bind.
  rewrite (for_properties_ext (fill_property pv1 required)
             (fill_property pv2 required) props); [reflexivity|].
  intros k s Hin. apply fill_property_ext. intros t w'.
  now apply (H props eq_refl k s).
Qed.

(** Any two bounds above the depth of the schema give the same run. *)
Lemma prompt_for_value_at_stable :
  forall n m name schema w,
    depth schema < n -> depth schema < m ->
    prompt_for_value_at n name schema w = prompt_for_value_at m name schema w.
Proof.
  induction n as [|n IH]; intros [|m] name schema w Hn Hm; try lia.
  destruct schema as [ |b|z|f|s|l|d]; try reflexivity.
  cbn [prompt_for_value_at].
  apply bind_ext. intros schema_type w1 _.
  destruct (eq_str schema_type "object"); [|reflexivity].
  apply prompt_for_object_with_ext. intros props Hp k s Hin t w'.
  pose proof (properties_depth _ _ _ _ Hp Hin).
  apply IH; lia.
Qed.

(** The equations of the source: the bound has disappeared. *)
Theorem prompt_for_object_eq schema w :
  prompt_for_object schema w
  = prompt_for_object_with prompt_for_value schema w.
Proof.
  destruct schema as [ |b|z|f|s|l|d]; try reflexivity.
  unfold prompt_for_object. apply prompt_for_object_with_ext.
  intros props Hp k s Hin t w'. unfold prompt_for_value.
  pose proof (properties_depth _ _ _ _ Hp Hin).
  apply prompt_for_value_at_stable; lia.
Qed.

Theorem prompt_for_value_eq name schema w :
  prompt_for_value name schema w
  = (schema_type <- Py.get schema "type" VNone ;;
     if eq_str schema_type "object" then prompt_for_object schema
     else if eq_str schema_type "array" then
       item_schema <- Py.get schema "items" (VDict []) ;;
       Py.print (array_banner name) ;;
       n <- Py.lines_left ;;
       values <- array_loop (S n) item_schema [] ;;
       ret (VList values)
     else
       line <- Py.input [Lit "Введите "; Fmt name; Lit ": "] ;;
       convert_primitive (Str.strip line) schema) w.
Proof. reflexivity. Qed.

Lemma ret_within_fuel {A} (a : A) w : within_fuel (ret a) w.
Proof. unfold within_fuel. discriminate. Qed.

Lemma for_properties_within_fuel body props :
  (forall k s, In (k, s) props -> forall r w, within_fuel (body k s r) w) ->
  forall r w, within_fuel (for_properties body props r) w.
Proof.
  induction props as [|[k s] props IH]; intros H r w; simpl.
  - apply ret_within_fuel.
  - apply bind_within_fuel; [apply H; now left|].
    intros r' w1 _. apply IH. intros k' s' Hin. apply H. now right.
Qed.

Lemma fill_property_within_fuel pv required k s :
  (forall t w, within_fuel (pv t s) w) ->
  forall r w, within_fuel (fill_property pv required k s r) w.
Proof.
  intros H r w. unfold fill_property.
  apply bind_within_fuel; [apply get_within_fuel|]. intros description w1 _.
  apply bind_within_fuel.
  - destruct (negb (Py.contains required k)); [|apply ret_within_fuel].
    apply bind_within_fuel; [apply input_within_fuel|].
    intros line w2 _. apply ret_within_fuel.
  - intros skipped w2 _. destruct skipped; [apply ret_within_fuel|].
    apply bind_within_fuel; [apply H|]. intros v w3 _. apply ret_within_fuel.
Qed.

Lemma prompt_for_object_with_within_fuel pv schema w :
  (forall d props, schema = VDict d ->
                   get_or d "properties" (VDict []) = VDict props ->
                   forall k s, In (k, s) props ->
                               forall t w', within_fuel (pv t s) w') ->
  within_fuel (prompt_for_object_with pv schema) w.
Proof.
  intros H. unfold prompt_for_object_with.
  apply bind_within_fuel; [apply get_within_fuel|]. intros properties w1 Hp.
  apply get_inv in Hp as (d & -> & -> & ->).
  apply bind_within_fuel; [apply get_within_fuel|]. intros req w2 _.
  apply bind_within_fuel.
  { unfold Py.set_of, Py.iterate. apply bind_within_fuel.
    - destruct req; unfold within_fuel; simpl; discriminate.
    - intros l w3 _. destruct (forallb hashable l); unfold within_fuel;
        simpl; discriminate. }
  intros required w3 _.
  apply bind_within_fuel.
  { destruct (get_or d "properties" (VDict [])); unfold within_fuel; simpl;
      discriminate. }
  intros props w4 Hi.
  destruct (get_or d "properties" (VDict [])) as [ |b|z|f|s|l|props'] eqn:Ep;
    try discriminate.
  simpl in Hi. unfold ret in Hi. inversion Hi; subst.
  apply bind_within_fuel; [|intros; apply ret_within_fuel].
  apply for_properties_within_fuel. intros k s Hin.
  apply fill_property_within_fuel. intros t w'.
  now apply (H d props eq_refl Ep k s).
Qed.

Lemma prompt_for_value_at_within_fuel :
  forall n name schema w,
    depth schema < n -> within_fuel (prompt_for_value_at n name schema) w.
Proof.
  induction n as [|n IH]; intros name schema w Hn; [lia|].
  cbn [prompt_for_value_at].
  apply bind_within_fuel; [apply get_within_fuel|]. intros schema_type w1 Ht.
  apply get_inv in Ht as (d & -> & -> & ->).
  destruct (eq_str (get_or d "type" VNone) "object").
  { apply prompt_for_object_with_within_fuel.
    intros d' props E Hp k s Hin t w'. inversion E; subst d'.
    pose proof (properties_depth _ _ _ _ Hp Hin). apply IH. lia. }
  destruct (eq_str (get_or d "type" VNone) "array").
  { apply bind_within_fuel; [apply get_within_fuel|]. intros item w1 _.
    apply bind_within_fuel; [unfold within_fuel; discriminate|].
    intros [] w2 _.
    apply bind_within_fuel; [unfold within_fuel; discriminate|].
    intros k w3 Hk. unfold Py.lines_left in Hk. inversion Hk; subst.
    apply bind_within_fuel; [|intros; apply ret_within_fuel].
    apply array_loop_within_fuel. lia. }
  apply bind_within_fuel; [apply input_within_fuel|].
  intros line w1 _. apply convert_primitive_within_fuel.
Qed.

(** The builder always ends by a value or by a Python exception. *)
Theorem prompt_for_value_within_fuel name schema w :
  within_fuel (prompt_for_value name schema) w.
Proof. apply prompt_for_value_at_within_fuel. lia. Qed.

Theorem prompt_for_object_within_fuel schema w :
  within_fuel (prompt_for_object schema) w.
Proof.
  unfold within_fuel. rewrite prompt_for_object_eq.
  apply prompt_for_object_with_within_fuel.
  intros. apply prompt_for_value_within_fuel.
Qed.

Theorem prompt_for_payload_within_fuel schema w :
  within_fuel (prompt_for_payload schema) w.
Proof.
  assert (Hraw : forall prompt w0,
             within_fuel
               (raw <- Py.input prompt ;;
                if truthy (VStr raw) then Json.loads raw else ret (VDict []))
               w0).
  { intros prompt w0. apply bind_within_fuel; [apply input_within_fuel|].
    intros raw w1 _. destruct (truthy (VStr raw)); [|apply ret_within_fuel].
    unfold within_fuel, Json.loads. destruct (Json.parse raw); discriminate. }
  unfold prompt_for_payload.
  destruct (negb (truthy schema)); [apply Hraw|].
  apply bind_within_fuel; [apply get_within_fuel|]. intros t w1 _.
  destruct (eq_str t "object"); [|apply Hraw].
  apply bind_within_fuel; [unfold within_fuel; discriminate|].
  intros [] w2 _. apply prompt_for_object_within_fuel.
Qed.

(* ================================================================== *)
(** ** The Object Builder: [prompt_for_object] *)
(* ================================================================== *)

Lemma keys_dict_set (r : dict) k v k' :
  In k' (keys (dict_set r k v)) <-> k' = k \/ In k' (keys r).
Proof.
  unfold keys. induction r as [|[k0 v0] r IH]; simpl.
  - split; [intros [E|[]]; now left | intros [E|[]]; now left].
  - destruct (String.eqb_spec k0 k) as [->|N]; simpl.
    + intuition congruence.
    + rewrite IH. intuition congruence.
Qed.

Lemma dict_get_absent (r : dict) k : ~ In k (keys r) -> dict_get r k = None.
Proof.
  unfold keys. induction r as [|[k0 v0] r IH]; simpl; [reflexivity|].
  intros H. destruct (String.eqb_spec k0 k) as [->|N]; [tauto|].
  apply IH. tauto.
Qed.

Lemma dict_get_present (r : dict) k :
  In k (keys r) -> exists v, dict_get r k = Some v.
Proof.
  unfold keys. induction r as [|[k0 v0] r IH]; simpl; [contradiction|].
  intros H. destruct (String.eqb_spec k0 k) as [->|N]; [now exists v0|].
  apply IH. destruct H; [contradiction|assumption].
Qed.

Lemma contains_strings req k :
  Py.contains (map VStr req) k = member k req.
Proof.
  unfold Py.contains, member. induction req as [|x req IH]; simpl;
    [reflexivity|].
  now rewrite IH, String.eqb_sym.
Qed.

Lemma set_of_strings req w :
  Py.set_of (strings req) w = (Return (map VStr req), w).
Proof.
  unfold Py.set_of, strings, bind, ret. simpl.
  replace (forallb hashable (map VStr req)) with true; [reflexivity|].
  induction req; simpl; congruence.
Qed.

Lemma for_properties_app body l1 l2 :
  forall r w,
    for_properties body (l1 ++ l2)%list r w
    = (r1 <- for_properties body l1 r ;; for_properties body l2 r1) w.
Proof.
  induction l1 as [|[k s] l1 IH]; intros r w; simpl; [reflexivity|].
  unfold bind. destruct (body k s r w) as [[r'|e] w1]; [|reflexivity].
  rewrite IH. reflexivity.
Qed.

(** One turn of the loop leaves [result] as it is or sets the key
    [prop]; a required property is always set. *)
Lemma fill_property_inv pv required prop prop_schema r w r' w' :
  fill_property pv required prop prop_schema r w = (Return r', w') ->
  (Py.contains required prop = false /\ r' = r)
  \/ exists v, r' = dict_set r prop v.
Proof.
  unfold fill_property. intros H.
  apply bind_Return_inv in H as (description & w1 & _ & H).
  apply bind_Return_inv in H as (skipped & w2 & Hs & H).
  destruct skipped.
  - left. unfold ret in H. inversion H; subst. split; [|reflexivity].
    destruct (Py.contains required prop); [discriminate|reflexivity].
  - right. apply bind_Return_inv in H as (v & w3 & _ & H).
    unfold ret in H. inversion H. now exists v.
Qed.

(** A declined optional property leaves [result] as it is. *)
Lemma fill_property_declined pv required prop prop_schema r w answer rest
      r' w' :
  Py.contains required prop = false ->
  stdin w = answer :: rest ->
  member (Str.lower (Str.strip answer)) affirmative_tokens = false ->
  fill_property pv required prop prop_schema r w = (Return r', w') ->
  r' = r.
Proof.
  unfold fill_property. intros Hreq Hin Hno H.
  apply bind_Return_inv in H as (description & w1 & Hd & H).
  apply get_inv in Hd as (ps & -> & -> & ->).
  rewrite Hreq in H. change (negb false) with true in H. cbv iota in H.
  apply bind_Return_inv in H as (skipped & w2 & Hs & H).
  apply bind_Return_inv in Hs as (line & w3 & Hl & Hs).
  rewrite (input_line _ _ _ _ Hin) in Hl. injection Hl as <- <-.
  rewrite Hno in Hs. unfold ret in Hs. injection Hs as <- <-.
  unfold ret in H. now inversion H.
Qed.

(** The keys of the mapping under construction: only keys of the
    properties walked so far are added, none is removed, and every
    required one is there. *)
Lemma for_properties_keys pv required props :
  forall r w r' w',
    for_properties (fill_property pv required) props r w = (Return r', w') ->
    (forall k, In k (keys r') -> In k (keys r) \/ In k (keys props))
    /\ (forall k, In k (keys r) -> In k (keys r'))
    /\ (forall k, In k (keys props) -> Py.contains required k = true ->
                  In k (keys r')).
Proof.
  induction props as [|[prop ps] props IH]; intros r w r' w' H.
  - simpl in H. unfold ret in H. inversion H; subst.
    repeat split; auto. intros k [].
  - simpl in H. apply bind_Return_inv in H as (r1 & w1 & H1 & H).
    destruct (IH _ _ _ _ H) as (A & B & C).
    apply fill_property_inv in H1.
    assert (Hr1 : forall k, In k (keys r1) -> In k (keys r) \/ k = prop).
    { intros k Hk. destruct H1 as [[_ ->]|[v ->]]; [now left|].
      apply keys_dict_set in Hk. tauto. }
    assert (Hr : forall k, In k (keys r) -> In k (keys r1)).
    { intros k Hk. destruct H1 as [[_ ->]|[v ->]]; [assumption|].
      apply keys_dict_set. now right. }
    repeat split.
    + intros k Hk. simpl. destruct (A k Hk) as [Hk1|Hk1]; [|tauto].
      destruct (Hr1 k Hk1); [tauto|]. subst. tauto.
    + intros k Hk. apply B, Hr, Hk.
    + intros k [E|Hk] Hreq; [|now apply C].
      simpl in E. subst k. apply B.
      destruct H1 as [[Hc _]|[v ->]]; [congruence|].
      apply keys_dict_set. now left.
Qed.

(** [prompt_for_object] returns what its loop has built. *)
Lemma prompt_for_object_inv d req result w w' :
  get_or d "required" (VList []) = strings req ->
  prompt_for_object (VDict d) w = (Return result, w') ->
  exists props r,
    get_or d "properties" (VDict []) = VDict props
    /\ result = VDict r
    /\ for_properties (fill_property prompt_for_value (map VStr req))
         props [] w = (Return r, w').
Proof.
  intros Hreq H. rewrite prompt_for_object_eq in H.
  unfold prompt_for_object_with in H.
  apply bind_Return_inv in H as (properties & w1 & Hp & H).
  apply get_inv in Hp as (d' & E & -> & ->). inversion E; subst d'.
  apply bind_Return_inv in H as (required & w1 & Hr & H).
  apply get_inv in Hr as (d' & E' & -> & ->). inversion E'; subst d'.
  rewrite Hreq in H.
  rewrite (bind_Return _ _ _ _ _ (set_of_strings req w)) in H.
  apply bind_Return_inv in H as (props & w1 & Hi & H).
  destruct (get_or d "properties" (VDict [])) as [ |b|z|f|s|l|props'];
    try discriminate.
  simpl in Hi. unfold ret in Hi. inversion Hi; subst props' w1.
  apply bind_Return_inv in H as (r & w2 & Hl & H).
  unfold ret in H. inversion H; subst.
  now exists props, r.
Qed.

(** C5: for an object schema whose required names are all declared
    properties, the mapping that [prompt_for_object] returns has no key
    outside the declared properties and has every required key. *)
Theorem object_keys_within_schema d props req w result w' :
  get_or d "properties" (VDict []) = VDict props ->
  get_or d "required" (VList []) = strings req ->
  forallb (fun k => member k (keys props)) req = true ->
  prompt_for_object (VDict d) w = (Return result, w') ->
  exists r,
    result = VDict r
    /\ (forall k, In k (keys r) -> In k (keys props))
    /\ (forall k, In k req -> In k (keys r)).
Proof.
  intros Hp Hreq Hsub H.
  destruct (prompt_for_object_inv _ _ _ _ _ Hreq H) as (props' & r & Hp' & -> & Hl).
  rewrite Hp in Hp'. inversion Hp'; subst props'.
  destruct (for_properties_keys _ _ _ _ _ _ _ Hl) as (A & _ & C).
  exists r. split; [reflexivity|]. split.
  - intros k Hk. destruct (A k Hk) as [[]|]; assumption.
  - intros k Hk. apply C.
    + rewrite forallb_forall in Hsub. apply member_In. now apply Hsub.
    + rewrite contains_strings. now apply member_In.
Qed.

Lemma object_keys_within_schema_witness :
  exists r,
    VDict [("order_ids", VList [VInt 10; VInt 20]); ("note", VStr "x")]
    = VDict r
    /\ (forall k, In k (keys r) -> In k ["order_ids"; "limit"; "note"])
    /\ (forall k, In k ["order_ids"] -> In k (keys r)).
Proof.
  apply (object_keys_within_schema
           [("type", VStr "object");
            ("properties",
             VDict [("order_ids",
                     VDict [("type", VStr "array");
                            ("items", VDict [("type", VStr "integer")])]);
                    ("limit",
                     VDict [("type", VStr "integer"); ("default", VInt 100)]);
                    ("note", VDict [("type", VStr "string")])]);
            ("required", strings ["order_ids"])]
           [("order_ids",
             VDict [("type", VStr "array");
                    ("items", VDict [("type", VStr "integer")])]);
            ("limit", VDict [("type", VStr "integer"); ("default", VInt 100)]);
            ("note", VDict [("type", VStr "string")])]
           ["order_ids"]
           (typed ["10"; "20"; ""; "n"; "y"; "x"])
           (VDict [("order_ids", VList [VInt 10; VInt 20]); ("note", VStr "x")])
           (snd (prompt_for_object
                   (VDict
                      [("type", VStr "object");
                       ("properties",
                        VDict [("order_ids",
                                VDict [("type", VStr "array");
                                       ("items", VDict [("type", VStr "integer")])]);
                               ("limit",
                                VDict [("type", VStr "integer");
                                       ("default", VInt 100)]);
                               ("note", VDict [("type", VStr "string")])]);
                       ("required", strings ["order_ids"])])
                   (typed ["10"; "20"; ""; "n"; "y"; "x"])))
           eq_refl eq_refl eq_refl eq_refl).
Defined.

(** C8: when the operator declines an optional property, the returned
    mapping has no entry for it.  [w0] is the world in which the loop
    reaches the property: the properties before it have been walked,
    and [answer], the next line, is not an affirmative token. *)
Theorem declined_optional_is_absent
    d before prop prop_schema after req w r0 w0 answer rest result w' :
  get_or d "properties" (VDict [])
  = VDict (before ++ (prop, prop_schema) :: after)%list ->
  get_or d "required" (VList []) = strings req ->
  member prop req = false ->
  member prop (keys before) = false ->
  member prop (keys after) = false ->
  for_properties (fill_property prompt_for_value (map VStr req)) before [] w
  = (Return r0, w0) ->
  stdin w0 = answer :: rest ->
  member (Str.lower (Str.strip answer)) affirmative_tokens = false ->
  prompt_for_object (VDict d) w = (Return result, w') ->
  exists r, result = VDict r /\ dict_get r prop = None.
Proof.
  intros Hp Hreq Hopt Hb Ha Hbefore Hin Hno H.
  destruct (prompt_for_object_inv _ _ _ _ _ Hreq H)
    as (props' & r & Hp' & -> & Hl).
  rewrite Hp in Hp'. inversion Hp'; subst props'. clear Hp'.
  exists r. split; [reflexivity|].
  rewrite for_properties_app in Hl.
  rewrite (bind_Return _ _ _ _ _ Hbefore) in Hl.
  simpl in Hl. apply bind_Return_inv in Hl as (r1 & w1 & H1 & Hl).
  assert (r1 = r0).
  { eapply fill_property_declined; eauto. now rewrite contains_strings. }
  subst r1.
  destruct (for_properties_keys _ _ _ _ _ _ _ Hbefore) as (A0 & _ & _).
  destruct (for_properties_keys _ _ _ _ _ _ _ Hl) as (A1 & _ & _).
  apply dict_get_absent. intros Hk.
  assert (Nb : ~ In prop (keys before)).
  { intros Hc. apply member_In in Hc. congruence. }
  assert (Na : ~ In prop (keys after)).
  { intros Hc. apply member_In in Hc. congruence. }
  destruct (A1 _ Hk) as [Hk0|Hk1]; [|contradiction].
  destruct (A0 _ Hk0) as [[]|]; contradiction.
Qed.

Lemma declined_optional_is_absent_witness :
  exists r, VDict [("status", VStr "awaiting")] = VDict r
            /\ dict_get r "offset" = None.
Proof.
  apply (declined_optional_is_absent
           [("type", VStr "object");
            ("properties",
             VDict [("limit",
                     VDict [("type", VStr "integer"); ("default", VInt 100)]);
                    ("offset",
                     VDict [("type", VStr "integer"); ("default", VInt 0)]);
                    ("status", VDict [("type", VStr "string")])]);
            ("required", VList [])]
           [("limit", VDict [("type", VStr "integer"); ("default", VInt 100)])]
           "offset"
           (VDict [("type", VStr "integer"); ("default", VInt 0)])
           [("status", VDict [("type", VStr "string")])]
           []
           (typed ["no"; ""; "Да"; "awaiting"])
           []
           (after_input (optional_prompt (VStr "limit")) [""; "Да"; "awaiting"]
              (typed ["no"; ""; "Да"; "awaiting"]))
           "" ["Да"; "awaiting"]
           (VDict [("status", VStr "awaiting")])
           (snd (prompt_for_object
                   (VDict
                      [("type", VStr "object");
                       ("properties",
                        VDict [("limit",
                                VDict [("type", VStr "integer");
                                       ("default", VInt 100)]);
                               ("offset",
                                VDict [("type", VStr "integer");
                                       ("default", VInt 0)]);
                               ("status", VDict [("type", VStr "string")])]);
                       ("required", VList [])])
                   (typed ["no"; ""; "Да"; "awaiting"])))
           eq_refl eq_refl eq_refl eq_refl eq_refl eq_refl eq_refl eq_refl
           eq_refl).
Defined.

(** A property that is required, or whose prompt was affirmed, has an
    entry whenever the builder returns: a declined field differs from a
    field filled with an empty or default value, which is present. *)
Lemma filled_property_is_present pv required prop prop_schema r w r' w' :
  fill_property pv required prop prop_schema r w = (Return r', w') ->
  (Py.contains required prop = true
   \/ exists answer rest,
        stdin w = answer :: rest
        /\ member (Str.lower (Str.strip answer)) affirmative_tokens = true) ->
  exists v, dict_get r' prop = Some v.
Proof.
  intros H Hfill. apply dict_get_present.
  unfold fill_property in H.
  apply bind_Return_inv in H as (description & w1 & Hd & H).
  apply get_inv in Hd as (ps & -> & -> & ->).
  apply bind_Return_inv in H as (skipped & w2 & Hs & H).
  assert (skipped = false) as ->.
  { destruct Hfill as [Hreq|(answer & rest & Hin & Hyes)].
    - rewrite Hreq in Hs. unfold ret in Hs. simpl in Hs. now inversion Hs.
    - destruct (Py.contains required prop);
        [unfold ret in Hs; simpl in Hs; now inversion Hs|].
      change (negb false) with true in Hs. cbv iota in Hs.
      apply bind_Return_inv in Hs as (line & w3 & Hl & Hs).
      rewrite (input_line _ _ _ _ Hin) in Hl. injection Hl as <- <-.
      rewrite Hyes in Hs. unfold ret in Hs. now inversion Hs. }
  apply bind_Return_inv in H as (v & w3 & _ & H).
  unfold ret in H. inversion H; subst. apply keys_dict_set. now left.
Qed.

(* ================================================================== *)
(** ** The Payload Assembler: [prompt_for_payload] *)
(* ================================================================== *)

Lemma prompt_for_object_mapping schema w v w' :
  prompt_for_object schema w = (Return v, w') -> is_mapping v = true.
Proof.
  rewrite prompt_for_object_eq. unfold prompt_for_object_with. intros H.
  repeat (apply bind_Return_inv in H as (? & ? & _ & H)).
  unfold ret in H. now inversion H.
Qed.

(** C4: [prompt_for_payload] is declared to return a mapping (line
    124), and does so for an object schema and for an empty line; but
    without a schema, or with one whose type is not object, a non-empty
    line that is valid JSON and not an object is returned as it parses
    (lines 127 and 132): the line [[1, 2]] gives a list and the line
    [7] an integer, neither of them a mapping. *)
Theorem raw_json_payload_is_no_mapping :
  result_of (prompt_for_payload VNone) (typed ["[1, 2]"])
  = Return (VList [VInt 1; VInt 2])
  /\ is_mapping (VList [VInt 1; VInt 2]) = false
  /\ result_of (prompt_for_payload (VDict [("type", VStr "array")]))
       (typed ["7"])
     = Return (VInt 7)
  /\ is_mapping (VInt 7) = false
  /\ result_of (prompt_for_payload VNone) (typed [""]) = Return (VDict [])
  /\ result_of (prompt_for_payload VNone) (typed ["{}"]) = Return (VDict []).
Proof. repeat split. Qed.

(** The shape of the payload in general: when the schema is absent,
    empty or not of type object, one line is read; an empty line yields
    the empty mapping and a non-empty line yields whatever value it
    denotes as JSON, a mapping or not, or the decoder's error.  When the
    schema is of type object the payload comes from the Object Builder,
    and whatever is returned is a mapping. *)
Theorem payload_shape (schema : value) (w : world) :
  (asks_raw_json schema = true ->
   forall raw rest,
     stdin w = raw :: rest ->
     result_of (prompt_for_payload schema) w
     = (if raw =? "" then Return (VDict [])
        else match Json.parse raw with
             | Some v => Return v
             | None => Raise JSONDecodeError
             end)
     /\ unread (prompt_for_payload schema) w = rest)
  /\ (asks_raw_json schema = false ->
      forall v w',
        prompt_for_payload schema w = (Return v, w') -> is_mapping v = true).
Proof.
  assert (Hraw : forall prompt raw rest,
             stdin w = raw :: rest ->
             let c := (raw <- Py.input prompt ;;
                       if truthy (VStr raw) then Json.loads raw
                       else ret (VDict [])) in
             result_of c w
             = (if raw =? "" then Return (VDict [])
                else match Json.parse raw with
                     | Some v => Return v
                     | None => Raise JSONDecodeError
                     end)
             /\ unread c w = rest).
  { intros prompt raw rest Hin c. unfold result_of, unread, c.
    rewrite (bind_Return _ _ _ _ _ (input_line _ _ _ _ Hin)). simpl.
    destruct (raw =? ""); simpl; [now split|].
    unfold Json.loads. now destruct (Json.parse raw). }
  unfold asks_raw_json, prompt_for_payload. split.
  - intros Hs raw rest Hin.
    destruct (negb (truthy schema)); [now apply Hraw|]. simpl in Hs.
    destruct schema as [ |b|z|f|s|l|d]; try discriminate.
    apply negb_true_iff in Hs.
    assert (E : (schema_type <- Py.get (VDict d) "type" VNone ;;
                 if eq_str schema_type "object" then
                   Py.print [Lit "Заполните поля запроса (оставьте пустым, если не хотите заполнять необязательные поля):"] ;;
                   prompt_for_object (VDict d)
                 else
                   raw <- Py.input [Lit "Введите тело запроса в формате JSON: "] ;;
                   if truthy (VStr raw) then Json.loads raw else ret (VDict [])) w
                = (raw <- Py.input [Lit "Введите тело запроса в формате JSON: "] ;;
                   if truthy (VStr raw) then Json.loads raw else ret (VDict [])) w).
    { simpl Py.get. unfold bind at 1, ret at 1. now rewrite Hs. }
    unfold result_of, unread. rewrite E. now apply Hraw.
  - intros Hs v w' H. apply orb_false_elim in Hs as [Ht Ho].
    rewrite Ht in H.
    destruct schema as [ |b|z|f|s|l|d]; try discriminate.
    apply negb_false_iff in Ho.
    simpl Py.get in H. unfold bind at 1, ret at 1 in H. rewrite Ho in H.
    apply bind_Return_inv in H as ([] & w1 & _ & H).
    now apply prompt_for_object_mapping in H.
Qed.

Lemma payload_shape_witness :
  (result_of (prompt_for_payload VNone) (typed ["null"; "x"]) = Return VNone
   /\ unread (prompt_for_payload VNone) (typed ["null"; "x"]) = ["x"])
  /\ is_mapping (VDict [("status", VStr "new")]) = true.
Proof.
  split.
  - exact (proj1 (payload_shape VNone (typed ["null"; "x"])) eq_refl
             "null" ["x"] eq_refl).
  - exact (proj2 (payload_shape
                    (VDict [("type", VStr "object");
                            ("properties",
                             VDict [("status", VDict [("type", VStr "string")])]);
                            ("required", strings ["status"])])
                    (typed ["new"]))
             eq_refl (VDict [("status", VStr "new")]) _ eq_refl).
Defined.

(** C10: an empty mapping given as schema is a falsy value, so
    [prompt_for_payload] runs exactly as with no schema, asking for raw
    JSON; the Object Builder, which for that schema would return an
    empty mapping without reading anything, is not called. *)
Theorem empty_schema_is_no_schema :
  forall w,
    prompt_for_payload (VDict []) w = prompt_for_payload VNone w
    /\ prompt_for_payload (VDict []) w
       = (raw <- Py.input
                   [Lit "Введите тело запроса в формате JSON (или оставьте пустым): "] ;;
          if truthy (VStr raw) then Json.loads raw else ret (VDict [])) w
    /\ prompt_for_object (VDict []) w = (Return (VDict []), w).
Proof. intros w. repeat split. Qed.

Example empty_schema_reads_raw_json :
  result_of (prompt_for_payload (VDict [])) (typed ["[true]"])
  = Return (VList [VBool true])
  /\ unread (prompt_for_payload (VDict [])) (typed ["[true]"]) = []
  /\ unread (prompt_for_object (VDict [])) (typed ["[true]"]) = ["[true]"].
Proof. repeat split. Qed.

(* ================================================================== *)
(** ** The session: [run_command] and the loop of [main] *)
(* ================================================================== *)

(** [run_command] builds the payload outside its [try] (line 175): an
    exception of the builder leaves [run_command] as it is. *)
Lemma run_command_has_no_handler command meta method client_id api_key
      e w w' :
  get_or meta "method" (VStr "post") = VStr method ->
  prompt_for_payload (get_or meta "schema" VNone) w = (Raise e, w') ->
  run_command command (VDict meta) client_id api_key w = (Raise e, w').
Proof.
  intros Hm Hp. unfold run_command. simpl Py.get.
  unfold bind at 1, ret at 1. rewrite Hm. simpl Py.lower.
  unfold bind at 1, ret at 1. unfold bind at 1, ret at 1.
  now apply bind_Raise.
Qed.

(** C1 fails on the code: the operator picks [v3/supply-order/get] and
    types [abc] as an order id.  [int] raises [ValueError], nothing
    between the builder and the interpreter catches it, and [main] ends
    with that exception: no message from the program, no return to the
    menu (the two lines typed after it stay unread). *)
Theorem malformed_number_ends_the_session :
  let w := {| stdin := ["id"; "key"; "2"; "abc"; ""; ""];
              network := [Some ok_reply]; trace := [] |} in
  result_of main w = Raise ValueError
  /\ unread main w = [""; ""]
  /\ last (trace (snd (main w))) (Printed []) = Prompted element_prompt.
Proof. repeat split. Qed.

(** The sibling paths do recover: a malformed menu choice is answered by
    a message and a new menu, a failed request by a message and the menu. *)
Example malformed_choice_is_recovered :
  let w := {| stdin := ["id"; "key"; "abc"; ""];
              network := [Some ok_reply]; trace := [] |} in
  result_of main w = Return tt
  /\ In (Printed [Lit "Введите корректный номер."]) (trace (snd (main w))).
Proof. split; [reflexivity|]. vm_compute. tauto. Qed.

Example failed_request_is_recovered :
  let w := {| stdin := ["id"; "key"; "2"; "10"; ""; ""];
              network := [Some ok_reply; None]; trace := [] |} in
  result_of main w = Return tt
  /\ In (Printed [Lit "Не удалось выполнить запрос: "; Msg RequestException])
        (trace (snd (main w))).
Proof. split; [reflexivity|]. vm_compute. tauto. Qed.

(** Malformed raw JSON ends [run_command] the same way. *)
Example malformed_json_is_not_caught :
  result_of
    (run_command "v1/custom" (VDict [("method", VStr "post")]) "id" "key")
    (typed ["{oops"])
  = Raise JSONDecodeError.
Proof. reflexivity. Qed.

(* ================================================================== *)
(** ** The session always ends: its loops stay within their bounds *)
(* ================================================================== *)

Lemma bind_reads_forward {A B} (c : M A) (k : A -> M B) w :
  reads_forward c w ->
  (forall a w1, c w = (Return a, w1) -> reads_forward (k a) w1) ->
  reads_forward (bind c k) w.
Proof.
  unfold reads_forward, bind. destruct (c w) as [[a|e] w1]; simpl; intros Hc Hk.
  - specialize (Hk a w1 eq_refl). lia.
  - assumption.
Qed.

Lemma try_except_reads_forward {A} (c : M A) handles (h : exn -> M A) w :
  reads_forward c w ->
  (forall e w1, c w = (Raise e, w1) -> reads_forward (h e) w1) ->
  reads_forward (try_except c handles h) w.
Proof.
  unfold reads_forward, try_except.
  destruct (c w) as [[a|e] w1]; simpl; intros Hc Hh; [assumption|].
  destruct (handles e); [|assumption].
  specialize (Hh e w1 eq_refl). lia.
Qed.

Lemma try_except_within_fuel {A} (c : M A) handles (h : exn -> M A) w :
  within_fuel c w ->
  (forall e w1, c w = (Raise e, w1) -> within_fuel (h e) w1) ->
  within_fuel (try_except c handles h) w.
Proof.
  unfold within_fuel, try_except.
  destruct (c w) as [[a|e] w1]; simpl; intros Hc Hh; [discriminate|].
  destruct (handles e); [now apply Hh|assumption].
Qed.

Lemma still_reads_forward {A} (c : M A) w :
  snd (c w) = w -> reads_forward c w.
Proof. unfold reads_forward. now intros ->. Qed.

Lemma ret_reads_forward {A} (a : A) w : reads_forward (ret a) w.
Proof. now apply still_reads_forward. Qed.

Lemma raise_reads_forward {A} e w : reads_forward (@raise A e) w.
Proof. now apply still_reads_forward. Qed.

Lemma lift_reads_forward {A} e (o : option A) w : reads_forward (lift e o) w.
Proof. destruct o; now apply still_reads_forward. Qed.

Lemma print_reads_forward t w : reads_forward (Py.print t) w.
Proof. unfold reads_forward. simpl. lia. Qed.

Lemma input_reads_forward prompt w : reads_forward (Py.input prompt) w.
Proof.
  unfold reads_forward, Py.input, emit, bind. simpl.
  destruct (stdin w); simpl; lia.
Qed.

Lemma get_reads_forward obj key dflt w : reads_forward (Py.get obj key dflt) w.
Proof. destruct obj; now apply still_reads_forward. Qed.

Lemma subscript_reads_forward obj key w :
  reads_forward (Py.subscript obj key) w.
Proof.
  destruct obj; try now apply still_reads_forward.
  simpl. apply lift_reads_forward.
Qed.

Lemma iterate_reads_forward obj w : reads_forward (Py.iterate obj) w.
Proof. destruct obj; now apply still_reads_forward. Qed.

Lemma request_reads_forward method url headers body w :
  reads_forward (Requests.request method url headers body) w.
Proof.
  unfold reads_forward, Requests.request, emit, bind. simpl.
  destruct (network w) as [|[r|] rest]; simpl; lia.
Qed.

Lemma request_within_fuel method url headers body w :
  within_fuel (Requests.request method url headers body) w.
Proof.
  unfold within_fuel, Requests.request, emit, bind. simpl.
  destruct (network w) as [|[r|] rest]; simpl; discriminate.
Qed.

Create HintDb forward.

#[local] Hint Resolve ret_reads_forward raise_reads_forward lift_reads_forward
  print_reads_forward input_reads_forward get_reads_forward
  subscript_reads_forward iterate_reads_forward request_reads_forward
  : forward.

(** Splits a run along its binds and closes the elementary steps. *)
Ltac forward :=
  repeat first
    [ solve [auto with forward]
    | match goal with
      | |- reads_forward (bind _ _) _ =>
          apply bind_reads_forward; [|intros ? ? _]
      | |- reads_forward (if ?b then _ else _) _ => destruct b
      | |- reads_forward (match ?o with Some _ => _ | None => _ end) _ =>
          destruct o
      end ].

Lemma convert_primitive_reads_forward raw schema w :
  reads_forward (convert_primitive raw schema) w.
Proof.
  unfold convert_primitive, Py.join, Py.int, Py.float. forward.
Qed.

Lemma array_loop_reads_forward item :
  forall fuel vs w, reads_forward (array_loop fuel item vs) w.
Proof.
  induction fuel as [|fuel IH]; intros vs w; simpl; [auto with forward|].
  forward; first [apply convert_primitive_reads_forward | apply IH].
Qed.

Lemma for_properties_reads_forward body props :
  (forall k s r w, reads_forward (body k s r) w) ->
  forall r w, reads_forward (for_properties body props r) w.
Proof.
  intros H. induction props as [|[k s] props IH]; intros r w; simpl;
    [auto with forward|].
  apply bind_reads_forward; [apply H|]. intros r' w1 _. apply IH.
Qed.

Lemma prompt_for_object_with_reads_forward pv schema w :
  (forall t s w', reads_forward (pv t s) w') ->
  reads_forward (prompt_for_object_with pv schema) w.
Proof.
  intros H. unfold prompt_for_object_with, Py.set_of, Py.items. forward.
  all: try match goal with
           | |- reads_forward (match ?a with VNone => _ | _ => _ end) _ =>
               destruct a; auto with forward
           end.
  apply for_properties_reads_forward. intros k s r w'.
  unfold fill_property. forward.
Qed.

Lemma prompt_for_value_at_reads_forward :
  forall n name schema w, reads_forward (prompt_for_value_at n name schema) w.
Proof.
  induction n as [|n IH]; intros name schema w; [simpl; auto with forward|].
  cbn [prompt_for_value_at]. forward.
  all: first [ apply prompt_for_object_with_reads_forward; intros; apply IH
             | now apply still_reads_forward
             | apply array_loop_reads_forward
             | apply convert_primitive_reads_forward ].
Qed.

Lemma prompt_for_payload_reads_forward schema w :
  reads_forward (prompt_for_payload schema) w.
Proof.
  unfold prompt_for_payload, Json.loads. forward.
  unfold prompt_for_object.
  apply prompt_for_object_with_reads_forward.
  intros. apply prompt_for_value_at_reads_forward.
Qed.

Lemma run_command_reads_forward command meta client_id api_key w :
  reads_forward (run_command command meta client_id api_key) w.
Proof.
  unfold run_command, pretty_json, Requests.json, Py.lower. forward.
  all: try match goal with
           | |- reads_forward (match ?a with VNone => _ | _ => _ end) _ =>
               destruct a; auto with forward
           end.
  all: try apply prompt_for_payload_reads_forward.
  apply try_except_reads_forward; [|intros; auto with forward].
  forward. apply try_except_reads_forward; [|intros; auto with forward].
  forward.
Qed.

Lemma run_command_within_fuel command meta client_id api_key w :
  within_fuel (run_command command meta client_id api_key) w.
Proof.
  unfold run_command.
  apply bind_within_fuel; [apply get_within_fuel|]. intros method w1 _.
  apply bind_within_fuel;
    [destruct method; unfold within_fuel; simpl; discriminate|].
  intros method' w2 _.
  apply bind_within_fuel; [apply get_within_fuel|]. intros schema w3 _.
  apply bind_within_fuel; [apply prompt_for_payload_within_fuel|].
  intros payload w4 _.
  do 3 (apply bind_within_fuel; [unfold within_fuel; discriminate|];
        intros [] ? _).
  apply try_except_within_fuel;
    [|intros; unfold within_fuel; discriminate].
  apply bind_within_fuel; [apply request_within_fuel|]. intros response w8 _.
  apply bind_within_fuel; [unfold within_fuel; discriminate|]. intros [] w9 _.
  apply try_except_within_fuel;
    [|intros; unfold within_fuel; discriminate].
  apply bind_within_fuel;
    [unfold within_fuel, Requests.json; destruct (body_json response);
     discriminate|].
  intros data w10 _. unfold within_fuel. discriminate.
Qed.

Lemma reads_forward_to {A} (c : M A) w r w1 :
  reads_forward c w -> c w = (r, w1) -> length (stdin w1) <= length (stdin w).
Proof. unfold reads_forward. intros H E. now rewrite E in H. Qed.

Lemma list_commands_reads_forward items :
  forall idx w, reads_forward (list_commands idx items) w.
Proof.
  induction items as [|[name meta] items IH]; intros idx w; simpl;
    [auto with forward|].
  forward.
Qed.

Lemma list_commands_within_fuel items :
  forall idx w, within_fuel (list_commands idx items) w.
Proof.
  induction items as [|[name meta] items IH]; intros idx w; simpl;
    [apply ret_within_fuel|].
  apply bind_within_fuel; [apply get_within_fuel|]. intros summary w1 _.
  apply bind_within_fuel; [unfold within_fuel; discriminate|].
  intros [] w2 _. apply IH.
Qed.

(** The part of [choose_command] before its recursive calls: the menu,
    the line read, and the number parsed from it ([None]: not a number). *)
Lemma parsed_choice_reads_forward raw w :
  reads_forward
    (try_except (idx <- Py.int raw ;; ret (Some idx)) is_ValueError
       (fun _ => Py.print [Lit "Введите корректный номер."] ;; ret None)) w.
Proof.
  apply try_except_reads_forward; [|intros]; unfold Py.int; forward.
Qed.

Lemma parsed_choice_within_fuel raw w :
  within_fuel
    (try_except (idx <- Py.int raw ;; ret (Some idx)) is_ValueError
       (fun _ => Py.print [Lit "Введите корректный номер."] ;; ret None)) w.
Proof.
  apply try_except_within_fuel.
  - unfold within_fuel, Py.int, lift, bind.
    destruct (Py.parse_int raw); discriminate.
  - intros. unfold within_fuel. discriminate.
Qed.

Lemma choose_command_at_within_fuel commands :
  forall fuel w,
    length (stdin w) < fuel -> within_fuel (choose_command_at fuel commands) w.
Proof.
  induction fuel as [|fuel IH]; intros w Hf; [lia|].
  cbn [choose_command_at].
  apply bind_within_fuel; [unfold within_fuel; discriminate|].
  intros [] w1 H1. apply (reads_forward_to _ _ _ _ (print_reads_forward _ _)) in H1.
  apply bind_within_fuel; [apply list_commands_within_fuel|].
  intros [] w2 H2.
  apply (reads_forward_to _ _ _ _ (list_commands_reads_forward _ _ _)) in H2.
  apply bind_within_fuel; [apply input_within_fuel|].
  intros line w3 H3. apply input_inv in H3 as (rest & H3 & ->).
  destruct (negb (truthy (VStr (Str.strip line)))); [apply ret_within_fuel|].
  apply bind_within_fuel; [apply parsed_choice_within_fuel|].
  intros parsed w4 H4.
  apply (reads_forward_to _ _ _ _ (parsed_choice_reads_forward _ _)) in H4.
  simpl in H4. rewrite H3 in H2. simpl in H2.
  destruct parsed as [idx|]; [|apply IH; lia].
  destruct (negb (_ && _)).
  - apply bind_within_fuel; [unfold within_fuel; discriminate|].
    intros [] w5 H5.
    apply (reads_forward_to _ _ _ _ (print_reads_forward _ _)) in H5.
    apply IH. lia.
  - destruct (nth_error _ _) as [[name _]|]; unfold within_fuel; discriminate.
Qed.

(** A choice that is made has cost at least one typed line. *)
Lemma choose_command_at_consumes commands :
  forall fuel w r w',
    choose_command_at fuel commands w = (Return r, w') ->
    length (stdin w') < length (stdin w).
Proof.
  induction fuel as [|fuel IH]; intros w r w' H; [discriminate|].
  cbn [choose_command_at] in H.
  apply bind_Return_inv in H as ([] & w1 & H1 & H).
  apply (reads_forward_to _ _ _ _ (print_reads_forward _ _)) in H1.
  apply bind_Return_inv in H as ([] & w2 & H2 & H).
  apply (reads_forward_to _ _ _ _ (list_commands_reads_forward _ _ _)) in H2.
  apply bind_Return_inv in H as (line & w3 & H3 & H).
  apply input_inv in H3 as (rest & H3 & ->).
  rewrite H3 in H2. simpl in H2.
  destruct (negb (truthy (VStr (Str.strip line)))).
  { unfold ret in H. inversion H; subst. simpl. lia. }
  apply bind_Return_inv in H as (parsed & w4 & H4 & H).
  apply (reads_forward_to _ _ _ _ (parsed_choice_reads_forward _ _)) in H4.
  simpl in H4.
  destruct parsed as [idx|]; [|apply IH in H; lia].
  destruct (negb (_ && _)).
  - apply bind_Return_inv in H as ([] & w5 & H5 & H).
    apply (reads_forward_to _ _ _ _ (print_reads_forward _ _)) in H5.
    apply IH in H. lia.
  - destruct (nth_error _ _) as [[name _]|]; [|discriminate].
    unfold ret in H. inversion H; subst. lia.
Qed.

Lemma session_loop_within_fuel commands client_id api_key :
  forall fuel w,
    length (stdin w) < fuel ->
    within_fuel (session_loop fuel commands client_id api_key) w.
Proof.
  induction fuel as [|fuel IH]; intros w Hf; [lia|].
  cbn [session_loop].
  apply bind_within_fuel.
  { unfold choose_command, Py.lines_left, bind.
    apply choose_command_at_within_fuel. lia. }
  intros selected w1 H1.
  unfold choose_command, Py.lines_left, bind in H1.
  apply choose_command_at_consumes in H1.
  destruct selected as [[|c name]|]; try (unfold within_fuel; discriminate).
  apply bind_within_fuel.
  { unfold within_fuel, Py.subscript, lift.
    destruct (dict_get commands (String c name)); discriminate. }
  intros meta w2 H2.
  apply (reads_forward_to _ _ _ _ (subscript_reads_forward _ _ _)) in H2.
  apply bind_within_fuel; [apply run_command_within_fuel|].
  intros [] w3 H3.
  apply (reads_forward_to _ _ _ _ (run_command_reads_forward _ _ _ _ _)) in H3.
  apply IH. lia.
Qed.

(** Every session ends, by a return of [main] or by a Python exception:
    the bounds of the model's loops are never reached. *)
Theorem main_within_fuel w : within_fuel main w.
Proof.
  unfold main.
  apply bind_within_fuel; [unfold within_fuel; discriminate|]. intros [] w1 _.
  apply bind_within_fuel; [apply input_within_fuel|]. intros l1 w2 _.
  apply bind_within_fuel; [apply input_within_fuel|]. intros l2 w3 _.
  apply bind_within_fuel.
  { destruct (_ || _); unfold within_fuel; discriminate. }
  intros [] w4 _.
  apply bind_within_fuel; [unfold within_fuel; discriminate|]. intros [] w5 _.
  apply bind_within_fuel.
  { unfold verify_credentials, Requests.post.
    apply try_except_within_fuel;
      [|intros; unfold within_fuel; discriminate].
    apply bind_within_fuel; [apply request_within_fuel|].
    intros; unfold within_fuel; discriminate. }
  intros ok w6 _.
  apply bind_within_fuel.
  { destruct (negb ok); unfold within_fuel; discriminate. }
  intros [] w7 _.
  apply bind_within_fuel; [unfold within_fuel; discriminate|]. intros [] w8 _.
  apply bind_within_fuel; [unfold within_fuel; discriminate|]. intros [] w9 _.
  apply bind_within_fuel; [unfold within_fuel; discriminate|].
  intros n w10 Hn. unfold Py.lines_left in Hn. inversion Hn; subst.
  apply session_loop_within_fuel. lia.
Qed.

(** Lines 230-235: an exception of [run_command] leaves the loop of
    [main] as it is. *)
Lemma session_loop_has_no_handler fuel commands client_id api_key
      c name meta e w w1 w2 :
  choose_command commands w = (Return (Some (String c name)), w1) ->
  dict_get commands (String c name) = Some meta ->
  run_command (String c name) meta client_id api_key w1 = (Raise e, w2) ->
  session_loop (S fuel) commands client_id api_key w = (Raise e, w2).
Proof.
  intros Hc Hm Hr. simpl.
  rewrite (bind_Return _ _ _ _ _ Hc).
  unfold Py.subscript, lift. rewrite Hm.
  unfold bind at 1, ret at 1.
  now apply bind_Raise.
Qed.

(* ================================================================== *)
(** ** More on the Primitive Coercer *)
(* ================================================================== *)

(** X1: a numeric leaf (no enum, no default to apply) whose text is
    ASCII and is not a literal of its type makes [convert_primitive]
    raise [ValueError] with nothing read or written; this includes the
    empty input of a numeric field that has no default. *)
Theorem numeric_leaf_rejects_bad_text (d : dict) (raw : string) (w : world) :
  Str.is_ascii raw = true ->
  truthy (get_or d "enum" VNone) = false ->
  (raw =? "") && negb (is_none (get_or d "default" VNone)) = false ->
  (eq_str (get_or d "type" VNone) "integer" = true ->
   Py.parse_int raw = None ->
   convert_primitive raw (VDict d) w = (Raise ValueError, w))
  /\ (eq_str (get_or d "type" VNone) "number" = true ->
      Py.parse_float raw = None ->
      convert_primitive raw (VDict d) w = (Raise ValueError, w)).
Proof.
  intros _ He Hd. rewrite (typed_coercion d w raw He Hd). cbv zeta. split.
  - intros Ht Hp. now rewrite Ht, Hp.
  - intros Ht Hp. apply eq_str_true in Ht. rewrite Ht. simpl. now rewrite Hp.
Qed.

Lemma numeric_leaf_rejects_bad_text_witness :
  convert_primitive "" (VDict [("type", VStr "integer")]) (typed ["7"])
  = (Raise ValueError, typed ["7"])
  /\ convert_primitive "1,5" (VDict [("type", VStr "number")]) (typed [])
     = (Raise ValueError, typed []).
Proof.
  split.
  - exact (proj1 (numeric_leaf_rejects_bad_text [("type", VStr "integer")]
                    "" (typed ["7"]) eq_refl eq_refl eq_refl)
             eq_refl eq_refl).
  - exact (proj2 (numeric_leaf_rejects_bad_text [("type", VStr "number")]
                    "1,5" (typed []) eq_refl eq_refl eq_refl)
             eq_refl eq_refl).
Defined.

(** X2: a leaf whose [type] is absent, or is any word other than
    [integer], [number] and [boolean], gets no conversion: the text is
    returned as it is (an empty text too, when no default applies). *)
Theorem other_types_stay_text (d : dict) (raw : string) (w : world) :
  truthy (get_or d "enum" VNone) = false ->
  (raw =? "") && negb (is_none (get_or d "default" VNone)) = false ->
  eq_str (get_or d "type" VNone) "integer"
  || eq_str (get_or d "type" VNone) "number"
  || eq_str (get_or d "type" VNone) "boolean" = false ->
  convert_primitive raw (VDict d) w = (Return (VStr raw), w).
Proof.
  intros He Hd Ht. rewrite (typed_coercion d w raw He Hd). cbv zeta.
  apply orb_false_elim in Ht as [Ht Hb].
  apply orb_false_elim in Ht as [Hi Hn].
  now rewrite Hi, Hn, Hb.
Qed.

Lemma other_types_stay_text_witness :
  convert_primitive "12" (VDict [("type", VStr "int")]) (typed [])
  = (Return (VStr "12"), typed [])
  /\ convert_primitive "" (VDict []) (typed ["x"])
     = (Return (VStr ""), typed ["x"]).
Proof.
  split.
  - exact (other_types_stay_text [("type", VStr "int")] "12" (typed [])
             eq_refl eq_refl eq_refl).
  - exact (other_types_stay_text [] "" (typed ["x"]) eq_refl eq_refl eq_refl).
Defined.

(** What a typed, non-empty line can become: a scalar. *)
Lemma convert_primitive_scalar raw schema w v w' :
  raw <> "" ->
  convert_primitive raw schema w = (Return v, w') -> is_scalar v = true.
Proof.
  intros Hr.
  destruct schema as [ |b|z|f|s|l|d];
    try (run; rewrite (nonempty_eqb _ Hr); simpl; discriminate).
  run. rewrite (nonempty_eqb _ Hr). simpl.
  destruct (truthy (get_or d "enum" VNone)).
  - destruct (dict_get d "enum") as [e|]; [|discriminate]. simpl.
    destruct e as [ |b|z|f|s|l|d']; simpl; try discriminate.
    + destruct (all_str (map VStr (Str.chars s))); simpl; [|discriminate].
      intros E. now inversion E.
    + destruct (all_str l); simpl; [|discriminate].
      intros E. now inversion E.
    + destruct (all_str (map VStr (keys d'))); simpl; [|discriminate].
      intros E. now inversion E.
  - destruct (eq_str (get_or d "type" VNone) "integer").
    { destruct (Py.parse_int raw); simpl; [|discriminate].
      intros E. now inversion E. }
    destruct (eq_str (get_or d "type" VNone) "number").
    { destruct (Py.parse_float raw); simpl; [|discriminate].
      intros E. now inversion E. }
    destruct (eq_str (get_or d "type" VNone) "boolean");
      intros E; now inversion E.
Qed.

(* ================================================================== *)
(** ** More on the Array Builder *)
(* ================================================================== *)

(** The loop after a run of lines that are coerced: the same loop, on
    what is left to read, with the elements appended. *)
Lemma array_loop_prefix item lines :
  forall k tail elems vs w,
    stdin w = (lines ++ tail)%list ->
    forallb (fun l => negb (Str.strip l =? "")) lines = true ->
    Forall2 (fun l v => forall w0, convert_primitive (Str.strip l) item w0
                                   = (Return v, w0)) lines elems ->
    exists w',
      stdin w' = tail /\ network w' = network w
      /\ array_loop (length lines + k) item vs w
         = array_loop k item (vs ++ elems)%list w'.
Proof.
  induction lines as [|l lines IH]; intros k tail elems vs w Hin Hne Hel.
  - inversion Hel; subst. exists w. rewrite app_nil_r. now repeat split.
  - inversion Hel as [|? v ? elems' Hv Hel']; subst.
    simpl in Hin, Hne. apply andb_prop in Hne as [Hl Hne].
    apply negb_true_iff, String.eqb_neq in Hl.
    destruct (IH k tail elems' (vs ++ [v])%list
                (after_input element_prompt (lines ++ tail)%list w))
      as (w' & Hs & Hn & E); try assumption; try reflexivity.
    exists w'. repeat split; try assumption.
    change (length (l :: lines) + k) with (S (length lines + k)).
    rewrite (array_loop_step _ _ _ _ _ v _ Hin Hl (Hv _)).
    rewrite E. now rewrite <- app_assoc.
Qed.

Lemma array_loop_raise fuel item vs line rest e w w2 :
  stdin w = line :: rest -> Str.strip line <> "" ->
  convert_primitive (Str.strip line) item (after_input element_prompt rest w)
  = (Raise e, w2) ->
  array_loop (S fuel) item vs w = (Raise e, w2).
Proof.
  intros Hin Hs Hv. simpl.
  rewrite (bind_Return _ _ _ _ _ (input_line _ _ _ _ Hin)).
  rewrite (nonempty_eqb _ Hs).
  now rewrite (bind_Raise _ _ _ _ _ Hv).
Qed.

Lemma array_fuel_split (lines tail : list string) :
  S (length (lines ++ tail)%list) = length lines + S (length tail).
Proof. rewrite length_app. lia. Qed.

Lemma parse_int_nonempty raw n : Py.parse_int raw = Some n -> raw <> "".
Proof. intros H ->. discriminate. Qed.

Lemma integer_item item raw w0 :
  eq_str (get_or item "type" VNone) "integer" = true ->
  truthy (get_or item "enum" VNone) = false ->
  raw <> "" ->
  convert_primitive raw (VDict item) w0
  = (match Py.parse_int raw with
     | Some n => Return (VInt n)
     | None => Raise ValueError
     end, w0).
Proof.
  intros Ht He Hr. rewrite typed_coercion; try assumption.
  - cbv zeta. now rewrite Ht.
  - now rewrite (nonempty_eqb _ Hr).
Qed.

Lemma integer_lines item lines ns :
  eq_str (get_or item "type" VNone) "integer" = true ->
  truthy (get_or item "enum" VNone) = false ->
  Forall2 (fun l n => Py.parse_int (Str.strip l) = Some n) lines ns ->
  forallb (fun l => negb (Str.strip l =? "")) lines = true
  /\ Forall2 (fun l v => forall w0, convert_primitive (Str.strip l)
                                      (VDict item) w0 = (Return v, w0))
       lines (map VInt ns).
Proof.
  intros Ht He H. induction H as [|l n lines ns Hp H IH]; simpl.
  - split; [reflexivity|constructor].
  - destruct IH as [IH1 IH2].
    pose proof (parse_int_nonempty _ _ Hp) as Hr. split.
    + rewrite (nonempty_eqb _ Hr). exact IH1.
    + constructor; [|exact IH2]. intros w0.
      rewrite integer_item; try assumption. now rewrite Hp.
Qed.

(** X3: an array of integers holds the typed numbers in the order they
    were typed, up to the first empty line; the lines after it are left
    unread. *)
Theorem integer_array_in_order name d item lines ns stop rest w :
  eq_str (get_or d "type" VNone) "array" = true ->
  get_or d "items" (VDict []) = VDict item ->
  eq_str (get_or item "type" VNone) "integer" = true ->
  truthy (get_or item "enum" VNone) = false ->
  stdin w = (lines ++ stop :: rest)%list ->
  Str.strip stop = "" ->
  Forall2 (fun l n => Py.parse_int (Str.strip l) = Some n) lines ns ->
  result_of (prompt_for_value name (VDict d)) w = Return (VList (map VInt ns))
  /\ unread (prompt_for_value name (VDict d)) w = rest.
Proof.
  intros Ht Hi Hit Hie Hin Hs Hp.
  destruct (integer_lines item lines ns Hit Hie Hp) as [Hne Hel].
  apply array_elements with lines stop; try assumption. now rewrite Hi.
Qed.

Lemma integer_array_in_order_witness :
  result_of
    (prompt_for_value (VStr "order_ids")
       (VDict [("type", VStr "array");
               ("items", VDict [("type", VStr "integer")])]))
    (typed ["30"; " 10 "; "20"; ""; "40"])
  = Return (VList (map VInt [30; 10; 20]%Z))
  /\ unread
       (prompt_for_value (VStr "order_ids")
          (VDict [("type", VStr "array");
                  ("items", VDict [("type", VStr "integer")])]))
       (typed ["30"; " 10 "; "20"; ""; "40"])
     = ["40"].
Proof.
  apply (integer_array_in_order (VStr "order_ids")
           [("type", VStr "array");
            ("items", VDict [("type", VStr "integer")])]
           [("type", VStr "integer")]
           ["30"; " 10 "; "20"] [30; 10; 20]%Z "" ["40"]
           (typed ["30"; " 10 "; "20"; ""; "40"])
           eq_refl eq_refl eq_refl eq_refl eq_refl eq_refl).
  repeat constructor.
Defined.

(** X4: one element that, trimmed, is a non-empty ASCII text and not an
    integer literal ends the whole array with [ValueError]: the elements
    typed before it are not returned and the lines after it are left
    unread. *)
Theorem bad_element_aborts_array name d item lines ns bad rest w :
  eq_str (get_or d "type" VNone) "array" = true ->
  get_or d "items" (VDict []) = VDict item ->
  eq_str (get_or item "type" VNone) "integer" = true ->
  truthy (get_or item "enum" VNone) = false ->
  stdin w = (lines ++ bad :: rest)%list ->
  Forall2 (fun l n => Py.parse_int (Str.strip l) = Some n) lines ns ->
  negb (Str.strip bad =? "") = true ->
  Str.is_ascii (Str.strip bad) = true ->
  Py.parse_int (Str.strip bad) = None ->
  result_of (prompt_for_value name (VDict d)) w = Raise ValueError
  /\ unread (prompt_for_value name (VDict d)) w = rest.
Proof.
  intros Ht Hi Hit Hie Hin Hp Hb _ Hbad.
  destruct (integer_lines item lines ns Hit Hie Hp) as [Hne Hel].
  apply negb_true_iff, String.eqb_neq in Hb.
  unfold result_of, unread. rewrite (prompt_for_value_array _ _ _ Ht).
  assert (Hin' : stdin (after_print (array_banner name) w)
                 = (lines ++ bad :: rest)%list) by exact Hin.
  rewrite Hi.
  destruct (array_loop_prefix (VDict item) lines (S (length (bad :: rest)))
              (bad :: rest) (map VInt ns) []
              (after_print (array_banner name) w) Hin' Hne Hel)
    as (w' & Hs & _ & E).
  rewrite Hin, array_fuel_split. unfold bind. rewrite E.
  rewrite (array_loop_raise _ _ _ _ _ ValueError _
             (after_input element_prompt rest w') Hs Hb).
  - now split.
  - rewrite (integer_item item _ _ Hit Hie Hb). now rewrite Hbad.
Qed.

Lemma bad_element_aborts_array_witness :
  result_of
    (prompt_for_value (VStr "order_ids")
       (VDict [("type", VStr "array");
               ("items", VDict [("type", VStr "integer")])]))
    (typed ["10"; "2o"; "30"; ""])
  = Raise ValueError
  /\ unread
       (prompt_for_value (VStr "order_ids")
          (VDict [("type", VStr "array");
                  ("items", VDict [("type", VStr "integer")])]))
       (typed ["10"; "2o"; "30"; ""])
     = ["30"; ""].
Proof.
  apply (bad_element_aborts_array (VStr "order_ids")
           [("type", VStr "array");
            ("items", VDict [("type", VStr "integer")])]
           [("type", VStr "integer")]
           ["10"] [10]%Z "2o" ["30"; ""]
           (typed ["10"; "2o"; "30"; ""])
           eq_refl eq_refl eq_refl eq_refl eq_refl);
    [repeat constructor | reflexivity | reflexivity | reflexivity].
Defined.

Lemma array_loop_needs_stop item :
  forall fuel vs w vs' w',
    forallb (fun l => negb (Str.strip l =? "")) (stdin w) = true ->
    array_loop fuel item vs w <> (Return vs', w').
Proof.
  induction fuel as [|fuel IH]; intros vs w vs' w' Hne H; [discriminate|].
  cbn [array_loop] in H.
  apply bind_Return_inv in H as (line & w1 & Hl & H).
  apply input_inv in Hl as (rest & Hin & ->).
  rewrite Hin in Hne. simpl in Hne. apply andb_prop in Hne as [Hl Hne].
  apply negb_true_iff in Hl. rewrite Hl in H.
  apply String.eqb_neq in Hl.
  apply bind_Return_inv in H as (v & w2 & Hv & H).
  pose proof (convert_primitive_quiet _ item
                (after_input element_prompt rest w) Hl) as Hq.
  rewrite Hv in Hq. simpl in Hq. subst w2.
  now apply IH in H.
Qed.

(** X5: the array loop ends normally on an empty line only: when none of
    the lines left to read is empty (once trimmed), the Array Builder
    returns no array, whatever the item schema; it ends with the
    exception of a failed coercion or with [EOFError]. *)
Theorem array_needs_an_empty_line name d w v :
  eq_str (get_or d "type" VNone) "array" = true ->
  forallb (fun l => negb (Str.strip l =? "")) (stdin w) = true ->
  result_of (prompt_for_value name (VDict d)) w <> Return v.
Proof.
  intros Ht Hne. unfold result_of.
  rewrite (prompt_for_value_array _ _ _ Ht). unfold bind.
  destruct (array_loop _ _ _ _) as [[vs|e] w1] eqn:E; [|discriminate].
  now apply array_loop_needs_stop in E.
Qed.

Lemma array_needs_an_empty_line_witness :
  result_of
    (prompt_for_value (VStr "skus")
       (VDict [("type", VStr "array"); ("items", VDict [("type", VStr "string")])]))
    (typed ["a"; "b"])
  <> Return (VList [VStr "a"; VStr "b"]).
Proof.
  apply (array_needs_an_empty_line (VStr "skus")
           [("type", VStr "array"); ("items", VDict [("type", VStr "string")])]
           (typed ["a"; "b"]) (VList [VStr "a"; VStr "b"]) eq_refl eq_refl).
Defined.

Lemma array_loop_scalars item :
  forall fuel vs w vs' w',
    array_loop fuel item vs w = (Return vs', w') ->
    forallb is_scalar vs = true -> forallb is_scalar vs' = true.
Proof.
  induction fuel as [|fuel IH]; intros vs w vs' w' H Hvs; [discriminate|].
  cbn [array_loop] in H.
  apply bind_Return_inv in H as (line & w1 & _ & H).
  destruct (Str.strip line =? "") eqn:E.
  - unfold ret in H. now inversion H; subst.
  - apply String.eqb_neq in E.
    apply bind_Return_inv in H as (v & w2 & Hv & H).
    apply convert_primitive_scalar in Hv; [|assumption].
    apply IH in H; [assumption|].
    rewrite forallb_app, Hvs. simpl. now rewrite Hv.
Qed.

(** X6: whatever the item schema says (object, array, a default, an
    enum), the Array Builder returns a list, and each of its elements is
    a scalar: a string, an integer, a float or a boolean. *)
Theorem array_holds_scalars name d w v w' :
  eq_str (get_or d "type" VNone) "array" = true ->
  prompt_for_value name (VDict d) w = (Return v, w') ->
  exists vs, v = VList vs /\ forallb is_scalar vs = true.
Proof.
  intros Ht H. rewrite (prompt_for_value_array _ _ _ Ht) in H.
  apply bind_Return_inv in H as (vs & w1 & Hl & H).
  unfold ret in H. inversion H; subst. exists vs. split; [reflexivity|].
  now apply array_loop_scalars in Hl.
Qed.

Lemma array_holds_scalars_witness :
  exists vs,
    VList [VStr "x"; VStr "y"] = VList vs /\ forallb is_scalar vs = true.
Proof.
  apply (array_holds_scalars (VStr "rows")
           [("type", VStr "array");
            ("items", VDict [("type", VStr "array");
                             ("items", VDict [("type", VStr "integer")]);
                             ("default", VList [])])]
           (typed ["x"; "y"; ""])
           (VList [VStr "x"; VStr "y"])
           (snd (prompt_for_value (VStr "rows")
                   (VDict [("type", VStr "array");
                           ("items", VDict [("type", VStr "array");
                                            ("items", VDict [("type", VStr "integer")]);
                                            ("default", VList [])])])
                   (typed ["x"; "y"; ""])))
           eq_refl eq_refl).
Defined.

Lemma text_lines item lines :
  (forall raw w0, raw <> "" ->
                  convert_primitive raw item w0 = (Return (VStr raw), w0)) ->
  forallb (fun l => negb (Str.strip l =? "")) lines = true ->
  Forall2 (fun l v => forall w0, convert_primitive (Str.strip l) item w0
                                 = (Return v, w0))
    lines (map (fun l => VStr (Str.strip l)) lines).
Proof.
  intros H. induction lines as [|l lines IH]; simpl; intros Hne.
  - constructor.
  - apply andb_prop in Hne as [Hl Hne].
    apply negb_true_iff, String.eqb_neq in Hl.
    constructor; [|now apply IH]. intros w0. now apply H.
Qed.

(** X7: in an array whose items have an enum, every typed line is kept
    as it is, inside or outside the enum; the loop never shows the enum
    prompt and never uses a default of the item schema, so exactly the
    lines up to the first empty one are read. *)
Theorem enum_array_keeps_lines name d item options lines stop rest w :
  eq_str (get_or d "type" VNone) "array" = true ->
  get_or d "items" (VDict []) = VDict item ->
  dict_get item "enum" = Some (strings options) ->
  truthy (strings options) = true ->
  stdin w = (lines ++ stop :: rest)%list ->
  forallb (fun l => negb (Str.strip l =? "")) lines = true ->
  Str.strip stop = "" ->
  result_of (prompt_for_value name (VDict d)) w
  = Return (VList (map (fun l => VStr (Str.strip l)) lines))
  /\ unread (prompt_for_value name (VDict d)) w = rest.
Proof.
  intros Ht Hi He Ho Hin Hne Hs.
  assert (Hopt : options <> []) by (intros ->; discriminate).
  apply array_elements with lines stop; try assumption.
  rewrite Hi. apply text_lines; [|assumption].
  intros raw w0 Hr. now apply enum_nonempty_input with options.
Qed.

Lemma enum_array_keeps_lines_witness :
  result_of
    (prompt_for_value (VStr "item_tags")
       (VDict [("type", VStr "array");
               ("items", VDict [("type", VStr "string");
                                ("enum", strings ["A"; "B"]);
                                ("default", VStr "A")])]))
    (typed ["b"; "other"; " "; "A"])
  = Return (VList [VStr "b"; VStr "other"])
  /\ unread
       (prompt_for_value (VStr "item_tags")
          (VDict [("type", VStr "array");
                  ("items", VDict [("type", VStr "string");
                                   ("enum", strings ["A"; "B"]);
                                   ("default", VStr "A")])]))
       (typed ["b"; "other"; " "; "A"])
     = ["A"].
Proof.
  exact (enum_array_keeps_lines (VStr "item_tags")
           [("type", VStr "array");
            ("items", VDict [("type", VStr "string");
                             ("enum", strings ["A"; "B"]);
                             ("default", VStr "A")])]
           [("type", VStr "string"); ("enum", strings ["A"; "B"]);
            ("default", VStr "A")]
           ["A"; "B"] ["b"; "other"] " " ["A"]
           (typed ["b"; "other"; " "; "A"])
           eq_refl eq_refl eq_refl eq_refl eq_refl eq_refl eq_refl).
Defined.

(** X8: an array schema without [items] is read with the empty item
    schema (line 79): every element is the typed line, as text. *)
Theorem array_without_items name d lines stop rest w :
  eq_str (get_or d "type" VNone) "array" = true ->
  dict_get d "items" = None ->
  stdin w = (lines ++ stop :: rest)%list ->
  forallb (fun l => negb (Str.strip l =? "")) lines = true ->
  Str.strip stop = "" ->
  result_of (prompt_for_value name (VDict d)) w
  = Return (VList (map (fun l => VStr (Str.strip l)) lines))
  /\ unread (prompt_for_value name (VDict d)) w = rest.
Proof.
  intros Ht Hi Hin Hne Hs.
  apply array_elements with lines stop; try assumption.
  unfold get_or. rewrite Hi. apply text_lines; [|assumption].
  intros raw w0 Hr. rewrite typed_coercion; try reflexivity.
  now rewrite (nonempty_eqb _ Hr).
Qed.

Lemma array_without_items_witness :
  result_of (prompt_for_value (VStr "ids") (VDict [("type", VStr "array")]))
    (typed ["1"; "two"; ""])
  = Return (VList [VStr "1"; VStr "two"])
  /\ unread (prompt_for_value (VStr "ids") (VDict [("type", VStr "array")]))
       (typed ["1"; "two"; ""])
     = [].
Proof.
  exact (array_without_items (VStr "ids") [("type", VStr "array")]
           ["1"; "two"] "" [] (typed ["1"; "two"; ""])
           eq_refl eq_refl eq_refl eq_refl eq_refl).
Defined.

(* ================================================================== *)
(** ** More on the Object Builder *)
(* ================================================================== *)

(** [prompt_for_object] on a schema whose [properties] is a [dict] and
    whose [required] is a list of names: the loop, then the mapping. *)
Lemma prompt_for_object_run d props req w :
  get_or d "properties" (VDict []) = VDict props ->
  get_or d "required" (VList []) = strings req ->
  prompt_for_object (VDict d) w
  = (result <- for_properties (fill_property prompt_for_value (map VStr req))
                 props [] ;;
     ret (VDict result)) w.
Proof.
  intros Hp Hr. rewrite prompt_for_object_eq. unfold prompt_for_object_with.
  simpl Py.get. unfold bind at 1, ret at 1. unfold bind at 1, ret at 1.
  rewrite Hp, Hr. rewrite (bind_Return _ _ _ _ _ (set_of_strings req w)).
  reflexivity.
Qed.

(** X9: an object schema without [properties] gives the empty mapping;
    nothing is asked, read or written. *)
Theorem object_without_properties d req w :
  dict_get d "properties" = None ->
  get_or d "required" (VList []) = strings req ->
  prompt_for_object (VDict d) w = (Return (VDict []), w).
Proof.
  intros Hp Hr. rewrite (prompt_for_object_run d [] req w); [reflexivity| |assumption].
  unfold get_or. now rewrite Hp.
Qed.

Lemma object_without_properties_witness :
  prompt_for_object
    (VDict [("type", VStr "object"); ("required", strings ["id"])])
    (typed ["y"; "1"])
  = (Return (VDict []), typed ["y"; "1"]).
Proof.
  exact (object_without_properties
           [("type", VStr "object"); ("required", strings ["id"])]
           ["id"] (typed ["y"; "1"]) eq_refl eq_refl).
Defined.

Lemma fill_property_skip pv required prop ps r answer rest w :
  Py.contains required prop = false ->
  stdin w = answer :: rest ->
  affirms answer = false ->
  fill_property pv required prop (VDict ps) r w
  = (Return r,
     after_input
       (optional_prompt
          (if truthy (get_or ps "description" VNone)
           then get_or ps "description" VNone else VStr prop))
       rest w).
Proof.
  unfold affirms. intros Hreq Hin Hno. unfold fill_property.
  simpl Py.get. unfold bind at 1, ret at 1.
  rewrite Hreq. change (negb false) with true. cbv iota.
  unfold bind at 1. unfold bind at 1.
  rewrite (input_line _ _ _ _ Hin). now rewrite Hno.
Qed.

Lemma for_properties_all_declined pv req :
  forall props answers rest r w,
    forallb (fun kv : string * value =>
               is_mapping (snd kv) && negb (member (fst kv) req)) props = true ->
    length answers = length props ->
    forallb (fun a => negb (affirms a)) answers = true ->
    stdin w = (answers ++ rest)%list ->
    exists w',
      for_properties (fill_property pv (map VStr req)) props r w = (Return r, w')
      /\ stdin w' = rest /\ network w' = network w.
Proof.
  induction props as [|[prop s] props IH]; intros answers rest r w Hp Hl Ha Hin.
  - destruct answers; [|discriminate]. exists w. now repeat split.
  - destruct answers as [|a answers]; [discriminate|].
    simpl in Hp, Hl, Ha, Hin.
    apply andb_prop in Hp as [Hs Hp]. apply andb_prop in Hs as [Hm Hr].
    apply andb_prop in Ha as [Ha Has].
    apply negb_true_iff in Hr, Ha.
    destruct s as [ |b|z|f|s|l|ps]; try discriminate.
    cbn [for_properties].
    rewrite (bind_Return _ _ _ _ _
               (fill_property_skip pv (map VStr req) prop ps r a
                  (answers ++ rest)%list w
                  (eq_trans (contains_strings req prop) Hr) Hin Ha)).
    destruct (IH answers rest r
                (after_input
                   (optional_prompt
                      (if truthy (get_or ps "description" VNone)
                       then get_or ps "description" VNone else VStr prop))
                   (answers ++ rest)%list w))
      as (w' & E & Hs' & Hn); try assumption; try reflexivity.
    + now inversion Hl.
    + exists w'. now repeat split.
Qed.

(** X10: when no property is required and the operator affirms none of
    the optional prompts, the Object Builder returns the empty mapping
    and has read exactly one line per property. *)
Theorem declining_everything_gives_empty_mapping d props req answers rest w :
  get_or d "properties" (VDict []) = VDict props ->
  get_or d "required" (VList []) = strings req ->
  forallb (fun kv : string * value =>
             is_mapping (snd kv) && negb (member (fst kv) req)) props = true ->
  length answers = length props ->
  forallb (fun a => negb (affirms a)) answers = true ->
  stdin w = (answers ++ rest)%list ->
  result_of (prompt_for_object (VDict d)) w = Return (VDict [])
  /\ unread (prompt_for_object (VDict d)) w = rest.
Proof.
  intros Hp Hr Hprops Hl Ha Hin. unfold result_of, unread.
  rewrite (prompt_for_object_run d props req w Hp Hr).
  destruct (for_properties_all_declined prompt_for_value req props answers
              rest [] w Hprops Hl Ha Hin) as (w' & E & Hs & _).
  rewrite (bind_Return _ _ _ _ _ E). now split.
Qed.

Lemma declining_everything_gives_empty_mapping_witness :
  result_of
    (prompt_for_object
       (VDict [("type", VStr "object");
               ("properties",
                VDict [("limit",
                        VDict [("type", VStr "integer"); ("default", VInt 100)]);
                       ("status", VDict [("type", VStr "string")])])]))
    (typed ["NO"; "  "; "later"])
  = Return (VDict [])
  /\ unread
       (prompt_for_object
          (VDict [("type", VStr "object");
                  ("properties",
                   VDict [("limit",
                           VDict [("type", VStr "integer");
                                  ("default", VInt 100)]);
                          ("status", VDict [("type", VStr "string")])])]))
       (typed ["NO"; "  "; "later"])
     = ["later"].
Proof.
  exact (declining_everything_gives_empty_mapping
           [("type", VStr "object");
            ("properties",
             VDict [("limit",
                     VDict [("type", VStr "integer"); ("default", VInt 100)]);
                    ("status", VDict [("type", VStr "string")])])]
           [("limit", VDict [("type", VStr "integer"); ("default", VInt 100)]);
            ("status", VDict [("type", VStr "string")])]
           [] ["NO"; "  "] ["later"] (typed ["NO"; "  "; "later"])
           eq_refl eq_refl eq_refl eq_refl eq_refl eq_refl).
Defined.

Lemma keys_dict_set_fresh (r : dict) k v :
  ~ In k (keys r) -> keys (dict_set r k v) = (keys r ++ [k])%list.
Proof.
  unfold keys. induction r as [|[k0 v0] r IH]; simpl; intros H;
    [reflexivity|].
  destruct (String.eqb_spec k0 k) as [->|N]; [tauto|].
  simpl. rewrite IH; [reflexivity|tauto].
Qed.

Lemma member_false (s : string) (l : list string) :
  member s l = false <-> ~ In s l.
Proof.
  rewrite <- member_In. destruct (member s l); split; congruence.
Qed.

(** The keys grow at the end, in the order of the properties walked. *)
Lemma for_properties_order pv required :
  forall props r w r' w',
    for_properties (fill_property pv required) props r w = (Return r', w') ->
    distinct (keys props) = true ->
    (forall k, In k (keys props) -> ~ In k (keys r)) ->
    keys r' = (keys r ++ filter (fun k => member k (keys r')) (keys props))%list.
Proof.
  induction props as [|[p s] props IH]; intros r w r' w' H Hd Hfresh.
  - simpl in H. unfold ret in H. inversion H; subst.
    simpl. now rewrite app_nil_r.
  - simpl in H. apply bind_Return_inv in H as (r1 & w1 & H1 & H).
    simpl in Hd. apply andb_prop in Hd as [Hp Hd].
    apply negb_true_iff, member_false in Hp.
    assert (Hpr : ~ In p (keys r)) by (apply Hfresh; now left).
    apply fill_property_inv in H1.
    assert (Hr1 : keys r1 = keys r \/ keys r1 = (keys r ++ [p])%list).
    { destruct H1 as [[_ ->]|[v ->]]; [now left|right].
      now apply keys_dict_set_fresh. }
    assert (Hfresh1 : forall k, In k (keys props) -> ~ In k (keys r1)).
    { intros k Hk Hin.
      assert (Hkr : ~ In k (keys r)) by (apply Hfresh; now right).
      destruct Hr1 as [E|E]; rewrite E in Hin; [contradiction|].
      apply in_app_or in Hin as [Hin|[<-|[]]]; contradiction. }
    pose proof (IH _ _ _ _ H Hd Hfresh1) as E.
    simpl keys. simpl filter.
    destruct Hr1 as [E1|E1]; rewrite E1 in E.
    + assert (Hm : member p (keys r') = false).
      { apply member_false. rewrite E. intros Hin.
        apply in_app_or in Hin as [Hin|Hin]; [contradiction|].
        apply filter_In in Hin as [Hin _]. contradiction. }
      now rewrite Hm.
    + assert (Hm : member p (keys r') = true).
      { apply member_In. rewrite E. apply in_or_app. left.
        apply in_or_app. right. now left. }
      rewrite Hm. rewrite E at 1. now rewrite <- app_assoc.
Qed.

Lemma distinct_middle (l1 : list string) k l2 :
  distinct (l1 ++ k :: l2)%list = true -> ~ In k l1 /\ ~ In k l2.
Proof.
  induction l1 as [|x l1 IH]; simpl; intros H.
  - apply andb_prop in H as [H _].
    apply negb_true_iff, member_false in H. tauto.
  - apply andb_prop in H as [Hx H].
    apply negb_true_iff, member_false in Hx.
    destruct (IH H) as [A B]. split; [|assumption].
    intros [->|Hin]; [|contradiction].
    apply Hx, in_or_app. right. now left.
Qed.

(** A turn of the loop for a property that is not required returns
    only after an answer has been read. *)
Lemma fill_property_answer pv required prop prop_schema r w r' w' :
  Py.contains required prop = false ->
  fill_property pv required prop prop_schema r w = (Return r', w') ->
  exists answer rest, stdin w = answer :: rest.
Proof.
  unfold fill_property. intros Hreq H.
  apply bind_Return_inv in H as (description & w1 & Hd & H).
  apply get_inv in Hd as (ps & -> & -> & ->).
  rewrite Hreq in H. change (negb false) with true in H. cbv iota in H.
  apply bind_Return_inv in H as (skipped & w2 & Hs & _).
  apply bind_Return_inv in Hs as (line & w3 & Hl & _).
  apply input_inv in Hl as (rest & Hin & _). now exists line, rest.
Qed.

(** Which properties end up in the mapping: the one walked after
    [before], when the loop stands in the world [w0], is a key of the
    result exactly when it is required or the line then next on the
    input affirms its prompt. *)
Lemma for_properties_decides pv req before prop s after r r0 w w0 w' :
  distinct (keys (before ++ (prop, s) :: after)%list) = true ->
  for_properties (fill_property pv (map VStr req))
    (before ++ (prop, s) :: after)%list [] w = (Return r, w') ->
  for_properties (fill_property pv (map VStr req)) before [] w
  = (Return r0, w0) ->
  member prop (keys r)
  = member prop req
    || match stdin w0 with answer :: _ => affirms answer | [] => false end.
Proof.
  intros Hd H H0.
  rewrite for_properties_app in H.
  rewrite (bind_Return _ _ _ _ _ H0) in H.
  cbn [for_properties] in H.
  apply bind_Return_inv in H as (r1 & w1 & H1 & H).
  unfold keys in Hd. rewrite map_app in Hd. cbn [map fst] in Hd.
  apply distinct_middle in Hd as [Hb Ha].
  destruct (for_properties_keys _ _ _ _ _ _ _ H0) as (A0 & _ & _).
  destruct (for_properties_keys _ _ _ _ _ _ _ H) as (A & B & _).
  assert (Hr0 : ~ In prop (keys r0)).
  { intros Hin. destruct (A0 _ Hin) as [[]|Hin']. now apply Hb. }
  pose proof (contains_strings req prop) as Hc.
  destruct (member prop req) eqn:Hreq; cbn [orb].
  - apply member_In, B.
    destruct (filled_property_is_present _ _ _ _ _ _ _ _ H1
                (or_introl Hc)) as (v & Hv).
    apply dict_get_In in Hv.
    apply (in_map fst) in Hv. exact Hv.
  - destruct (fill_property_answer _ _ _ _ _ _ _ _ Hc H1)
      as (answer & rest & Hin).
    rewrite Hin. unfold affirms.
    destruct (member (Str.lower (Str.strip answer)) affirmative_tokens)
      eqn:Hyes.
    + apply member_In, B.
      destruct (filled_property_is_present _ _ _ _ _ _ _ _ H1
                  (or_intror (ex_intro _ answer
                     (ex_intro _ rest (conj Hin Hyes))))) as (v & Hv).
      apply dict_get_In in Hv.
      apply (in_map fst) in Hv. exact Hv.
    + apply member_false. intros Hk.
      rewrite (fill_property_declined _ _ _ _ _ _ _ _ _ _ Hc Hin Hyes H1)
        in H.
      destruct (for_properties_keys _ _ _ _ _ _ _ H) as (A' & _ & _).
      destruct (A' _ Hk) as [Hk'|Hk']; contradiction.
Qed.

(** X11: the returned mapping holds exactly the properties that were
    filled, in the order of the schema, each at most once. Its keys are
    the names of [properties], in that order, with some left out; and
    the name walked after the properties [before] is among them exactly
    when it is required or the line then next on the input, trimmed and
    lowered, is one of the affirmative tokens. *)
Theorem object_keys_in_schema_order d props req w result w' :
  get_or d "properties" (VDict []) = VDict props ->
  get_or d "required" (VList []) = strings req ->
  distinct (keys props) = true ->
  prompt_for_object (VDict d) w = (Return result, w') ->
  exists r,
    result = VDict r
    /\ keys r = filter (fun k => member k (keys r)) (keys props)
    /\ forall before prop s after r0 w0,
         props = (before ++ (prop, s) :: after)%list ->
         for_properties (fill_property prompt_for_value (map VStr req))
           before [] w = (Return r0, w0) ->
         member prop (keys r)
         = member prop req
           || match stdin w0 with
              | answer :: _ => affirms answer
              | [] => false
              end.
Proof.
  intros Hp Hr Hd H.
  destruct (prompt_for_object_inv _ _ _ _ _ Hr H)
    as (props' & r & Hp' & -> & Hl).
  rewrite Hp in Hp'. inversion Hp'; subst props'.
  exists r. split; [reflexivity|]. split.
  - apply (for_properties_order _ _ _ _ _ _ _ Hl Hd). intros k _ [].
  - intros before prop s after r0 w0 -> H0.
    exact (for_properties_decides _ _ _ _ _ _ _ _ _ _ _ Hd Hl H0).
Qed.

Lemma object_keys_in_schema_order_witness :
  exists r,
    VDict [("b", VStr "1"); ("a", VStr "3")] = VDict r
    /\ keys r = filter (fun k => member k (keys r)) ["b"; "c"; "a"]
    /\ forall before prop s after r0 w0,
         [("b", VDict []); ("c", VDict []); ("a", VDict [])]
         = (before ++ (prop, s) :: after)%list ->
         for_properties (fill_property prompt_for_value (map VStr ["a"]))
           before [] (typed ["y"; "1"; "n"; "3"]) = (Return r0, w0) ->
         member prop (keys r)
         = member prop ["a"]
           || match stdin w0 with
              | answer :: _ => affirms answer
              | [] => false
              end.
Proof.
  exact (object_keys_in_schema_order
           [("properties",
             VDict [("b", VDict []); ("c", VDict []); ("a", VDict [])]);
            ("required", strings ["a"])]
           [("b", VDict []); ("c", VDict []); ("a", VDict [])]
           ["a"]
           (typed ["y"; "1"; "n"; "3"])
           (VDict [("b", VStr "1"); ("a", VStr "3")])
           (snd (prompt_for_object
                   (VDict
                      [("properties",
                        VDict [("b", VDict []); ("c", VDict []);
                               ("a", VDict [])]);
                       ("required", strings ["a"])])
                   (typed ["y"; "1"; "n"; "3"])))
           eq_refl eq_refl eq_refl eq_refl).
Defined.

Lemma dict_get_set_same (r : dict) k v : dict_get (dict_set r k v) k = Some v.
Proof.
  induction r as [|[k0 v0] r IH]; simpl.
  - now rewrite String.eqb_refl.
  - destruct (String.eqb_spec k0 k) as [->|N]; simpl.
    + now rewrite String.eqb_refl.
    + apply String.eqb_neq in N. now rewrite N.
Qed.

Lemma dict_get_set_other (r : dict) k v k' :
  k' <> k -> dict_get (dict_set r k v) k' = dict_get r k'.
Proof.
  intros Hne. induction r as [|[k0 v0] r IH]; simpl.
  - destruct (String.eqb_spec k k'); [congruence|reflexivity].
  - destruct (String.eqb_spec k0 k) as [->|N]; simpl.
    + destruct (String.eqb_spec k k'); [congruence|reflexivity].
    + now rewrite IH.
Qed.

(** The properties walked later do not touch the entry of another one. *)
Lemma for_properties_keeps pv required k :
  forall props r w r' w',
    ~ In k (keys props) ->
    for_properties (fill_property pv required) props r w = (Return r', w') ->
    dict_get r' k = dict_get r k.
Proof.
  induction props as [|[p s] props IH]; intros r w r' w' Hk H.
  - simpl in H. unfold ret in H. now inversion H.
  - simpl in H, Hk. apply bind_Return_inv in H as (r1 & w1 & H1 & H).
    rewrite (IH _ _ _ _ (fun Hin => Hk (or_intror Hin)) H).
    apply fill_property_inv in H1 as [[_ ->]|[v ->]]; [reflexivity|].
    apply dict_get_set_other. intros ->. apply Hk. now left.
Qed.

(** X12: a property that is filled (it is required, or the operator
    affirmed its prompt) holds in the returned mapping exactly the value
    [prompt_for_value] produced for it, asked under its description or,
    failing that, its name.  [w0] is the world in which the loop reaches
    the property. *)
Theorem filled_property_holds_prompted_value
    d before prop ps after req w r0 w0 v w1 result w' :
  let title := if truthy (get_or ps "description" VNone)
               then get_or ps "description" VNone else VStr prop in
  let asked := if member prop req then w0
               else after_input (optional_prompt title) (tl (stdin w0)) w0 in
  get_or d "properties" (VDict [])
  = VDict (before ++ (prop, VDict ps) :: after)%list ->
  get_or d "required" (VList []) = strings req ->
  member prop (keys after) = false ->
  for_properties (fill_property prompt_for_value (map VStr req)) before [] w
  = (Return r0, w0) ->
  member prop req
  || match stdin w0 with a :: _ => affirms a | [] => false end = true ->
  prompt_for_value title (VDict ps) asked = (Return v, w1) ->
  prompt_for_object (VDict d) w = (Return result, w') ->
  exists r, result = VDict r /\ dict_get r prop = Some v.
Proof.
  intros title asked Hp Hr Ha Hbefore Hfill Hv H.
  destruct (prompt_for_object_inv _ _ _ _ _ Hr H)
    as (props' & r & Hp' & -> & Hl).
  rewrite Hp in Hp'. inversion Hp'; subst props'. clear Hp'.
  exists r. split; [reflexivity|].
  rewrite for_properties_app in Hl.
  rewrite (bind_Return _ _ _ _ _ Hbefore) in Hl.
  cbn [for_properties] in Hl.
  assert (E : fill_property prompt_for_value (map VStr req) prop (VDict ps)
                r0 w0 = (Return (dict_set r0 prop v), w1)).
  { unfold fill_property. simpl Py.get. unfold bind at 1, ret at 1.
    rewrite contains_strings. fold title. subst asked.
    destruct (member prop req).
    - change (negb true) with false. cbv iota. unfold bind at 1, ret at 1.
      cbv iota. now rewrite (bind_Return _ _ _ _ _ Hv).
    - simpl in Hfill. destruct (stdin w0) as [|a rest0] eqn:Hin;
        [discriminate|].
      change (negb false) with true. cbv iota.
      unfold bind at 1. unfold bind at 1.
      rewrite (input_line _ _ _ _ Hin).
      unfold affirms in Hfill. rewrite Hfill. unfold ret at 1.
      change (negb true) with false. cbv iota.
      simpl tl in Hv. now rewrite (bind_Return _ _ _ _ _ Hv). }
  rewrite (bind_Return _ _ _ _ _ E) in Hl.
  apply member_false in Ha.
  rewrite (for_properties_keeps _ _ _ _ _ _ _ _ Ha Hl).
  apply dict_get_set_same.
Qed.

Lemma filled_property_holds_prompted_value_witness :
  exists r,
    VDict [("limit", VInt 100); ("status", VStr "new")] = VDict r
    /\ dict_get r "limit" = Some (VInt 100).
Proof.
  apply (filled_property_holds_prompted_value
           [("properties",
             VDict [("limit",
                     VDict [("type", VStr "integer"); ("default", VInt 100)]);
                    ("status", VDict [("type", VStr "string")])])]
           [] "limit" [("type", VStr "integer"); ("default", VInt 100)]
           [("status", VDict [("type", VStr "string")])]
           []
           (typed ["Y"; ""; "да"; "new"])
           [] (typed ["Y"; ""; "да"; "new"])
           (VInt 100)
           (snd (prompt_for_value (VStr "limit")
                   (VDict [("type", VStr "integer"); ("default", VInt 100)])
                   (after_input (optional_prompt (VStr "limit"))
                      [""; "да"; "new"] (typed ["Y"; ""; "да"; "new"]))))
           (VDict [("limit", VInt 100); ("status", VStr "new")])
           (snd (prompt_for_object
                   (VDict
                      [("properties",
                        VDict [("limit",
                                VDict [("type", VStr "integer");
                                       ("default", VInt 100)]);
                               ("status", VDict [("type", VStr "string")])])])
                   (typed ["Y"; ""; "да"; "new"])))
           eq_refl eq_refl eq_refl eq_refl eq_refl eq_refl eq_refl).
Defined.

(* ================================================================== *)
(** ** More on the Payload Assembler and on [run_command] *)
(* ================================================================== *)

(** The raw-JSON path of [prompt_for_payload] (lines 125-127, 131-132). *)
Lemma prompt_for_payload_raw schema raw rest w :
  asks_raw_json schema = true ->
  stdin w = raw :: rest ->
  result_of (prompt_for_payload schema) w
  = (if raw =? "" then Return (VDict [])
     else match Json.parse raw with
          | Some v => Return v
          | None => Raise JSONDecodeError
          end)
  /\ unread (prompt_for_payload schema) w = rest.
Proof.
  intros Hs Hin.
  assert (Hraw : forall prompt,
             let c := (raw <- Py.input prompt ;;
                       if truthy (VStr raw) then Json.loads raw
                       else ret (VDict [])) in
             result_of c w
             = (if raw =? "" then Return (VDict [])
                else match Json.parse raw with
                     | Some v => Return v
                     | None => Raise JSONDecodeError
                     end)
             /\ unread c w = rest).
  { intros prompt c. unfold result_of, unread, c.
    rewrite (bind_Return _ _ _ _ _ (input_line _ _ _ _ Hin)). simpl.
    destruct (raw =? ""); simpl; [now split|].
    unfold Json.loads. now destruct (Json.parse raw). }
  unfold asks_raw_json in Hs. unfold prompt_for_payload.
  destruct (negb (truthy schema)); [apply Hraw|]. simpl in Hs.
  destruct schema as [ |b|z|f|s|l|d]; try discriminate.
  apply negb_true_iff in Hs.
  assert (E : (schema_type <- Py.get (VDict d) "type" VNone ;;
               if eq_str schema_type "object" then
                 Py.print [Lit "Заполните поля запроса (оставьте пустым, если не хотите заполнять необязательные поля):"] ;;
                 prompt_for_object (VDict d)
               else
                 raw <- Py.input [Lit "Введите тело запроса в формате JSON: "] ;;
                 if truthy (VStr raw) then Json.loads raw else ret (VDict [])) w
              = (raw <- Py.input [Lit "Введите тело запроса в формате JSON: "] ;;
                 if truthy (VStr raw) then Json.loads raw else ret (VDict [])) w).
  { simpl Py.get. unfold bind at 1, ret at 1. now rewrite Hs. }
  unfold result_of, unread. rewrite E. apply Hraw.
Qed.

Lemma parse_blank raw : Json.skip_ws raw = "" -> Json.parse raw = None.
Proof. unfold Json.parse. now intros ->. Qed.

(** X13: the raw JSON line is not trimmed: a line made only of blanks is
    not taken for an empty answer; it goes to the decoder, which raises
    [JSONDecodeError]. *)
Theorem blank_json_line_is_rejected schema raw rest w :
  asks_raw_json schema = true ->
  stdin w = raw :: rest ->
  negb (raw =? "") = true ->
  Json.skip_ws raw = "" ->
  result_of (prompt_for_payload schema) w = Raise JSONDecodeError
  /\ unread (prompt_for_payload schema) w = rest.
Proof.
  intros Hs Hin Hne Hb.
  destruct (prompt_for_payload_raw schema raw rest w Hs Hin) as [R U].
  apply negb_true_iff in Hne.
  rewrite Hne, (parse_blank _ Hb) in R. now split.
Qed.

Lemma blank_json_line_is_rejected_witness :
  result_of (prompt_for_payload VNone) (typed ["  "; "{}"])
  = Raise JSONDecodeError
  /\ unread (prompt_for_payload VNone) (typed ["  "; "{}"]) = ["{}"].
Proof.
  exact (blank_json_line_is_rejected VNone "  " ["{}"] (typed ["  "; "{}"])
           eq_refl eq_refl eq_refl eq_refl).
Defined.

(** [run_command] once the payload is built (lines 176-198). *)
Lemma run_command_after_payload command meta method client_id api_key
      payload w w1 :
  get_or meta "method" (VStr "post") = VStr method ->
  prompt_for_payload (get_or meta "schema" VNone) w = (Return payload, w1) ->
  run_command command (VDict meta) client_id api_key w
  = (Py.print [Lit (nl ++ "Сформированный запрос:")] ;;
     Py.print [Lit (Str.upper (Str.lower method)); Lit " ";
                Lit (BASE_URL ++ command)] ;;
     Py.print (pretty_json payload) ;;
     try_except
       (response <- Requests.request (Str.lower method) (BASE_URL ++ command)
                      [("Client-Id", client_id); ("Api-Key", api_key);
                       ("Content-Type", "application/json")]
                      (if truthy payload then payload else VNone) ;;
        Py.print [Lit (nl ++ "Ответ сервера:")] ;;
        try_except
          (data <- Requests.json response ;; Py.print (pretty_json data))
          is_Exception
          (fun _ => Py.print [Lit (body_text response)]))
       is_Exception
       (fun exc => Py.print [Lit "Не удалось выполнить запрос: "; Msg exc]))
      w1.
Proof.
  intros Hm Hp. unfold run_command. simpl Py.get.
  unfold bind at 1, ret at 1. rewrite Hm. simpl Py.lower.
  unfold bind at 1, ret at 1. unfold bind at 1, ret at 1.
  now rewrite (bind_Return _ _ _ _ _ Hp).
Qed.

Ltac run_request w1 :=
  unfold bind, try_except, Py.print, emit, Requests.request, Requests.json,
    lift, ret, raise, pretty_json;
  simpl;
  destruct (network w1) as [|[[status body [data|]]|] net]; simpl.

(** X14: once the payload is built, and the echo of the request can be
    written (the method, the command name and every text of the payload
    are well-formed Unicode, which lines 177-179 print outside the
    handler), [run_command] returns normally whatever the server does: a
    request that fails and a reply that is not JSON are both handled
    inside (lines 180-198). *)
Theorem run_command_survives_the_server command meta method client_id api_key
        payload w w1 :
  get_or meta "method" (VStr "post") = VStr method ->
  prompt_for_payload (get_or meta "schema" VNone) w = (Return payload, w1) ->
  Str.encodable method = true ->
  Str.encodable command = true ->
  printable payload = true ->
  result_of (run_command command (VDict meta) client_id api_key) w = Return tt.
Proof.
  intros Hm Hp _ _ _. unfold result_of.
  rewrite (run_command_after_payload _ _ _ _ _ _ _ _ Hm Hp).
  run_request w1; reflexivity.
Qed.

Lemma run_command_survives_the_server_witness :
  result_of
    (run_command "v1/ping" (VDict [("method", VStr "GET")]) "id" "key")
    (typed [""])
  = Return tt.
Proof.
  exact (run_command_survives_the_server "v1/ping" [("method", VStr "GET")]
           "GET" "id" "key" (VDict [])
           (typed [""])
           (snd (prompt_for_payload VNone (typed [""])))
           eq_refl eq_refl eq_refl eq_refl eq_refl).
Defined.

(** X15: for a payload that is built, an ASCII method, and a command
    name and payload whose texts are well-formed Unicode (so that the
    echo of lines 177-179 can be written), [run_command] echoes the
    request and calls [requests.request] exactly once, for [BASE_URL]
    followed by the command name, with the lower-cased method and the
    three headers; the body handed over is the payload, or [None] when
    the payload is empty (line 189).  All it writes afterwards is
    printed text. *)
Theorem run_command_sends_one_request command meta method client_id api_key
        payload w w1 :
  get_or meta "method" (VStr "post") = VStr method ->
  prompt_for_payload (get_or meta "schema" VNone) w = (Return payload, w1) ->
  Str.is_ascii method = true ->
  Str.encodable command = true ->
  printable payload = true ->
  exists report : list text,
    trace (snd (run_command command (VDict meta) client_id api_key w))
    = (trace w1
       ++ [Printed [Lit (nl ++ "Сформированный запрос:")];
           Printed [Lit (Str.upper (Str.lower method)); Lit " ";
                    Lit (BASE_URL ++ command)];
           Printed [Dump payload];
           Requested (Str.lower method) (BASE_URL ++ command)
             [("Client-Id", client_id); ("Api-Key", api_key);
              ("Content-Type", "application/json")]
             (if truthy payload then payload else VNone)]
       ++ map Printed report)%list.
Proof.
  intros Hm Hp _ _ _.
  rewrite (run_command_after_payload _ _ _ _ _ _ _ _ Hm Hp).
  run_request w1.
  - exists [[Lit "Не удалось выполнить запрос: "; Msg RequestException]].
    repeat rewrite <- app_assoc. reflexivity.
  - exists [[Lit (nl ++ "Ответ сервера:")]; [Dump data]].
    repeat rewrite <- app_assoc. reflexivity.
  - exists [[Lit (nl ++ "Ответ сервера:")]; [Lit body]].
    repeat rewrite <- app_assoc. reflexivity.
  - exists [[Lit "Не удалось выполнить запрос: "; Msg RequestException]].
    repeat rewrite <- app_assoc. reflexivity.
Qed.

Lemma run_command_sends_one_request_witness :
  exists report : list text,
    trace (snd (run_command "v3/supply-order/list"
                  (VDict [("schema",
                           VDict [("type", VStr "object");
                                  ("properties",
                                   VDict [("status", VDict [])])])])
                  "id" "key" (typed ["no"])))
    = (trace (snd (prompt_for_payload
                     (VDict [("type", VStr "object");
                             ("properties", VDict [("status", VDict [])])])
                     (typed ["no"])))
       ++ [Printed [Lit (nl ++ "Сформированный запрос:")];
           Printed [Lit "POST"; Lit " ";
                    Lit (BASE_URL ++ "v3/supply-order/list")];
           Printed [Dump (VDict [])];
           Requested "post" (BASE_URL ++ "v3/supply-order/list")
             [("Client-Id", "id"); ("Api-Key", "key");
              ("Content-Type", "application/json")]
             VNone]
       ++ map Printed report)%list.
Proof.
  exact (run_command_sends_one_request "v3/supply-order/list"
           [("schema",
             VDict [("type", VStr "object");
                    ("properties", VDict [("status", VDict [])])])]
           "post" "id" "key" (VDict []) (typed ["no"])
           (snd (prompt_for_payload
                   (VDict [("type", VStr "object");
                           ("properties", VDict [("status", VDict [])])])
                   (typed ["no"])))
           eq_refl eq_refl eq_refl eq_refl eq_refl).
Defined.

(** X16: what [run_command] reports last, for a request whose echo can
    be written (method, command name and payload are well-formed
    Unicode).  When the server replies with a body that can be written
    too, the reply is rendered as JSON or, if its body is not JSON,
    shown as its raw text (lines 193-196), and one reply of the network
    is used up; when the request fails, the failure message with the
    exception is printed (lines 197-198). *)
Theorem run_command_reports_the_reply command meta method client_id api_key
        payload w w1 :
  get_or meta "method" (VStr "post") = VStr method ->
  prompt_for_payload (get_or meta "schema" VNone) w = (Return payload, w1) ->
  Str.encodable method = true ->
  Str.encodable command = true ->
  printable payload = true ->
  let final := snd (run_command command (VDict meta) client_id api_key w) in
  (forall r net,
      network w1 = Some r :: net ->
      printable_reply r = true ->
      last (trace final) (Printed [])
      = Printed (match body_json r with
                 | Some data => pretty_json data
                 | None => [Lit (body_text r)]
                 end)
      /\ network final = net)
  /\ (match network w1 with Some _ :: _ => false | _ => true end = true ->
      last (trace final) (Printed [])
      = Printed [Lit "Не удалось выполнить запрос: "; Msg RequestException]).
Proof.
  intros Hm Hp _ _ _ final. subst final.
  rewrite (run_command_after_payload _ _ _ _ _ _ _ _ Hm Hp).
  run_request w1; (split; [intros r net' E _ | intros E]);
    try discriminate; try (inversion E; subst; simpl);
    rewrite ?last_last; auto.
Qed.

Lemma run_command_reports_the_reply_witness :
  last (trace (snd (run_command "v1/x" (VDict []) "id" "key"
                      {| stdin := ["{}"];
                         network := [Some {| status_code := 500;
                                             body_text := "Internal error";
                                             body_json := None |}];
                         trace := [] |})))
    (Printed [])
  = Printed [Lit "Internal error"]
  /\ last (trace (snd (run_command "v1/x" (VDict []) "id" "key"
                         (typed ["{}"]))))
       (Printed [])
     = Printed [Lit "Не удалось выполнить запрос: "; Msg RequestException].
Proof.
  split.
  - exact (proj1 (proj1 (run_command_reports_the_reply "v1/x" [] "post" "id"
                           "key" (VDict [])
                           {| stdin := ["{}"];
                              network := [Some {| status_code := 500;
                                                  body_text := "Internal error";
                                                  body_json := None |}];
                              trace := [] |}
                           _ eq_refl eq_refl eq_refl eq_refl eq_refl)
                    _ _ eq_refl eq_refl)).
  - exact (proj2 (run_command_reports_the_reply "v1/x" [] "post" "id" "key"
                    (VDict []) (typed ["{}"]) _ eq_refl eq_refl
                    eq_refl eq_refl eq_refl)
             eq_refl).
Defined.

(** X17: [verify_credentials] never raises and reads no input: it sends
    one POST to [v1/warehouse/list] with the two credential headers and
    an empty JSON object, and answers true exactly when a reply arrives
    whose status is 200. *)
Theorem verify_credentials_is_safe client_id api_key w :
  result_of (verify_credentials client_id api_key) w
  = Return (match network w with
            | Some r :: _ => (status_code r =? 200)%Z
            | _ => false
            end)
  /\ unread (verify_credentials client_id api_key) w = stdin w
  /\ trace (snd (verify_credentials client_id api_key w))
     = (trace w
        ++ [Requested "post" (BASE_URL ++ "v1/warehouse/list")
              [("Client-Id", client_id); ("Api-Key", api_key)]
              (VDict [])])%list.
Proof.
  unfold result_of, unread, verify_credentials, Requests.post,
    Requests.request, try_except, bind, emit, ret.
  simpl. destruct (network w) as [|[r|] net]; simpl; now repeat split.
Qed.

(* ================================================================== *)
(** ** The menu: [choose_command] *)
(* ================================================================== *)

Lemma insert_sorted_In kv x l :
  In x (insert_sorted kv l) <-> x = kv \/ In x l.
Proof.
  induction l as [|kv' l IH]; simpl.
  - intuition congruence.
  - destruct (String.leb (fst kv) (fst kv')); simpl.
    + intuition congruence.
    + rewrite IH. intuition congruence.
Qed.

Lemma sorted_In x l : In x (sorted l) <-> In x l.
Proof.
  unfold sorted. induction l as [|kv l IH]; simpl; [tauto|].
  rewrite insert_sorted_In, IH. intuition congruence.
Qed.

Lemma insert_sorted_length kv l :
  length (insert_sorted kv l) = S (length l).
Proof.
  induction l as [|kv' l IH]; simpl; [reflexivity|].
  destruct (String.leb (fst kv) (fst kv')); simpl; [reflexivity|].
  now rewrite IH.
Qed.

Lemma sorted_length l : length (sorted l) = length l.
Proof.
  unfold sorted. induction l as [|kv l IH]; simpl; [reflexivity|].
  now rewrite insert_sorted_length, IH.
Qed.

Lemma sorted_all_mappings l :
  all_mappings l = true -> all_mappings (sorted l) = true.
Proof.
  unfold all_mappings. rewrite !forallb_forall.
  intros H x Hx. apply H. now apply sorted_In.
Qed.

Lemma print_run t w : Py.print t w = (Return tt, after_print t w).
Proof. reflexivity. Qed.

(** The listing of the menu prints and nothing else, when every entry of
    the catalog is a [dict]. *)
Lemma list_commands_runs items :
  forall idx w,
    all_mappings items = true ->
    exists w',
      list_commands idx items w = (Return tt, w')
      /\ stdin w' = stdin w /\ network w' = network w.
Proof.
  induction items as [|[name meta] items IH]; intros idx w H.
  - exists w. now repeat split.
  - simpl in H. apply andb_prop in H as [Hm H].
    destruct meta as [ |b|z|f|s|l|m]; try discriminate.
    destruct (IH (idx + 1)%Z
                (after_print [Lit "  "; Fmt (VInt idx); Lit ". "; Lit name;
                              Lit " — "; Fmt (get_or m "summary" (VStr ""))] w)
                H) as (w' & E & Hs & Hn).
    exists w'. repeat split; assumption.
Qed.

(** [choose_command] up to the line it reads. *)
Lemma choose_command_reads commands line rest w :
  all_mappings commands = true ->
  stdin w = line :: rest ->
  exists w1,
    stdin w1 = rest /\ network w1 = network w
    /\ choose_command commands w
       = (let raw := Str.strip line in
          if negb (truthy (VStr raw)) then ret None
          else
            parsed <-
              try_except (idx <- Py.int raw ;; ret (Some idx))
                is_ValueError
                (fun _ => Py.print [Lit "Введите корректный номер."] ;;
                          ret None) ;;
            match parsed with
            | None => choose_command commands
            | Some idx =>
                let items := sorted commands in
                if negb ((1 <=? idx)%Z
                         && (idx <=? Z.of_nat (length items))%Z) then
                  Py.print [Lit "Неверный номер."] ;;
                  choose_command commands
                else
                  match nth_error items (Z.to_nat (idx - 1)) with
                  | Some (name, _) => ret (Some name)
                  | None => raise IndexError
                  end
            end) w1.
Proof.
  intros Hc Hin.
  destruct (list_commands_runs (sorted commands) 1%Z
              (after_print [Lit "Доступные методы:"] w)
              (sorted_all_mappings _ Hc)) as (w0 & E & Hs & Hn).
  simpl in Hs, Hn. rewrite Hin in Hs.
  exists (after_input menu_prompt rest w0).
  split; [reflexivity|]. split; [exact Hn|].
  unfold choose_command at 1.
  rewrite (bind_Return Py.lines_left _ w (length (stdin w)) w eq_refl).
  cbn [choose_command_at].
  rewrite (bind_Return _ _ _ _ _ (print_run _ _)).
  rewrite (bind_Return _ _ _ _ _ E).
  rewrite (bind_Return _ _ _ _ _ (input_line _ _ _ _ Hs)). cbv zeta.
  destruct (negb (truthy (VStr (Str.strip line)))); [reflexivity|].
  apply bind_ext. intros parsed w2 Hparsed.
  assert (Hw2 : stdin w2 = rest).
  { unfold try_except, Py.int, lift, bind, Py.print, emit, ret, raise
      in Hparsed.
    destruct (Py.parse_int (Str.strip line)); simpl in Hparsed;
      inversion Hparsed; reflexivity. }
  assert (Hrec : forall w3, stdin w3 = rest ->
                            choose_command_at (length (stdin w)) commands w3
                            = choose_command commands w3).
  { intros w3 H3. unfold choose_command, Py.lines_left, bind.
    now rewrite Hin, H3. }
  destruct parsed as [idx|]; [|now apply Hrec].
  destruct (negb _); [|reflexivity].
  unfold bind. simpl (Py.print _ w2). now apply Hrec.
Qed.

(** X18: an empty line at the menu (blanks included) makes
    [choose_command] return [None]; it has read that one line. *)
Theorem empty_choice_leaves_the_menu commands line rest w :
  all_mappings commands = true ->
  stdin w = line :: rest ->
  Str.strip line = "" ->
  result_of (choose_command commands) w = Return None
  /\ unread (choose_command commands) w = rest.
Proof.
  intros Hc Hin Hs. unfold result_of, unread.
  destruct (choose_command_reads commands line rest w Hc Hin)
    as (w1 & H1 & _ & ->).
  cbv zeta. rewrite Hs. simpl. now split.
Qed.

Lemma empty_choice_leaves_the_menu_witness :
  result_of (choose_command COMMANDS) (typed ["  "; "1"]) = Return None
  /\ unread (choose_command COMMANDS) (typed ["  "; "1"]) = ["1"].
Proof.
  exact (empty_choice_leaves_the_menu COMMANDS "  " ["1"] (typed ["  "; "1"])
           eq_refl eq_refl eq_refl).
Defined.

Lemma choose_command_valid commands line rest idx name meta w :
  all_mappings commands = true ->
  stdin w = line :: rest ->
  Py.parse_int (Str.strip line) = Some idx ->
  (1 <=? idx)%Z = true ->
  nth_error (sorted commands) (Z.to_nat (idx - 1)) = Some (name, meta) ->
  result_of (choose_command commands) w = Return (Some name)
  /\ unread (choose_command commands) w = rest.
Proof.
  intros Hc Hin Hp H1 Hn. unfold result_of, unread.
  destruct (choose_command_reads commands line rest w Hc Hin)
    as (w1 & Hs & _ & ->).
  cbv zeta. pose proof (parse_int_nonempty _ _ Hp) as Hne.
  unfold truthy. rewrite (nonempty_eqb _ Hne). simpl negb. cbv iota.
  unfold try_except, Py.int, lift, bind at 1 2. rewrite Hp.
  unfold bind, ret. simpl.
  assert (Hr : (idx <=? Z.of_nat (length (sorted commands)))%Z = true).
  { assert (Z.to_nat (idx - 1) < length (sorted commands))
      by (apply nth_error_Some; congruence).
    apply Z.leb_le in H1. apply Z.leb_le. lia. }
  rewrite H1, Hr, Hn. simpl. now split.
Qed.

(** X19: a number between 1 and the size of the catalog selects the
    command that stands at that place when the names are sorted; one
    line is read. *)
Theorem number_selects_sorted_command commands line rest idx name meta w :
  all_mappings commands = true ->
  stdin w = line :: rest ->
  Py.parse_int (Str.strip line) = Some idx ->
  (1 <=? idx)%Z = true ->
  nth_error (sorted commands) (Z.to_nat (idx - 1)) = Some (name, meta) ->
  result_of (choose_command commands) w = Return (Some name)
  /\ unread (choose_command commands) w = rest.
Proof. apply choose_command_valid. Qed.

Lemma number_selects_sorted_command_witness :
  result_of (choose_command (rev COMMANDS)) (typed [" 3 "; "x"])
  = Return (Some "v3/supply-order/list")
  /\ unread (choose_command (rev COMMANDS)) (typed [" 3 "; "x"]) = ["x"].
Proof.
  exact (number_selects_sorted_command (rev COMMANDS) " 3 " ["x"] 3%Z
           "v3/supply-order/list" _ (typed [" 3 "; "x"])
           eq_refl eq_refl eq_refl eq_refl eq_refl).
Defined.

(** X20: a choice that, trimmed, is a non-empty ASCII text and is not a
    number, or is a number outside 1..n, is answered by a message and
    the menu again: from there on the run is that of a fresh
    [choose_command] on the lines that follow. *)
Theorem bad_choice_asks_again commands line rest w :
  all_mappings commands = true ->
  stdin w = line :: rest ->
  negb (Str.strip line =? "") = true ->
  Str.is_ascii (Str.strip line) = true ->
  match Py.parse_int (Str.strip line) with
  | Some idx => negb ((1 <=? idx)%Z && (idx <=? Z.of_nat (length commands))%Z)
  | None => true
  end = true ->
  exists w1,
    stdin w1 = rest /\ network w1 = network w
    /\ last (trace w1) (Printed [])
       = Printed [Lit (match Py.parse_int (Str.strip line) with
                       | Some _ => "Неверный номер."
                       | None => "Введите корректный номер."
                       end)]
    /\ choose_command commands w = choose_command commands w1.
Proof.
  intros Hc Hin Hne _ Hbad.
  destruct (choose_command_reads commands line rest w Hc Hin)
    as (w1 & Hs & Hn & E).
  destruct (Py.parse_int (Str.strip line)) as [idx|] eqn:Hp.
  - exists (after_print [Lit "Неверный номер."] w1).
    repeat split; try assumption; [apply last_last|].
    rewrite E. cbv zeta. unfold truthy. rewrite Hne.
    unfold try_except, Py.int, lift, bind, ret. rewrite Hp. simpl.
    now rewrite sorted_length, Hbad.
  - exists (after_print [Lit "Введите корректный номер."] w1).
    repeat split; try assumption; [apply last_last|].
    rewrite E. cbv zeta. unfold truthy. rewrite Hne.
    unfold try_except, Py.int, lift, bind, ret, raise. now rewrite Hp.
Qed.

Lemma bad_choice_asks_again_witness :
  exists w1,
    stdin w1 = ["2"] /\ network w1 = network (typed ["7"; "2"])
    /\ last (trace w1) (Printed []) = Printed [Lit "Неверный номер."]
    /\ choose_command COMMANDS (typed ["7"; "2"]) = choose_command COMMANDS w1.
Proof.
  exact (bad_choice_asks_again COMMANDS "7" ["2"] (typed ["7"; "2"])
           eq_refl eq_refl eq_refl eq_refl eq_refl).
Defined.

(** X21: every command of the catalog can be chosen: for each name there
    is a number between 1 and the size of the catalog that selects it. *)
Theorem every_command_can_be_selected commands name :
  all_mappings commands = true ->
  member name (keys commands) = true ->
  exists idx,
    (1 <= idx <= Z.of_nat (length commands))%Z
    /\ forall line rest w,
        stdin w = line :: rest ->
        Py.parse_int (Str.strip line) = Some idx ->
        result_of (choose_command commands) w = Return (Some name)
        /\ unread (choose_command commands) w = rest.
Proof.
  intros Hc Hm. apply member_In in Hm. unfold keys in Hm.
  apply in_map_iff in Hm as ([name' meta] & E & Hin). simpl in E. subst name'.
  apply sorted_In, In_nth_error in Hin as (n & Hn).
  assert (Hlt : n < length commands).
  { rewrite <- sorted_length. apply nth_error_Some. congruence. }
  exists (Z.of_nat n + 1)%Z. split; [lia|].
  intros line rest w Hs Hp.
  apply choose_command_valid with line (Z.of_nat n + 1)%Z meta;
    try assumption.
  - apply Z.leb_le. lia.
  - replace (Z.to_nat (Z.of_nat n + 1 - 1)) with n by lia. exact Hn.
Qed.

Lemma every_command_can_be_selected_witness :
  exists idx,
    (1 <= idx <= Z.of_nat (length COMMANDS))%Z
    /\ forall line rest w,
        stdin w = line :: rest ->
        Py.parse_int (Str.strip line) = Some idx ->
        result_of (choose_command COMMANDS) w
        = Return (Some "v3/supply-order/get")
        /\ unread (choose_command COMMANDS) w = rest.
Proof.
  exact (every_command_can_be_selected COMMANDS "v3/supply-order/get"
           eq_refl eq_refl).
Defined.




Lemma verify_credentials_run client_id api_key w r net :
  network w = Some r :: net ->
  verify_credentials client_id api_key w
  = (Return (status_code r =? 200)%Z,
     {| stdin := stdin w; network := net;
        trace := (trace w
                  ++ [Requested "post" (BASE_URL ++ "v1/warehouse/list")
                        [("Client-Id", client_id); ("Api-Key", api_key)]
                        (VDict [])])%list |}).
Proof.
  intros Hn.
  unfold verify_credentials, Requests.post, Requests.request, try_except,
    bind, emit, ret.
  simpl. now rewrite Hn.
Qed.

(* ================================================================== *)
(** ** The start and the end of a session: [main] *)
(* ================================================================== *)

(** The first steps of [main]: the banner and the two credential lines. *)
Ltac main_start Hin l2 rest w :=
  unfold main;
  rewrite (bind_Return _ _ _ _ _ (print_run _ _));
  rewrite (bind_Return _ _ _ _ _
             (input_line [Lit "Введите Client-Id: "] _ _ _ Hin));
  rewrite (bind_Return _ _ _ _ _
             (input_line [Lit "Введите Api-Key: "] l2 rest
                (after_input [Lit "Введите Client-Id: "] (l2 :: rest)
                   (after_print [Lit banner] w))
                eq_refl));
  cbv zeta.

(** X23: when the Client-Id or the Api-Key is empty once trimmed, [main]
    stops with [sys.exit(1)] after its message; both lines have been
    read, no request has been sent and no reply of the server used. *)
Theorem missing_credentials_stop_the_program l1 l2 rest w :
  stdin w = l1 :: l2 :: rest ->
  (Str.strip l1 =? "") || (Str.strip l2 =? "") = true ->
  main w
  = (Raise (SystemExit 1),
     {| stdin := rest;
        network := network w;
        trace := (trace w
                  ++ [Printed [Lit banner];
                      Prompted [Lit "Введите Client-Id: "];
                      Prompted [Lit "Введите Api-Key: "];
                      Printed [Lit "Требуется указать Client-Id и Api-Key."]])%list
     |}).
Proof.
  intros Hin Hc.
  assert (Hin' : stdin (after_print [Lit banner] w) = l1 :: l2 :: rest)
    by exact Hin.
  main_start Hin' l2 rest w. rewrite Hc.
  unfold bind, sys_exit, raise, Py.print, emit, after_input, after_print.
  simpl. repeat rewrite <- app_assoc. reflexivity.
Qed.

Lemma missing_credentials_stop_the_program_witness :
  main {| stdin := ["id"; "   "; "1"]; network := [Some ok_reply];
          trace := [] |}
  = (Raise (SystemExit 1),
     {| stdin := ["1"];
        network := [Some ok_reply];
        trace := [Printed [Lit banner];
                  Prompted [Lit "Введите Client-Id: "];
                  Prompted [Lit "Введите Api-Key: "];
                  Printed [Lit "Требуется указать Client-Id и Api-Key."]] |}).
Proof.
  exact (missing_credentials_stop_the_program "id" "   " ["1"]
           {| stdin := ["id"; "   "; "1"]; network := [Some ok_reply];
              trace := [] |}
           eq_refl eq_refl).
Defined.

(** X24: when the probe of the credentials is not answered by status
    200 (another status, or a failed request), [main] stops with
    [sys.exit(1)] after its message.  The probe carried the trimmed
    credentials; the menu was never shown and no further line read. *)
Theorem rejected_credentials_stop_the_program l1 l2 rest w :
  stdin w = l1 :: l2 :: rest ->
  (Str.strip l1 =? "") || (Str.strip l2 =? "") = false ->
  match network w with
  | Some r :: _ => (status_code r =? 200)%Z
  | _ => false
  end = false ->
  main w
  = (Raise (SystemExit 1),
     {| stdin := rest;
        network := tl (network w);
        trace := (trace w
                  ++ [Printed [Lit banner];
                      Prompted [Lit "Введите Client-Id: "];
                      Prompted [Lit "Введите Api-Key: "];
                      Printed [Lit "Проверяем ключи..."];
                      Requested "post" (BASE_URL ++ "v1/warehouse/list")
                        [("Client-Id", Str.strip l1);
                         ("Api-Key", Str.strip l2)]
                        (VDict []);
                      Printed [Lit "Не удалось подтвердить ключ. Проверьте данные и попробуйте снова."]])%list
     |}).
Proof.
  intros Hin Hc Hv.
  assert (Hin' : stdin (after_print [Lit banner] w) = l1 :: l2 :: rest)
    by exact Hin.
  main_start Hin' l2 rest w. rewrite Hc.
  unfold verify_credentials, Requests.post, Requests.request, try_except,
    bind, sys_exit, raise, ret, Py.print, emit, after_input, after_print.
  simpl.
  destruct (network w) as [|[r|] net]; simpl in Hv |- *;
    try rewrite Hv; simpl; repeat rewrite <- app_assoc; reflexivity.
Qed.

Lemma rejected_credentials_stop_the_program_witness :
  result_of main
    {| stdin := [" id "; "key"; "1"];
       network := [Some {| status_code := 403; body_text := "";
                           body_json := None |}];
       trace := [] |}
  = Raise (SystemExit 1).
Proof.
  exact (f_equal fst
           (rejected_credentials_stop_the_program " id " "key" ["1"]
              {| stdin := [" id "; "key"; "1"];
                 network := [Some {| status_code := 403; body_text := "";
                                     body_json := None |}];
                 trace := [] |}
              eq_refl eq_refl eq_refl)).
Defined.

Lemma choose_command_exit commands line rest w :
  all_mappings commands = true ->
  stdin w = line :: rest ->
  Str.strip line = "" ->
  exists w1,
    choose_command commands w = (Return None, w1)
    /\ stdin w1 = rest /\ network w1 = network w.
Proof.
  intros Hc Hin Hs.
  destruct (choose_command_reads commands line rest w Hc Hin)
    as (w1 & H1 & Hn & E).
  exists w1. repeat split; try assumption.
  rewrite E. cbv zeta. now rewrite Hs.
Qed.

(** X25: with credentials that the server accepts, an empty line at the
    first menu ends the session in the regular way: [main] returns, its
    last output is the farewell, three lines have been read and the one
    reply of the probe used. *)
Theorem empty_choice_ends_the_session l1 l2 l3 rest w :
  stdin w = l1 :: l2 :: l3 :: rest ->
  (Str.strip l1 =? "") || (Str.strip l2 =? "") = false ->
  match network w with
  | Some r :: _ => (status_code r =? 200)%Z
  | _ => false
  end = true ->
  Str.strip l3 = "" ->
  result_of main w = Return tt
  /\ unread main w = rest
  /\ network (snd (main w)) = tl (network w)
  /\ last (trace (snd (main w))) (Printed []) = Printed [Lit "До встречи!"].
Proof.
  intros Hin Hc Hv Hs.
  assert (Hin' : stdin (after_print [Lit banner] w) = l1 :: l2 :: l3 :: rest)
    by exact Hin.
  unfold result_of, unread, main at 3.
  main_start Hin' l2 (l3 :: rest) w. rewrite Hc.
  rewrite (bind_Return _ _ _ tt _ eq_refl).
  rewrite (bind_Return _ _ _ _ _ (print_run _ _)).
  destruct (network w) as [|[r|] net] eqn:Hn; try discriminate.
  pose proof (verify_credentials_run (Str.strip l1) (Str.strip l2)
                (after_print [Lit "Проверяем ключи..."]
                   (after_input [Lit "Введите Api-Key: "] (l3 :: rest)
                      (after_input [Lit "Введите Client-Id: "]
                         (l2 :: l3 :: rest)
                         (after_print [Lit banner] w)))) r net Hn) as Hver.
  rewrite (bind_Return _ _ _ _ _ Hver). rewrite Hv.
  rewrite (bind_Return _ _ _ tt _ eq_refl).
  rewrite (bind_Return _ _ _ _ _ (print_run _ _)).
  rewrite (bind_Return _ _ _ tt _ eq_refl).
  match goal with
  | |- context [bind Py.lines_left ?k ?w0] =>
      rewrite (bind_Return Py.lines_left k w0 (length (stdin w0)) w0 eq_refl);
      destruct (choose_command_exit COMMANDS l3 rest w0 eq_refl eq_refl Hs)
        as (w1 & E & H1 & H2)
  end.
  cbn [session_loop]. rewrite (bind_Return _ _ _ _ _ E).
  simpl. rewrite last_last. now repeat split.
Qed.

Lemma empty_choice_ends_the_session_witness :
  result_of main
    {| stdin := ["id"; "key"; ""; "2"]; network := [Some ok_reply];
       trace := [] |}
  = Return tt
  /\ unread main
       {| stdin := ["id"; "key"; ""; "2"]; network := [Some ok_reply];
          trace := [] |}
     = ["2"].
Proof.
  pose proof (empty_choice_ends_the_session "id" "key" "" ["2"]
                {| stdin := ["id"; "key"; ""; "2"];
                   network := [Some ok_reply]; trace := [] |}
                eq_refl eq_refl eq_refl eq_refl) as H.
  exact (conj (proj1 H) (proj1 (proj2 H))).
Defined.

(** X26: whatever exception the payload builder raises (a bad number,
    malformed JSON, the end of the input), [run_command] ends with that
    same exception in the world the builder left: the request is not
    echoed, nothing is sent, and no message is printed (line 175 stands
    before the [try]). *)
Theorem builder_exception_leaves_run_command command meta method client_id
        api_key e w w' :
  get_or meta "method" (VStr "post") = VStr method ->
  prompt_for_payload (get_or meta "schema" VNone) w = (Raise e, w') ->
  run_command command (VDict meta) client_id api_key w = (Raise e, w').
Proof.
  intros Hm Hp. unfold run_command. simpl Py.get.
  unfold bind at 1, ret at 1. rewrite Hm. simpl Py.lower.
  unfold bind at 1, ret at 1. unfold bind at 1, ret at 1.
  now apply bind_Raise.
Qed.

Lemma builder_exception_leaves_run_command_witness :
  run_command "v1/raw" (VDict [("method", VStr "post")]) "id" "key"
    {| stdin := ["{oops"; "1"]; network := [Some ok_reply]; trace := [] |}
  = (Raise JSONDecodeError,
     {| stdin := ["1"]; network := [Some ok_reply];
        trace := [Prompted [Lit "Введите тело запроса в формате JSON (или оставьте пустым): "]] |}).
Proof.
  exact (builder_exception_leaves_run_command "v1/raw"
           [("method", VStr "post")] "post" "id" "key" JSONDecodeError
           {| stdin := ["{oops"; "1"]; network := [Some ok_reply];
              trace := [] |}
           _ eq_refl eq_refl).
Defined.

Lemma input_eof prompt w :
  stdin w = [] ->
  Py.input prompt w
  = (Raise EOFError,
     {| stdin := stdin w; network := network w;
        trace := (trace w ++ [Prompted prompt])%list |}).
Proof. unfold Py.input, emit, bind. simpl. now intros ->. Qed.

(** X27: when the input ends before both credentials have been typed,
    [main] ends with [EOFError]; no request has been sent. *)
Theorem early_end_of_input_ends_main w :
  Nat.ltb (length (stdin w)) 2 = true ->
  result_of main w = Raise EOFError
  /\ unread main w = []
  /\ network (snd (main w)) = network w.
Proof.
  intros H. unfold result_of, unread, main.
  rewrite (bind_Return _ _ _ _ _ (print_run _ _)).
  destruct (stdin w) as [|l1 [|l2 rest]] eqn:Hin; try discriminate.
  - assert (Hin' : stdin (after_print [Lit banner] w) = []) by exact Hin.
    rewrite (bind_Raise _ _ _ _ _
               (input_eof [Lit "Введите Client-Id: "] _ Hin')).
    simpl. now rewrite Hin.
  - assert (Hin' : stdin (after_print [Lit banner] w) = [l1]) by exact Hin.
    rewrite (bind_Return _ _ _ _ _
               (input_line [Lit "Введите Client-Id: "] _ _ _ Hin')).
    cbv zeta.
    rewrite (bind_Raise _ _ _ _ _
               (input_eof [Lit "Введите Api-Key: "]
                  (after_input [Lit "Введите Client-Id: "] []
                     (after_print [Lit banner] w)) eq_refl)).
    simpl. now repeat split.
Qed.

Lemma early_end_of_input_ends_main_witness :
  result_of main
    {| stdin := ["id"]; network := [Some ok_reply]; trace := [] |}
  = Raise EOFError.
Proof.
  exact (proj1 (early_end_of_input_ends_main
                  {| stdin := ["id"]; network := [Some ok_reply];
                     trace := [] |}
                  eq_refl)).
Defined.
